(** * Bulletin board server: protocol dispatcher and connection reactor

    A shallow embedding of [protocol.py] and [server.py].

    Representation choices.
    - A Python [str] is the [string] of its UTF-8 bytes.  Concatenation,
      [in], [split(sep, 1)] and [rstrip] with an ASCII separator, the
      length of [s.encode("utf-8")], [len(s)] and the test that
      [s.strip()] is empty are then exact.  [split()], [strip()],
      [upper()] and [int()] are modelled on the ASCII range; bytes beyond
      it are carried through unchanged.  On text of the ASCII range
      ([ascii_text]) they are Python's, but for [int()], which Python
      refuses above 4300 digits and the model does not.  A statement
      that reads a result off one of the four says for which texts: it
      asks for ASCII text, bounds the length of a numeral, or takes
      blankness from [Py.blank].
    - The module globals [USERS], [posts] and [next_post_id] form the
      record [Store], threaded through every handler.
    - A handler mutates the [client] object it is given; here it returns
      the new [ClientState].
    - The hashing object [ph], the clock and the sockets are the
      environment: a type class for [ph], explicit arguments for the rest. *)

From Stdlib Require Import ZArith Ascii String.
From stdpp Require Import gmap strings list fin_maps sorting pretty.

Local Open Scope string_scope.
Local Open Scope Z_scope.

(** ** Python string primitives *)

Module Py.

Definition LF : ascii := "010"%char.
Definition NL : string := String LF "".
Definition CR : ascii := "013"%char.
Definition SP : ascii := " "%char.

(** [c.isspace()] on the ASCII range: TAB, LF, VT, FF, CR, FS, GS, RS,
    US and the space. The whitespace of Unicode beyond it (see [blank])
    is not whitespace for [lstrip], [rstrip], [strip] and [split] below,
    which are those of Python on ASCII text. *)
Definition isspace (c : ascii) : bool :=
  match c with
  | "009" | "010" | "011" | "012" | "013"
  | "028" | "029" | "030" | "031" | " " => true
  | _ => false
  end%char.

(** [s.lstrip()] *)
Fixpoint lstrip (s : string) : string :=
  match s with
  | String c s' => if isspace c then lstrip s' else s
  | "" => ""
  end.

(** [s.rstrip()] *)
Fixpoint rstrip (s : string) : string :=
  match s with
  | String c s' =>
      match rstrip s' with
      | "" => if isspace c then "" else String c ""
      | r => String c r
      end
  | "" => ""
  end.

(** [s.strip()] *)
Definition strip (s : string) : string := rstrip (lstrip s).

(** [s.rstrip(chars)] for a one-character [chars]. *)
Fixpoint rstrip_char (x : ascii) (s : string) : string :=
  match s with
  | String c s' =>
      match rstrip_char x s' with
      | "" => if Ascii.eqb c x then "" else String c ""
      | r => String c r
      end
  | "" => ""
  end.

(** [s.split()]: the maximal runs of non-space characters. [cur] is the
    run being read. *)
Fixpoint split_go (cur : string) (s : string) : list string :=
  match s with
  | String c s' =>
      if isspace c
      then match cur with
           | "" => split_go "" s'
           | _ => cur :: split_go "" s'
           end
      else split_go (cur +:+ String c "") s'
  | "" => match cur with "" => [] | _ => [cur] end
  end.
Definition split (s : string) : list string := split_go "" s.

(** [s.split(sep, 1)] for a one-character [sep]: the text before the
    first [sep] and, when there is one, the text after it. *)
Fixpoint split1 (sep : ascii) (s : string) : string * option string :=
  match s with
  | String c s' =>
      if Ascii.eqb c sep then ("", Some s')
      else let '(h, t) := split1 sep s' in (String c h, t)
  | "" => ("", None)
  end.

(** [sep in s] *)
Fixpoint contains (sep : ascii) (s : string) : bool :=
  match s with
  | String c s' => Ascii.eqb c sep || contains sep s'
  | "" => false
  end.

(** [s.upper()] on the ASCII range: the letters a to z. Python also maps
    letters beyond it, some of them to ASCII letters (U+017F to S, U+0131
    to I, the ligatures U+FB00 to U+FB06, U+00DF to SS); on ASCII text
    this is [upper()]. *)
Definition upper_char (c : ascii) : ascii :=
  let n := nat_of_ascii c in
  if (97 <=? n)%nat && (n <=? 122)%nat then ascii_of_nat (n - 32) else c.
Fixpoint upper (s : string) : string :=
  match s with
  | String c s' => String (upper_char c) (upper s')
  | "" => ""
  end.

(** [int(s)] in base ten: surrounding whitespace, an optional sign,
    then digits, with single underscores allowed between digits.
    [None] stands for [ValueError]. The digits are the ASCII ones, and
    the [ValueError] of CPython above 4300 digits is not modelled: this
    is [int()] on ASCII text of at most 4300 characters. *)
Definition digit (c : ascii) : option Z :=
  let n := nat_of_ascii c in
  if (48 <=? n)%nat && (n <=? 57)%nat then Some (Z.of_nat n - 48) else None.

Fixpoint digits (acc : Z) (after_us : bool) (s : string) : option Z :=
  match s with
  | String c s' =>
      if Ascii.eqb c "_"%char
      then if after_us then None else digits acc true s'
      else match digit c with
           | Some d => digits (10 * acc + d) false s'
           | None => None
           end
  | "" => if after_us then None else Some acc
  end.

Definition unsigned (s : string) : option Z :=
  match s with
  | String c _ =>
      match digit c with Some _ => digits 0 false s | None => None end
  | "" => None
  end.

Definition int (s : string) : option Z :=
  match strip s with
  | String "-"%char b => Z.opp <$> unsigned b
  | String "+"%char b => unsigned b
  | t => unsigned t
  end.

(** [len(s)]: the number of characters, that is of the bytes that are
    not continuation bytes (10xxxxxx) of a longer character. *)
Definition is_start (c : ascii) : bool :=
  let n := nat_of_ascii c in negb ((128 <=? n)%nat && (n <=? 191)%nat).
Fixpoint len (s : string) : nat :=
  match s with
  | String c s' => if is_start c then S (len s') else len s'
  | "" => O
  end.

(** [s.strip() == ""]: every character of [s] is whitespace for Python.
    Beyond the ASCII range these are U+0085, U+00A0, U+1680, U+2000 to
    U+200A, U+2028, U+2029, U+202F, U+205F and U+3000, read here in
    their UTF-8 encodings. *)
Definition byte_is (n : nat) (c : ascii) : bool := (nat_of_ascii c =? n)%nat.
Definition byte_in (lo hi : nat) (c : ascii) : bool :=
  ((lo <=? nat_of_ascii c) && (nat_of_ascii c <=? hi))%nat.
Fixpoint blank (s : string) : bool :=
  match s with
  | "" => true
  | String c s1 =>
      if isspace c then blank s1
      else
        match s1 with
        | String d s2 =>
            if byte_is 194 c && (byte_is 133 d || byte_is 160 d)
            then blank s2
            else
              match s2 with
              | String e s3 =>
                  if (byte_is 225 c && byte_is 154 d && byte_is 128 e)
                     || (byte_is 226 c && byte_is 128 d
                         && (byte_in 128 138 e || byte_is 168 e
                             || byte_is 169 e || byte_is 175 e))
                     || (byte_is 226 c && byte_is 129 d && byte_is 159 e)
                     || (byte_is 227 c && byte_is 128 d && byte_is 128 e)
                  then blank s3
                  else false
              | "" => false
              end
        | "" => false
        end
  end.

(** [s.startswith(p)] *)
Fixpoint startswith (p s : string) : bool :=
  match p with
  | "" => true
  | String a p' =>
      match s with
      | String b s' => Ascii.eqb a b && startswith p' s'
      | "" => false
      end
  end.

(** [str(x)] for an attribute that is [None] or a [str]. *)
Definition fmt (o : option string) : string := default "None" o.

(** [sep.join(l)] is [String.concat sep l]. *)
Definition join (sep : string) (l : list string) : string :=
  String.concat sep l.

End Py.

(** ** Data model *)

(** A value of the [USERS] dictionary: a dictionary with the keys
    ["pw_hash"] and ["role"], either of which may be missing. *)
Record UserRecord := {
  rec_pw_hash : option string;
  rec_role : option string
}.

(** [class Post] *)
Record Post := {
  post_id : Z;
  author : option string;
  timestamp : string;
  message : string
}.

(** [class ClientState] of [server.py]; [sock] is the descriptor the
    reactor keys its [clients] dictionary with. *)
Record ClientState := {
  sock : nat;
  addr : string;
  buffer : string;
  username : option string;
  role : option string;
  authenticated : bool
}.

(** The module globals of [protocol.py]. *)
Record Store := {
  USERS : gmap string UserRecord;
  posts : gmap Z Post;
  next_post_id : Z
}.

Definition set_buffer (c : ClientState) (b : string) : ClientState :=
  {| sock := sock c; addr := addr c; buffer := b; username := username c;
     role := role c; authenticated := authenticated c |}.

(** [ph = PasswordHasher()]: [ph_verify h p] is [true] when
    [ph.verify(h, p)] returns and [false] when it raises
    [VerifyMismatchError]. *)
Class PasswordHasher := {
  ph_hash : string -> string;
  ph_verify : string -> string -> bool
}.

(** Lookup in a dictionary literal. *)
Fixpoint assoc {V} (k : string) (d : list (string * V)) : option V :=
  match d with
  | (k', v) :: d' => if String.eqb k k' then Some v else assoc k d'
  | [] => None
  end.

Definition ln (s : string) : string := s +:+ Py.NL.

(** ** protocol.py *)

Section Protocol.
Context `{PasswordHasher}.

Definition _SEEDED_PLAINTEXT_USERS : list (string * (string * string)) :=
  [ ("oliver", ("pw1", "user"));
    ("sam", ("pw2", "user"));
    ("admin", ("adminpw", "admin")) ].

Definition _hash_seeded_users : gmap string UserRecord :=
  foldl (fun users '(name, (password, r)) =>
           <[name := {| rec_pw_hash := Some (ph_hash password);
                        rec_role := Some r |}]> users)
        ∅ _SEEDED_PLAINTEXT_USERS.

(** The globals as the module leaves them once imported. *)
Definition initial_store : Store :=
  {| USERS := _hash_seeded_users; posts := ∅; next_post_id := 1 |}.

(** [register]; [len(password)] counts characters. *)
Definition register (st : Store) (name password : string)
  : Store * (bool * string) :=
  match USERS st !! name with
  | Some _ => (st, (false, "ERR username_taken"))
  | None =>
      if (Py.len password <? 10)%nat
      then (st, (false, "ERR password_too_short"))
      else ({| USERS := <[name := {| rec_pw_hash := Some (ph_hash password);
                                     rec_role := None |}]> (USERS st);
               posts := posts st;
               next_post_id := next_post_id st |},
            (true, "OK registered"))
  end.

Definition verify_password (record : UserRecord) (password : string) : bool :=
  match rec_pw_hash record with
  | None | Some "" => false
  | Some stored_hash => ph_verify stored_hash password
  end.

Definition require_auth (client : ClientState) : option string :=
  if authenticated client then None else Some (ln "ERR Not logged in").

Definition help_body : list string :=
  [ "LOGIN <username> <password>";
    "POST <message...>";
    "LIST";
    "GET <id>";
    "DEL <id>";
    "WHOAMI";
    "HELP [command]";
    "QUIT";
    "EXAMPLES:";
    "  LOGIN oliver pw1";
    "  POST hello world";
    "  LIST";
    "  GET 1";
    "  DEL 1";
    "  WHOAMI";
    "  QUIT" ].

Definition details : list (string * list string) :=
  [ ("LOGIN",
     [ "TOPIC: LOGIN";
       "Syntax: LOGIN <username> <password>";
       "Notes: Must be called before POST/LIST/GET/DEL/WHOAMI." ]);
    ("POST",
     [ "TOPIC: POST";
       "Syntax: POST <message...>";
       "Notes: Author is your authenticated username; message is the rest of the line." ]);
    ("LIST",
     [ "TOPIC: LIST";
       "Syntax: LIST";
       "Response: OK LIST <count> followed by <count> post lines." ]);
    ("GET",
     [ "TOPIC: GET";
       "Syntax: GET <id>" ]);
    ("DEL",
     [ "TOPIC: DEL";
       "Syntax: DEL <id>";
       "Notes: Allowed if you are admin or you are the post author." ]);
    ("WHOAMI",
     [ "TOPIC: WHOAMI";
       "Syntax: WHOAMI";
       "Response: OK WHOAMI <username> <role>" ]);
    ("HELP",
     [ "TOPIC: HELP";
       "Syntax: HELP";
       "        HELP <command>" ]);
    ("QUIT",
     [ "TOPIC: QUIT";
       "Syntax: QUIT";
       "Notes: Server will close the connection after responding." ]) ].

(** ["OK HELP " + str(len(body)) + "\n" + "\n".join(body) + "\n"] *)
Definition help_response (body : list string) : string :=
  "OK HELP " +:+ pretty (length body) +:+ Py.NL
    +:+ Py.join Py.NL body +:+ Py.NL.

Definition handle_help (st : Store) (client : ClientState) (rest : string)
  : Store * ClientState * string :=
  let arg := Py.strip rest in
  match arg with
  | "" => (st, client, help_response help_body)
  | _ =>
      match Py.split arg with
      | [part] =>
          match assoc (Py.upper part) details with
          | None => (st, client, ln "ERR UNKNOWN_COMMAND")
          | Some body => (st, client, help_response body)
          end
      | _ => (st, client, ln "ERR BAD_SYNTAX")
      end
  end.

Definition handle_whoami (st : Store) (client : ClientState) (rest : string)
  : Store * ClientState * string :=
  match require_auth client with
  | Some err => (st, client, err)
  | None =>
      match Py.strip rest with
      | "" => (st, client,
               ln ("OK WHOAMI " +:+ Py.fmt (username client) +:+ " "
                     +:+ Py.fmt (role client)))
      | _ => (st, client, ln "ERR BAD_SYNTAX")
      end
  end.

Definition handle_login (st : Store) (client : ClientState) (rest : string)
  : Store * ClientState * string :=
  if authenticated client then (st, client, ln "ERR Already logged in")
  else
    match Py.split rest with
    | [name; password] =>
        match USERS st !! name with
        | None => (st, client, ln "ERR Invalid credentials")
        | Some record =>
            if negb (verify_password record password)
            then (st, client, ln "ERR Invalid credentials")
            else
              let r := default "user" (rec_role record) in
              (st,
               {| sock := sock client; addr := addr client;
                  buffer := buffer client;
                  username := Some name;
                  role := Some r;
                  authenticated := true |},
               ln ("OK Logged in as " +:+ name +:+ " (" +:+ r +:+ ")"))
        end
    | _ => (st, client, ln "ERR BAD_SYNTAX")
    end.

(** [ts] is what [time.strftime] returns at the call. *)
Definition handle_post (ts : string) (st : Store) (client : ClientState)
    (rest : string) : Store * ClientState * string :=
  match require_auth client with
  | Some err => (st, client, err)
  | None =>
      match Py.strip rest with
      | "" => (st, client, ln "ERR Empty message")
      | _ =>
          let id := next_post_id st in
          let post := {| post_id := id; author := username client;
                         timestamp := ts; message := rest |} in
          ({| USERS := USERS st;
              posts := <[id := post]> (posts st);
              next_post_id := id + 1 |},
           client,
           ln ("OK Post " +:+ pretty id +:+ " created"))
      end
  end.

(** [sorted(posts.keys())] *)
Definition sorted_keys (m : gmap Z Post) : list Z :=
  merge_sort Z.le (elements (dom m)).

Definition post_line (p : Post) : string :=
  pretty (post_id p) +:+ " " +:+ Py.fmt (author p) +:+ " "
    +:+ timestamp p +:+ " " +:+ message p.

(** The list [lines] that [handle_list] builds; [posts[post_id]] is
    defined for every key the loop visits. *)
Definition list_lines (st : Store) : list string :=
  ("OK LIST " +:+ pretty (size (posts st)))
    :: omap (fun k => post_line <$> posts st !! k) (sorted_keys (posts st)).

Definition handle_list (st : Store) (client : ClientState) (rest : string)
  : Store * ClientState * string :=
  match require_auth client with
  | Some err => (st, client, err)
  | None =>
      match Py.strip rest with
      | "" => (st, client, Py.join Py.NL (list_lines st) +:+ Py.NL)
      | _ => (st, client, ln "ERR BAD_SYNTAX")
      end
  end.

Definition handle_get (st : Store) (client : ClientState) (rest : string)
  : Store * ClientState * string :=
  match require_auth client with
  | Some err => (st, client, err)
  | None =>
      match Py.split rest with
      | [part] =>
          match Py.int part with
          | None => (st, client, ln "ERR BAD_SYNTAX")
          | Some id =>
              match posts st !! id with
              | None => (st, client, ln "ERR Not found")
              | Some post => (st, client, ln ("OK " +:+ post_line post))
              end
          end
      | _ => (st, client, ln "ERR BAD_SYNTAX")
      end
  end.

Definition handle_del (st : Store) (client : ClientState) (rest : string)
  : Store * ClientState * string :=
  match require_auth client with
  | Some err => (st, client, err)
  | None =>
      match Py.split rest with
      | [part] =>
          match Py.int part with
          | None => (st, client, ln "ERR BAD_SYNTAX")
          | Some id =>
              match posts st !! id with
              | None => (st, client, ln "ERR Not found")
              | Some post =>
                  if bool_decide (role client ≠ Some "admin")
                     && bool_decide (author post ≠ username client)
                  then (st, client, ln "ERR Not authorized")
                  else ({| USERS := USERS st;
                           posts := delete id (posts st);
                           next_post_id := next_post_id st |},
                        client,
                        ln ("OK Deleted " +:+ pretty id))
              end
          end
      | _ => (st, client, ln "ERR BAD_SYNTAX")
      end
  end.

Definition handle_quit (st : Store) (client : ClientState) (rest : string)
  : Store * ClientState * string :=
  match Py.strip rest with
  | "" => (st, client, ln "OK Bye")
  | _ => (st, client, ln "ERR BAD_SYNTAX")
  end.

Definition handler : Type :=
  Store -> ClientState -> string -> Store * ClientState * string.

(** The table [COMMANDS]: a handler and its close-after-send flag. *)
Definition COMMANDS (ts : string) : list (string * (handler * bool)) :=
  [ ("HELP", (handle_help, false));
    ("LOGIN", (handle_login, false));
    ("POST", (handle_post ts, false));
    ("LIST", (handle_list, false));
    ("GET", (handle_get, false));
    ("DEL", (handle_del, false));
    ("WHOAMI", (handle_whoami, false));
    ("QUIT", (handle_quit, true)) ].

(** [process_line(client, line)] for a [str] line (the reactor never
    passes [None]); the response is [None] where the source returns
    [None]. *)
Definition process_line (ts : string) (st : Store) (client : ClientState)
    (line : string) : Store * ClientState * option string * bool :=
  match line with
  | "" => (st, client, None, false)
  | _ =>
      let '(part0, part1) := Py.split1 Py.SP line in
      let cmd := Py.upper part0 in
      let rest := default "" part1 in
      match assoc cmd (COMMANDS ts) with
      | None => (st, client, Some (ln "ERR UNKNOWN_COMMAND"), false)
      | Some (h, should_close) =>
          let '(st', client', response) := h st client rest in
          (st', client', Some response, should_close)
      end
  end.

End Protocol.

(** ** server.py *)

Definition MAX_BUFFER_BYTES : nat := 64 * 1024.

(** [data.decode("utf-8")]: on the representation, decoding checks that
    the bytes are well-formed UTF-8 (shortest form, no surrogates, at most
    U+10FFFF) and returns them; [None] stands for [UnicodeDecodeError]. *)
Module Utf8.
Definition between (lo hi : nat) (c : ascii) : bool :=
  let n := nat_of_ascii c in ((lo <=? n) && (n <=? hi))%nat.
Definition cont : ascii -> bool := between 128 191.

Fixpoint valid (s : string) : bool :=
  match s with
  | "" => true
  | String b0 s1 =>
      let n := nat_of_ascii b0 in
      if (n <? 128)%nat then valid s1
      else if between 194 223 b0 then
        match s1 with
        | String b1 s2 => cont b1 && valid s2
        | _ => false
        end
      else if between 224 239 b0 then
        match s1 with
        | String b1 (String b2 s3) =>
            between (if (n =? 224)%nat then 160 else 128)
                    (if (n =? 237)%nat then 159 else 191) b1
              && cont b2 && valid s3
        | _ => false
        end
      else if between 240 244 b0 then
        match s1 with
        | String b1 (String b2 (String b3 s4)) =>
            between (if (n =? 240)%nat then 144 else 128)
                    (if (n =? 244)%nat then 143 else 191) b1
              && cont b2 && cont b3 && valid s4
        | _ => false
        end
      else false
  end.

Definition decode (data : string) : option string :=
  if valid data then Some data else None.
End Utf8.

(** What one call of [handle_client_socket] gets from outside: the result
    of [sock.recv(4096)], whether the [sendall] of the [k]-th extracted
    line's response raises [ConnectionError], and the local time at the
    [k]-th extracted line. *)
Inductive recv_result :=
| RecvConnectionError
| RecvData (data : string).

Record Env := {
  recv : recv_result;
  send_fails : nat -> bool;
  clock : nat -> string
}.

(** What the reactor does to its sockets. *)
Inductive action :=
| SendAll (fd : nat) (data : string)
| SockClose (fd : nat).

(** The dictionary [clients] and the globals of [protocol.py]. *)
Record Server := {
  clients : gmap nat ClientState;
  store : Store
}.

(** [ClientState(sock, addr)] *)
Definition new_client (fd : nat) (a : string) : ClientState :=
  {| sock := fd; addr := a; buffer := ""; username := None; role := None;
     authenticated := false |}.

(** [close_client(sock)] *)
Definition close_client (fd : nat) (srv : Server) : Server * list action :=
  ({| clients := delete fd (clients srv); store := store srv |},
   [SockClose fd]).

Section Reactor.
Context `{PasswordHasher}.

(** The [while "\n" in client.buffer] loop. The state of the
    connection comes back as [Some client] while it is open and as
    [None] once [close_client] has run. Each turn removes a line feed
    from the buffer, so [fuel] at least the length of the buffer is
    never used up (see [drain_fuel]). *)
Fixpoint drain (fuel : nat) (env : Env) (k : nat) (fd : nat) (st : Store)
    (client : ClientState) : Store * option ClientState * list action :=
  match fuel with
  | O => (st, Some client, [])
  | S fuel' =>
      if negb (Py.contains Py.LF (buffer client)) then (st, Some client, [])
      else
        let '(raw_line, tail) := Py.split1 Py.LF (buffer client) in
        let client1 := set_buffer client (default "" tail) in
        match Py.rstrip_char Py.CR raw_line with
        | "" => drain fuel' env (S k) fd st client1
        | line =>
            let '(st2, client2, response, should_close) :=
              process_line (clock env k) st client1 line in
            let sent :=
              match response with
              | None | Some "" => []
              | Some r => [SendAll fd r]
              end in
            if match sent with [] => false | _ => send_fails env k end
            then (st2, None, (sent ++ [SockClose fd])%list)
            else if should_close
            then (st2, None, (sent ++ [SockClose fd])%list)
            else
              let '(st3, oc, acts) := drain fuel' env (S k) fd st2 client2 in
              (st3, oc, (sent ++ acts)%list)
        end
  end.

(** [handle_client_socket(sock)]. The environment may hand over more
    than 4096 bytes; nothing below depends on the bound. *)
Definition handle_client_socket (env : Env) (fd : nat) (srv : Server)
  : Server * list action :=
  match clients srv !! fd with
  | None => (srv, [SockClose fd])
  | Some client =>
      let data :=
        match recv env with
        | RecvConnectionError => ""
        | RecvData d => d
        end in
      match data with
      | "" => close_client fd srv
      | _ =>
          match Utf8.decode data with
          | None => close_client fd srv
          | Some text =>
              let client1 := set_buffer client (buffer client +:+ text) in
              if (MAX_BUFFER_BYTES <? String.length (buffer client1))%nat
              then
                let '(srv', acts) := close_client fd srv in
                (srv', SendAll fd (ln "ERR Line too long") :: acts)
              else
                let '(st, oc, acts) :=
                  drain (String.length (buffer client1)) env 0 fd
                        (store srv) client1 in
                ({| clients :=
                      match oc with
                      | Some c => <[fd := c]> (clients srv)
                      | None => delete fd (clients srv)
                      end;
                    store := st |},
                 acts)
          end
      end
  end.

(** One turn of the [select] loop of [main] for one ready socket. *)
Inductive event :=
| Accept (fd : nat) (a : string)
| Readable (fd : nat) (env : Env).

Definition step (srv : Server) (ev : event) : Server * list action :=
  match ev with
  | Accept fd a =>
      ({| clients := <[fd := new_client fd a]> (clients srv);
          store := store srv |}, [])
  | Readable fd env => handle_client_socket env fd srv
  end.

Fixpoint run (srv : Server) (evs : list event) : Server * list action :=
  match evs with
  | [] => (srv, [])
  | ev :: evs' =>
      let '(srv1, a1) := step srv ev in
      let '(srv2, a2) := run srv1 evs' in
      (srv2, (a1 ++ a2)%list)
  end.

Definition initial_server : Server :=
  {| clients := ∅; store := initial_store |}.

End Reactor.

(** A hasher to run the model with: the credential is the password behind
    a fixed tag. *)
Definition plain_hasher : PasswordHasher :=
  {| ph_hash p := "$plain$" +:+ p;
     ph_verify h p := String.eqb h ("$plain$" +:+ p) |}.

(** ** Predicates used in the statements *)

(** The second half of [process_line]: what happens once [cmd] and [rest]
    are known. *)
Definition dispatch `{PasswordHasher} (ts cmd : string) (st : Store)
    (client : ClientState) (rest : string)
  : Store * ClientState * option string * bool :=
  match assoc cmd (COMMANDS ts) with
  | None => (st, client, Some (ln "ERR UNKNOWN_COMMAND"), false)
  | Some (h, should_close) =>
      let '(st', client', response) := h st client rest in
      (st', client', Some response, should_close)
  end.

(** The names in [COMMANDS]. *)
Definition command_names : list string :=
  ["HELP"; "LOGIN"; "POST"; "LIST"; "GET"; "DEL"; "WHOAMI"; "QUIT"].

(** [s.endswith(x)] for a character [x]. *)
Fixpoint ends_with (x : ascii) (s : string) : bool :=
  match s with
  | "" => false
  | String c "" => Ascii.eqb c x
  | String _ s' => ends_with x s'
  end.

(** [x * n] *)
Fixpoint repeat_char (x : ascii) (n : nat) : string :=
  match n with O => "" | S n' => String x (repeat_char x n') end.

(** Every character of [s] passes the test [P]. *)
Fixpoint str_all (P : ascii -> bool) (s : string) : bool :=
  match s with
  | "" => true
  | String c s' => P c && str_all P s'
  end.

Definition no_lf (s : string) : Prop := Py.contains Py.LF s = false.

Definition nonspace (c : ascii) : bool := negb (Py.isspace c).

(** The characters of a decimal numeral. *)
Definition is_num_char (c : ascii) : bool :=
  match Py.digit c with Some _ => true | None => Ascii.eqb c "-"%char end.

(** What a client reads off the wire: the lines that are complete, each
    without its line feed, and the text after the last line feed. [cur]
    is the line being read. *)
Fixpoint wire_lines_go (cur : string) (s : string) : list string * string :=
  match s with
  | String c s' =>
      if Ascii.eqb c Py.LF
      then let '(ls, r) := wire_lines_go "" s' in (cur :: ls, r)
      else wire_lines_go (cur +:+ String c "") s'
  | "" => ([], cur)
  end.
Definition wire_lines (s : string) : list string * string :=
  wire_lines_go "" s.

(** The posts in the store can go on a line each: no field holds a line
    feed, and a post is filed under its own id. *)
Definition store_ok (st : Store) : Prop :=
  forall k p, posts st !! k = Some p ->
    post_id p = k /\ no_lf (Py.fmt (author p)) /\
    no_lf (timestamp p) /\ no_lf (message p).

Definition session_ok (c : ClientState) : Prop :=
  no_lf (Py.fmt (username c)).

(** The local time never prints with a line feed in it. *)
Definition env_ok (env : Env) : Prop := forall k, no_lf (clock env k).

Definition event_ok `{PasswordHasher} (ev : event) : Prop :=
  match ev with
  | Accept _ _ => True
  | Readable _ env => env_ok env
  end.

Definition server_ok (srv : Server) : Prop :=
  store_ok (store srv) /\
  forall fd c, clients srv !! fd = Some c -> session_ok c.

(** The acknowledgement of the post with id [i], and the
    acknowledgements among what the reactor sent, in order. *)
Definition post_ack (i : Z) : string :=
  ln ("OK Post " +:+ pretty i +:+ " created").

Definition is_post_ack (r : string) : bool := Py.startswith "OK Post " r.

Definition post_acks (acts : list action) : list string :=
  omap (fun a => match a with
                 | SendAll _ r => if is_post_ack r then Some r else None
                 | SockClose _ => None
                 end) acts.

(** The acknowledgements of the [n] posts after the first [m]. *)
Definition acks_from (m n : nat) : list string :=
  (fun i => post_ack (Z.of_nat i)) <$> seq (S m) n.

(** After [m] posts the counter stands at [m + 1] and every post in the
    store has an id from 1 to [m]. *)
Definition counter_inv (m : nat) (st : Store) : Prop :=
  next_post_id st = 1 + Z.of_nat m /\
  forall k, is_Some (posts st !! k) -> 1 <= k <= Z.of_nat m.

(** ** The dispatch rule in the words of the specification *)

(** The first whitespace-delimited token of a text, and what follows the
    separator that ends it. *)
Fixpoint take_token (s : string) : string * string :=
  match s with
  | String c s' =>
      if Py.isspace c then ("", s')
      else let '(t, r) := take_token s' in (String c t, r)
  | "" => ("", "")
  end.

Definition spec_first_token (line : string) : string * string :=
  take_token (Py.lstrip line).

(** The command is the first whitespace-delimited token, upper-cased;
    the handler gets the remainder of the line. *)
Definition spec_process_line `{PasswordHasher} (ts : string) (st : Store)
    (client : ClientState) (line : string)
  : Store * ClientState * option string * bool :=
  match line with
  | "" => (st, client, None, false)
  | _ =>
      let '(tok, payload) := spec_first_token line in
      dispatch ts (Py.upper tok) st client payload
  end.

(** ** Sample states to run the model on *)



Definition session (fd : nat) (name r : string) : ClientState :=
  {| sock := fd; addr := "127.0.0.1"; buffer := "";
     username := Some name; role := Some r; authenticated := true |}.

Definition sample_post (i : Z) (name text : string) : Post :=
  {| post_id := i; author := Some name;
     timestamp := "2026-01-01T00:00:00"; message := text |}.

(** Two posts, by oliver and by sam, and the seeded users. *)
Definition sample_store : Store :=
  {| USERS := @_hash_seeded_users plain_hasher;
     posts := <[2 := sample_post 2 "sam" "second  post"]>
                (<[1 := sample_post 1 "oliver" "hello world"]> ∅);
     next_post_id := 3 |}.

(** A connection whose buffer is full to the cap, alone on the server. *)
Definition full_client : ClientState :=
  set_buffer (new_client 4 "127.0.0.1") (repeat_char "A" MAX_BUFFER_BYTES).

Definition full_server : Server :=
  {| clients := {[ 4%nat := full_client ]};
     store := @initial_store plain_hasher |}.

Definition quiet_env (r : recv_result) : Env :=
  {| recv := r; send_fails := fun _ => false;
     clock := fun _ => "2026-01-01T00:00:00" |}.

(** A buffer with a line that ends in two carriage returns, an empty
    line, and the start of a third line. *)
Definition sample_buffer : string :=
  "POST  a  b " +:+ String Py.CR (String Py.CR Py.NL)
    +:+ String Py.CR Py.NL +:+ "LI".

(** A run: one connection logs in, posts twice with an empty POST in
    between, deletes its first post and posts again. *)
Definition sample_events : list event :=
  [ Accept 3 "127.0.0.1";
    Readable 3 (quiet_env (RecvData
      ("LOGIN oliver pw1" +:+ Py.NL +:+ "POST one" +:+ Py.NL
         +:+ "POST  " +:+ Py.NL +:+ "POST two" +:+ Py.NL)));
    Readable 3 (quiet_env (RecvData
      ("DEL 1" +:+ Py.NL +:+ "POST three" +:+ Py.NL))) ].

Definition sample_conn : ClientState :=
  set_buffer (session 5 "sam" "user") sample_buffer.

(** ** Further predicates *)

Definition is_digit_char (c : ascii) : bool :=
  match Py.digit c with Some _ => true | None => false end.

(** The hasher verifies what it hashed, and its hashes are not empty. *)
Definition hasher_ok `{PasswordHasher} : Prop :=
  (forall p, ph_verify (ph_hash p) p = true) /\ (forall p, ph_hash p <> "").

(** A session is either fresh, or logged in as a user of the credential
    store with that user's role. *)
Definition auth_inv (st : Store) (c : ClientState) : Prop :=
  if authenticated c
  then exists name record,
         username c = Some name /\ USERS st !! name = Some record /\
         role c = Some (default "user" (rec_role record))
  else username c = None /\ role c = None.

(** A session as the reactor keeps it under the descriptor [fd]: it
    carries its descriptor, and its buffer holds no complete line and is
    within the cap. *)
Definition session_inv (st : Store) (fd : nat) (c : ClientState) : Prop :=
  sock c = fd /\ no_lf (buffer c) /\
  (String.length (buffer c) <= MAX_BUFFER_BYTES)%nat /\
  auth_inv st c.

(** A post as the store keeps it under the key [k]: filed under its own
    id, below the counter, written by a user of the credential store,
    with a message that is not blank and holds no line feed. *)
Definition post_inv (st : Store) (k : Z) (p : Post) : Prop :=
  post_id p = k /\ 1 <= k < next_post_id st /\
  (exists name, author p = Some name /\ is_Some (USERS st !! name)) /\
  Py.strip (message p) <> "" /\ no_lf (message p).

Definition store_inv (st : Store) : Prop :=
  1 <= next_post_id st /\
  forall k p, posts st !! k = Some p -> post_inv st k p.

Definition server_inv `{PasswordHasher} (srv : Server) : Prop :=
  USERS (store srv) = _hash_seeded_users /\
  store_inv (store srv) /\
  forall fd c, clients srv !! fd = Some c -> session_inv (store srv) fd c.

Definition is_ascii_char (c : ascii) : bool := (nat_of_ascii c <? 128)%nat.

(** Text of the ASCII range. On such text [Py.strip], [Py.split] and
    [Py.upper] are [strip()], [split()] and [upper()] of Python, and so
    is [Py.int] on a numeral of at most 4300 characters. *)
Definition ascii_text (s : string) : Prop := str_all is_ascii_char s = true.

(** The largest number of digits [int()] reads. *)
Definition MAX_STR_DIGITS : nat := 4300.

(** ** client.py *)

(** [class ClientConn]: the buffer [buf], and in place of the socket the
    chunks its [recv] will return, in order. When they run out [recv]
    returns the empty chunk for good: the server has closed. *)
Record ClientConn := {
  incoming : list string;
  buf : string
}.

(** What the reading functions give back: a text, [None], or the
    [UnicodeDecodeError] they let through. *)
Inductive reply :=
| Text (s : string)
| Closed
| DecodeError.

(** [ClientConn.read_line] *)
Fixpoint read_line_from (inc : list string) (b : string)
  : reply * ClientConn :=
  if Py.contains Py.LF b
  then
    let '(line, rest) := Py.split1 Py.LF b in
    (match Utf8.decode (line +:+ Py.NL) with
     | Some s => Text s
     | None => DecodeError
     end,
     {| incoming := inc; buf := default "" rest |})
  else
    match inc with
    | [] => (Closed, {| incoming := []; buf := b |})
    | chunk :: inc' =>
        match chunk with
        | "" => (Closed, {| incoming := inc'; buf := b |})
        | _ => read_line_from inc' (b +:+ chunk)
        end
    end.

Definition read_line (conn : ClientConn) : reply * ClientConn :=
  read_line_from (incoming conn) (buf conn).

(** The loop [for _ in range(n)] of [recv_count_framed]; [lines] is the
    list built so far. *)
Fixpoint read_more (n : nat) (conn : ClientConn) (lines : list string)
  : reply * ClientConn :=
  match n with
  | O => (Text (String.concat "" lines), conn)
  | S n' =>
      match read_line conn with
      | (Text nxt, conn') => read_more n' conn' (lines ++ [nxt])%list
      | (other, conn') => (other, conn')
      end
  end.

(** [recv_count_framed(conn, first_line, expected_prefix)] *)
Definition recv_count_framed (conn : ClientConn)
    (first_line expected_prefix : string) : reply * ClientConn :=
  if negb (Py.startswith expected_prefix first_line)
  then (Text first_line, conn)
  else
    match Py.split (Py.strip first_line) with
    | [_; _; part2] =>
        match Py.int part2 with
        | None => (Text first_line, conn)
        | Some n => read_more (Z.to_nat n) conn [first_line]
        end
    | _ => (Text first_line, conn)
    end.

(** [recv_response(conn, sent_cmd)] *)
Definition recv_response (conn : ClientConn) (sent_cmd : string)
  : reply * ClientConn :=
  match read_line conn with
  | (Text first, conn') =>
      let cmd := Py.upper (Py.split1 Py.SP (Py.strip sent_cmd)).1 in
      if String.eqb cmd "LIST"
      then recv_count_framed conn' first "OK LIST "
      else if String.eqb cmd "HELP"
      then recv_count_framed conn' first "OK HELP "
      else (Text first, conn')
  | (other, conn') => (other, conn')
  end.

(** What is still to be read on a connection: the buffer and the chunks
    to come. *)
Definition pending (conn : ClientConn) : string :=
  buf conn +:+ String.concat "" (incoming conn).

(** The texts of the store are well-formed: the time and the message
    of every post decode. *)
Definition store_text (st : Store) : Prop :=
  forall k p, posts st !! k = Some p ->
    Utf8.valid (timestamp p) = true /\ Utf8.valid (message p) = true.

(** So are the buffers of the sessions, and the local time whenever it
    is printed. *)
Definition server_text (srv : Server) : Prop :=
  store_text (store srv) /\
  forall fd c, clients srv !! fd = Some c -> Utf8.valid (buffer c) = true.

Definition env_text (env : Env) : Prop :=
  forall k, Utf8.valid (clock env k) = true.

Definition event_text `{PasswordHasher} (ev : event) : Prop :=
  match ev with
  | Accept _ _ => True
  | Readable _ env => env_text env
  end.

(** What [main] sends for the line [user_input] that [input] returned:
    nothing for a blank line, and otherwise the line closed by a line
    feed. *)
Definition request (user_input : string) : option string :=
  match Py.strip user_input with
  | "" => None
  | _ => Some (Py.rstrip_char Py.LF user_input +:+ Py.NL)
  end.

(** No chunk is empty: an empty chunk is how [recv] tells that the
    server has closed. *)
Definition chunks_ok (inc : list string) : Prop :=
  Forall (fun ch => ch <> "") inc.

(** Lines, each closed by a line feed. *)
Definition with_nl (ls : list string) : list string :=
  (fun l => l +:+ Py.NL) <$> ls.

(** How the server frames a counted answer: the header with the count,
    then the lines, joined by line feeds and closed by one. *)
Definition framed (tag : string) (ls : list string) : string :=
  Py.join Py.NL (("OK " +:+ tag +:+ " " +:+ pretty (length ls)) :: ls)
    +:+ Py.NL.

(** An answer of one line that is text, and that is no header of a
    counted answer. *)
Definition plain_answer (r : string) : Prop :=
  exists l, r = l +:+ Py.NL /\ no_lf l /\ Utf8.valid l = true /\
            Py.startswith "OK LIST " r = false /\
            Py.startswith "OK HELP " r = false.

(** A counted answer to the command [cmd]: the frame of text lines. *)
Definition counted_answer (cmd r : string) : Prop :=
  exists ls, (cmd = "LIST" \/ cmd = "HELP") /\ r = framed cmd ls /\
             Forall no_lf ls /\ Forall (fun l => Utf8.valid l = true) ls.

(** What a client can read: a plain line or a frame of plain lines. *)
Definition wire_answer (r : string) : Prop :=
  plain_answer r \/ exists cmd, counted_answer cmd r.

Definition sends_ok (acts : list action) : Prop :=
  Forall (fun a => match a with
                   | SendAll _ r => wire_answer r
                   | SockClose _ => True
                   end) acts.

(** ** More sample states *)

(** One authenticated connection on a server with the sample store. *)
Definition sample_server : Server :=
  {| clients := {[ 5%nat := session 5 "sam" "user" ]};
     store := sample_store |}.

(** An environment where every send fails. *)
Definition failing_env (r : recv_result) : Env :=
  {| recv := r; send_fails := fun _ => true;
     clock := fun _ => "2026-01-01T00:00:00" |}.

(** A client connection with nothing buffered and chunks to come. *)
Definition chunked (chunks : list string) : ClientConn :=
  {| incoming := chunks; buf := "" |}.

(** The answer to a LIST of two posts, cut in the middle of its lines,
    and the start of the next answer behind it. *)
Definition sample_chunks : list string :=
  [ "OK LI"; "ST 2" +:+ Py.NL +:+ "1 oliver t hello";
    " world" +:+ Py.NL +:+ "2 sam t second" +:+ Py.NL +:+ "OK B" ].

(** * Properties *)

Local Open Scope list_scope.

(** ** Sanity checks of the string primitives *)

Example split_ex :
  Py.split (" a  b" +:+ Py.NL +:+ "c ") = ["a"; "b"; "c"].
Proof. reflexivity. Qed.
Example strip_ex : Py.strip "  a b  " = "a b".
Proof. reflexivity. Qed.
Example int_ex :
  Py.int "1_000" = Some 1000 /\ Py.int "-07" = Some (-7) /\
  Py.int "+5" = Some 5 /\ Py.int "1__0" = None /\ Py.int "_1" = None /\
  Py.int "x" = None /\ Py.int "" = None /\ Py.int "+" = None /\
  Py.int "1_" = None.
Proof. repeat split; reflexivity. Qed.
Example split1_ex :
  Py.split1 Py.SP "POST  a b" = ("POST", Some " a b") /\
  Py.split1 Py.SP "LIST" = ("LIST", None).
Proof. split; reflexivity. Qed.
Example upper_ex : Py.upper "Who_am1 z{`" = "WHO_AM1 Z{`".
Proof. reflexivity. Qed.
Example rstrip_char_ex :
  Py.rstrip_char Py.CR (String Py.CR (String "a"%char (String Py.CR (String Py.CR ""))))
  = String Py.CR "a".
Proof. reflexivity. Qed.

Example utf8_ex :
  Utf8.decode (String (ascii_of_nat 195) (String (ascii_of_nat 169) "!"))
    = Some (String (ascii_of_nat 195) (String (ascii_of_nat 169) "!")) /\
  Utf8.decode (String (ascii_of_nat 255) (String (ascii_of_nat 254) Py.NL))
    = None /\
  Utf8.decode (String (ascii_of_nat 195) "") = None /\
  Utf8.decode (String (ascii_of_nat 192) (String (ascii_of_nat 128) ""))
    = None.
Proof. repeat split; reflexivity. Qed.

(** ** Facts about the string primitives *)

Section StringFacts.

Lemma str_app_nil_l (s : string) : "" +:+ s = s.
Proof. reflexivity. Qed.

Lemma str_app_cons (c : ascii) (s t : string) :
  String c s +:+ t = String c (s +:+ t).
Proof. reflexivity. Qed.

Lemma str_app_nil_r (s : string) : s +:+ "" = s.
Proof. induction s as [|c s IH]; [done|]. by rewrite str_app_cons, IH. Qed.

Lemma str_app_assoc (s t u : string) : (s +:+ t) +:+ u = s +:+ (t +:+ u).
Proof.
  induction s as [|c s IH]; [done|]. by rewrite !str_app_cons, IH.
Qed.

Lemma str_length_app (s t : string) :
  String.length (s +:+ t) = (String.length s + String.length t)%nat.
Proof.
  induction s as [|c s IH]; [done|]. rewrite str_app_cons. simpl. by rewrite IH.
Qed.

Lemma contains_app (x : ascii) (s t : string) :
  Py.contains x (s +:+ t) = Py.contains x s || Py.contains x t.
Proof.
  induction s as [|c s IH]; [done|].
  rewrite str_app_cons. simpl. rewrite IH. by rewrite orb_assoc.
Qed.

(** [split(sep, 1)] cuts at the first separator and nowhere else. *)
Lemma split1_app (sep : ascii) (tok rest : string) :
  Py.contains sep tok = false ->
  Py.split1 sep (tok +:+ String sep rest) = (tok, Some rest).
Proof.
  induction tok as [|c tok IH]; intros Hc.
  - rewrite str_app_nil_l. simpl. by rewrite Ascii.eqb_refl.
  - rewrite str_app_cons. simpl in *.
    apply orb_false_iff in Hc as [Hc1 Hc2].
    rewrite Hc1, (IH Hc2). done.
Qed.

Lemma split1_none (sep : ascii) (tok : string) :
  Py.contains sep tok = false -> Py.split1 sep tok = (tok, None).
Proof.
  induction tok as [|c tok IH]; intros Hc; [done|].
  simpl in *. apply orb_false_iff in Hc as [Hc1 Hc2].
  by rewrite Hc1, (IH Hc2).
Qed.

Lemma split1_spec (sep : ascii) (s h : string) (t : option string) :
  Py.split1 sep s = (h, t) ->
  Py.contains sep h = false /\
  Py.contains sep s = bool_decide (is_Some t) /\
  s = h +:+ match t with Some r => String sep r | None => "" end.
Proof.
  revert h t. induction s as [|c s IH]; intros h t Hs; simpl in Hs.
  - by simplify_eq.
  - destruct (Ascii.eqb c sep) eqn:Hc.
    + apply Ascii.eqb_eq in Hc as ->. simplify_eq. simpl.
      by rewrite Ascii.eqb_refl.
    + destruct (Py.split1 sep s) as [h' t'] eqn:Hs'. simplify_eq.
      destruct (IH _ _ eq_refl) as (H1 & H2 & H3).
      simpl. rewrite Hc, H1, H2. split_and!; [done..|].
      rewrite str_app_cons. by f_equal.
Qed.

Lemma upper_char_eqb_space (c : ascii) :
  Ascii.eqb (Py.upper_char c) Py.SP = Ascii.eqb c Py.SP.
Proof. by destruct c as [[] [] [] [] [] [] [] []]. Qed.

Lemma contains_space_upper (s : string) :
  Py.contains Py.SP (Py.upper s) = Py.contains Py.SP s.
Proof.
  induction s as [|c s IH]; [done|].
  simpl. by rewrite upper_char_eqb_space, IH.
Qed.



Lemma upper_nil (s : string) : Py.upper s = "" -> s = "".
Proof. by destruct s. Qed.

(** [rstrip("\r")] removes carriage returns at the end and nothing
    else: what is removed is a run of carriage returns, and what is
    left does not end in one. *)
Lemma rstrip_char_spec (x : ascii) (s : string) :
  exists n, s = Py.rstrip_char x s +:+ repeat_char x n /\
            ends_with x (Py.rstrip_char x s) = false.
Proof.
  induction s as [|c s (n & IH1 & IH2)]; [by exists O|].
  simpl. destruct (Py.rstrip_char x s) as [|c' r] eqn:Hr.
  - destruct (Ascii.eqb c x) eqn:Hc.
    + apply Ascii.eqb_eq in Hc as ->. exists (S n). split; [|done].
      rewrite str_app_nil_l in *. simpl. by f_equal.
    + exists n. split; [|by simpl; rewrite Hc].
      rewrite str_app_cons. by f_equal.
  - exists n. split; [by rewrite str_app_cons; f_equal|].
    simpl in *. done.
Qed.

End StringFacts.

(** ** Facts about the decimal numerals *)

Section Numerals.

Lemma str_all_app (P : ascii -> bool) (s t : string) :
  str_all P (s +:+ t) = str_all P s && str_all P t.
Proof.
  induction s as [|c s IH]; [done|].
  rewrite str_app_cons. simpl. by rewrite IH, andb_assoc.
Qed.

Lemma str_all_contains (P : ascii -> bool) (x : ascii) (s : string) :
  P x = false -> str_all P s = true -> Py.contains x s = false.
Proof.
  intros Hx. induction s as [|c s IH]; [done|]. simpl.
  intros [Hc Hs]%andb_true_iff. rewrite (IH Hs), orb_false_r.
  destruct (Ascii.eqb_spec c x) as [->|]; [congruence|done].
Qed.

Lemma pretty_N_char_num (d : N) : is_num_char (pretty_N_char d) = true.
Proof. unfold pretty_N_char. by repeat case_match. Qed.

Lemma pretty_N_go_num (x : N) (s : string) :
  str_all is_num_char s = true ->
  str_all is_num_char (pretty_N_go x s) = true.
Proof.
  revert s. induction (N.lt_wf_0 x) as [x _ IH]; intros s Hs.
  assert (x = 0 \/ 0 < x)%N as [->|Hx] by lia.
  - by rewrite pretty_N_go_0.
  - rewrite pretty_N_go_step by done. apply IH.
    + by apply N.div_lt.
    + simpl. by rewrite pretty_N_char_num.
Qed.

Lemma pretty_N_num (x : N) : str_all is_num_char (pretty x) = true.
Proof.
  unfold pretty, pretty_N. case_decide; [done|]. by apply pretty_N_go_num.
Qed.

(** [str(i)] is made of digits and the minus sign. *)
Lemma pretty_Z_num (i : Z) : str_all is_num_char (pretty i) = true.
Proof.
  destruct i as [|p|p]; [done|apply pretty_N_num|].
  unfold pretty, pretty_Z. rewrite str_all_app.
  apply andb_true_iff. split; [done|apply pretty_N_num].
Qed.

Lemma pretty_nat_num (n : nat) : str_all is_num_char (pretty n) = true.
Proof. apply pretty_N_num. Qed.

Lemma pretty_Z_no_lf (i : Z) : no_lf (pretty i).
Proof.
  apply (str_all_contains is_num_char); [reflexivity|apply pretty_Z_num].
Qed.

Lemma pretty_nat_no_lf (n : nat) : no_lf (pretty n).
Proof.
  apply (str_all_contains is_num_char); [reflexivity|apply pretty_nat_num].
Qed.

(** A text that begins with a numeral does not begin with [Post]. *)
Lemma numeral_not_post (i : Z) (s : string) :
  Py.startswith "Post " (pretty i +:+ " " +:+ s) = false.
Proof.
  pose proof (pretty_Z_num i) as Hn.
  destruct (pretty i) as [|a p]; [done|].
  rewrite str_app_cons.
  change (Ascii.eqb "P" a && Py.startswith "ost " (p +:+ " " +:+ s) = false).
  apply andb_true_iff in Hn as [Ha _].
  destruct (Ascii.eqb_spec "P" a) as [<-|]; [|done].
  vm_compute in Ha. discriminate Ha.
Qed.

End Numerals.

(** ** Numerals read back, and words *)

Section NumeralsBack.

Lemma str_all_impl (P Q : ascii -> bool) (s : string) :
  (forall c, P c = true -> Q c = true) ->
  str_all P s = true -> str_all Q s = true.
Proof.
  intros HPQ. induction s as [|c s IH]; [done|]. simpl.
  intros [Hc Hs]%andb_true_iff. by rewrite (HPQ _ Hc), (IH Hs).
Qed.

Lemma lstrip_nonspace (s : string) :
  str_all nonspace s = true -> Py.lstrip s = s.
Proof.
  destruct s as [|c s]; [done|]. simpl. unfold nonspace.
  intros [Hc _]%andb_true_iff. by destruct (Py.isspace c).
Qed.

(** [rstrip()] leaves a text alone that ends in characters that are not
    whitespace. *)
Lemma rstrip_app_nonspace (s t : string) :
  t <> "" -> str_all nonspace t = true -> Py.rstrip (s +:+ t) = s +:+ t.
Proof.
  intros Hne Ht.
  assert (Hbase : Py.rstrip t = t).
  { clear Hne. induction t as [|c t IH]; [done|]. simpl in *.
    apply andb_true_iff in Ht as [Hc Ht]. rewrite (IH Ht).
    unfold nonspace in Hc. destruct t; [|done]. by destruct (Py.isspace c). }
  induction s as [|a s IH]; [done|].
  rewrite str_app_cons. simpl. rewrite IH.
  destruct (s +:+ t) eqn:Hst; [|done].
  by destruct s, t.
Qed.

Lemma rstrip_nonspace (s : string) :
  str_all nonspace s = true -> Py.rstrip s = s.
Proof.
  intros Hs. destruct s as [|c s]; [done|].
  by apply (rstrip_app_nonspace "" (String c s)).
Qed.

Lemma strip_nonspace (s : string) :
  str_all nonspace s = true -> Py.strip s = s.
Proof.
  intros Hs. unfold Py.strip. rewrite lstrip_nonspace by done.
  by apply rstrip_nonspace.
Qed.

Lemma split_go_nonspace_run (cur s : string) :
  str_all nonspace s = true -> cur +:+ s <> "" ->
  Py.split_go cur s = [cur +:+ s].
Proof.
  revert cur. induction s as [|c s IH]; intros cur Hs Hne.
  - rewrite str_app_nil_r in *. simpl. by destruct cur.
  - simpl in *. apply andb_true_iff in Hs as [Hc Hs].
    unfold nonspace in Hc. destruct (Py.isspace c); [done|].
    rewrite IH; [|done|].
    + by rewrite str_app_assoc.
    + rewrite str_app_assoc. by destruct cur.
Qed.

(** A text without whitespace is one word. *)
Lemma split_one_word (s : string) :
  s <> "" -> str_all nonspace s = true -> Py.split s = [s].
Proof. intros Hne Hs. by apply (split_go_nonspace_run "" s). Qed.

Lemma num_char_nonspace (c : ascii) :
  is_num_char c = true -> nonspace c = true.
Proof. by destruct c as [[] [] [] [] [] [] [] []]. Qed.

Lemma pretty_N_char_digit (k : N) :
  (k < 10)%N ->
  Py.digit (pretty_N_char k) = Some (Z.of_N k) /\
  Ascii.eqb (pretty_N_char k) "_" = false.
Proof.
  intros Hk.
  assert (k = 0 \/ k = 1 \/ k = 2 \/ k = 3 \/ k = 4 \/ k = 5 \/ k = 6
          \/ k = 7 \/ k = 8 \/ k = 9)%N as Hcases by lia.
  by repeat (destruct Hcases as [->|Hcases]; [done|]); subst.
Qed.

(** Reading the digits [str] writes gives the number back. *)
Lemma digits_pretty_N_go (x : N) :
  exists m, forall acc s,
    Py.digits acc false (pretty_N_go x s)
    = Py.digits (acc * m + Z.of_N x) false s.
Proof.
  induction (N.lt_wf_0 x) as [x _ IH].
  assert (x = 0 \/ 0 < x)%N as [->|Hx] by lia.
  - exists 1. intros acc s. rewrite pretty_N_go_0. f_equal. lia.
  - destruct (IH (x `div` 10)%N) as [m Hm]; [by apply N.div_lt|].
    exists (10 * m). intros acc s.
    rewrite pretty_N_go_step, Hm by done. simpl.
    destruct (pretty_N_char_digit (x `mod` 10)%N) as [Hd Hu].
    { by apply N.mod_lt. }
    rewrite Hu, Hd. f_equal.
    pose proof (N.div_mod x 10) as Hdm.
    assert (Z.of_N x = 10 * Z.of_N (x `div` 10) + Z.of_N (x `mod` 10)) by lia.
    lia.
Qed.

Lemma pretty_N_go_digits (x : N) (s : string) :
  str_all is_digit_char s = true ->
  str_all is_digit_char (pretty_N_go x s) = true.
Proof.
  revert s. induction (N.lt_wf_0 x) as [x _ IH]; intros s Hs.
  assert (x = 0 \/ 0 < x)%N as [->|Hx] by lia.
  - by rewrite pretty_N_go_0.
  - rewrite pretty_N_go_step by done. apply IH; [by apply N.div_lt|].
    simpl. rewrite Hs, andb_true_r. unfold is_digit_char.
    destruct (pretty_N_char_digit (x `mod` 10)%N) as [-> _]; [|done].
    by apply N.mod_lt.
Qed.

Lemma unsigned_pretty_pos (p : positive) :
  exists c s, pretty (Npos p) = String c s /\
              is_digit_char c = true /\
              Py.unsigned (String c s) = Some (Zpos p).
Proof.
  destruct (digits_pretty_N_go (Npos p)) as [m Hm].
  specialize (Hm 0 ""). simpl in Hm.
  assert (Hp : pretty (Npos p) = pretty_N_go (Npos p) "") by done.
  pose proof (pretty_N_go_digits (Npos p) "" eq_refl) as Hnum.
  rewrite Hp in *.
  destruct (pretty_N_go (N.pos p) "") as [|c s] eqn:Hs.
  { simpl in Hm. by simplify_eq. }
  exists c, s. split; [done|].
  assert (Hc : is_digit_char c = true).
  { simpl in Hnum. by apply andb_true_iff in Hnum as [? _]. }
  split; [done|]. unfold Py.unsigned. unfold is_digit_char in Hc.
  destruct (Py.digit c); [|done]. by rewrite Hm.
Qed.

(** [int(str(i)) == i], for every integer. *)
Lemma int_pretty (i : Z) : Py.int (pretty i) = Some i.
Proof.
  unfold Py.int. rewrite strip_nonspace;
    [|by eapply str_all_impl; [apply num_char_nonspace|apply pretty_Z_num]].
  destruct i as [|p|p]; [done| |].
  - destruct (unsigned_pretty_pos p) as (c & s & Hp & Hc & Hu).
    change (pretty (Z.pos p)) with (pretty (Npos p)). rewrite Hp, <- Hu.
    clear -Hc. by destruct c as [[] [] [] [] [] [] [] []].
  - destruct (unsigned_pretty_pos p) as (c & s & Hp & Hc & Hu).
    change (pretty (Z.neg p)) with ("-" +:+ pretty (Npos p)).
    rewrite Hp. change ("-" +:+ String c s) with (String "-" (String c s)).
    cbv beta iota. by rewrite Hu.
Qed.

Lemma pretty_Z_ne_nil (i : Z) : pretty i <> "".
Proof. intros Hi. pose proof (int_pretty i) as Hp. by rewrite Hi in Hp. Qed.

Lemma split_pretty (i : Z) : Py.split (pretty i) = [pretty i].
Proof.
  apply split_one_word; [apply pretty_Z_ne_nil|].
  eapply str_all_impl; [apply num_char_nonspace|apply pretty_Z_num].
Qed.

Lemma split_go_ne_nil (cur s tok : string) :
  tok ∈ Py.split_go cur s -> tok <> "".
Proof.
  revert cur. induction s as [|a s IH]; intros cur; simpl.
  - destruct cur; [by intros ?%elem_of_nil|].
    by intros ->%list_elem_of_singleton.
  - destruct (Py.isspace a); [|by apply IH].
    destruct cur; [by apply IH|].
    intros [->|Hin]%elem_of_cons; [done|]. by eapply IH.
Qed.

(** The words of [split()] hold no whitespace. *)
Lemma split_go_word (cur s tok : string) :
  str_all nonspace cur = true -> tok ∈ Py.split_go cur s ->
  str_all nonspace tok = true.
Proof.
  revert cur. induction s as [|a s IH]; intros cur Hcur; simpl.
  - destruct cur; [by intros ?%elem_of_nil|].
    by intros ->%list_elem_of_singleton.
  - destruct (Py.isspace a) eqn:Ha.
    + destruct cur; [by apply IH|].
      intros [->|Hin]%elem_of_cons; [done|]. by apply (IH "").
    + apply IH. rewrite str_all_app, Hcur. simpl.
      unfold nonspace. by rewrite Ha.
Qed.

End NumeralsBack.

(** ** Facts about UTF-8 *)

Section Utf8Facts.

Lemma valid_cons_ascii (c : ascii) (s : string) :
  is_ascii_char c = true -> Utf8.valid (String c s) = Utf8.valid s.
Proof. unfold is_ascii_char. simpl. by intros ->. Qed.

(** Text of the ASCII range is well-formed. *)
Lemma valid_ascii (s : string) :
  str_all is_ascii_char s = true -> Utf8.valid s = true.
Proof.
  induction s as [|c s IH]; [done|]. simpl str_all.
  intros [Hc Hs]%andb_true_iff. rewrite valid_cons_ascii by done. auto.
Qed.

(** Well-formed text followed by any bytes is as well-formed as the
    bytes that follow: no character reaches across the seam. *)
Lemma valid_app (a b : string) :
  Utf8.valid a = true -> Utf8.valid (a +:+ b) = Utf8.valid b.
Proof.
  remember (String.length a) as n eqn:Hn.
  revert a Hn. induction (lt_wf n) as [n _ IH]. intros a -> Ha.
  destruct a as [|b0 s1]; [done|].
  rewrite str_app_cons. simpl in Ha |- *.
  destruct (nat_of_ascii b0 <? 128)%nat.
  { eapply IH; [|done|done]. simpl. lia. }
  destruct (Utf8.between 194 223 b0).
  { destruct s1 as [|b1 s2]; [done|]. rewrite str_app_cons.
    apply andb_true_iff in Ha as [-> Ha]. simpl.
    eapply IH; [|done|done]. simpl. lia. }
  destruct (Utf8.between 224 239 b0).
  { destruct s1 as [|b1 [|b2 s3]]; [done|done|]. rewrite !str_app_cons.
    apply andb_true_iff in Ha as [[-> ->]%andb_true_iff Ha]. simpl.
    eapply IH; [|done|done]. simpl. lia. }
  destruct (Utf8.between 240 244 b0); [|done].
  destruct s1 as [|b1 [|b2 [|b3 s4]]]; [done|done|done|].
  rewrite !str_app_cons.
  apply andb_true_iff in Ha as [[[-> ->]%andb_true_iff ->]%andb_true_iff Ha].
  simpl. eapply IH; [|done|done]. simpl. lia.
Qed.

Lemma valid_app_2 (a b : string) :
  Utf8.valid a = true -> Utf8.valid b = true -> Utf8.valid (a +:+ b) = true.
Proof. intros Ha Hb. by rewrite valid_app. Qed.

Lemma num_char_ascii (c : ascii) :
  is_num_char c = true -> is_ascii_char c = true.
Proof. by destruct c as [[] [] [] [] [] [] [] []]. Qed.

Lemma valid_pretty_Z (i : Z) : Utf8.valid (pretty i) = true.
Proof.
  apply valid_ascii. eapply str_all_impl; [apply num_char_ascii|].
  apply pretty_Z_num.
Qed.

Lemma valid_pretty_nat (n : nat) : Utf8.valid (pretty n) = true.
Proof.
  apply valid_ascii. eapply str_all_impl; [apply num_char_ascii|].
  apply pretty_nat_num.
Qed.

(** An ASCII byte is no continuation byte and no second byte of any
    longer character. *)
Lemma ascii_not_between (lo hi : nat) (c : ascii) :
  is_ascii_char c = true -> (128 <= lo)%nat -> Utf8.between lo hi c = false.
Proof.
  unfold is_ascii_char, Utf8.between. intros Hc%Nat.ltb_lt Hlo.
  apply andb_false_iff. left. apply Nat.leb_gt.
  eapply Nat.lt_le_trans; [exact Hc|exact Hlo].
Qed.

Lemma ascii_not_cont (c : ascii) :
  is_ascii_char c = true -> Utf8.cont c = false.
Proof. intros Hc. by apply ascii_not_between. Qed.

(** Well-formed text cut at an ASCII byte is well-formed on both
    sides: no character reaches across an ASCII byte. *)
Lemma valid_split_ascii (a : string) (c : ascii) (b : string) :
  is_ascii_char c = true ->
  Utf8.valid (a +:+ String c b) = true ->
  Utf8.valid a = true /\ Utf8.valid b = true.
Proof.
  intros Hc. remember (String.length a) as n eqn:Hn.
  revert a Hn. induction (lt_wf n) as [n _ IH]. intros a -> Hv.
  destruct a as [|b0 s1].
  { rewrite str_app_nil_l, valid_cons_ascii in Hv by done. done. }
  rewrite str_app_cons in Hv. simpl in Hv |- *.
  destruct (nat_of_ascii b0 <? 128)%nat.
  { eapply IH; [|done|done]. simpl. lia. }
  destruct (Utf8.between 194 223 b0).
  { destruct s1 as [|b1 s2].
    - rewrite str_app_nil_l, (ascii_not_cont c) in Hv by done. done.
    - rewrite str_app_cons in Hv. apply andb_true_iff in Hv as [-> Hv].
      simpl. eapply IH; [|done|done]. simpl. lia. }
  destruct (Utf8.between 224 239 b0).
  { destruct s1 as [|b1 [|b2 s3]].
    - rewrite str_app_nil_l in Hv. destruct b as [|b2 s3]; [done|].
      rewrite ascii_not_between in Hv; [done|done|].
      destruct (_ =? _)%nat; [by apply Nat.leb_le|done].
    - rewrite str_app_cons, str_app_nil_l, (ascii_not_cont c) in Hv by done.
      by rewrite andb_false_r in Hv.
    - rewrite !str_app_cons in Hv.
      apply andb_true_iff in Hv as [[-> ->]%andb_true_iff Hv]. simpl.
      eapply IH; [|done|done]. simpl. lia. }
  destruct (Utf8.between 240 244 b0); [|done].
  destruct s1 as [|b1 [|b2 [|b3 s4]]].
  - rewrite str_app_nil_l in Hv. destruct b as [|b2 [|b3 s4]]; [done|done|].
    rewrite ascii_not_between in Hv; [done|done|].
    destruct (_ =? _)%nat; [by apply Nat.leb_le|done].
  - rewrite str_app_cons, str_app_nil_l in Hv. destruct b as [|b3 s4]; [done|].
    rewrite (ascii_not_cont c) in Hv by done. by rewrite andb_false_r in Hv.
  - rewrite !str_app_cons, str_app_nil_l, (ascii_not_cont c) in Hv by done.
    by rewrite andb_false_r in Hv.
  - rewrite !str_app_cons in Hv.
    apply andb_true_iff in Hv
        as [[[-> ->]%andb_true_iff ->]%andb_true_iff Hv].
    simpl. eapply IH; [|done|done]. simpl. lia.
Qed.

(** Well-formed text stays so when ASCII bytes are taken off its end or
    when it is cut at the first occurrence of an ASCII byte. *)
Lemma valid_repeat_char (a : string) (x : ascii) (n : nat) :
  is_ascii_char x = true ->
  Utf8.valid (a +:+ repeat_char x n) = true -> Utf8.valid a = true.
Proof.
  intros Hx Hv. destruct n as [|n]; [by rewrite str_app_nil_r in Hv|].
  by destruct (valid_split_ascii a x (repeat_char x n) Hx Hv).
Qed.

Lemma valid_rstrip_char (x : ascii) (s : string) :
  is_ascii_char x = true ->
  Utf8.valid s = true -> Utf8.valid (Py.rstrip_char x s) = true.
Proof.
  intros Hx Hv. destruct (rstrip_char_spec x s) as (n & Hs & _).
  rewrite Hs in Hv. by apply (valid_repeat_char _ x n).
Qed.

Lemma valid_split1 (sep : ascii) (s h : string) (t : option string) :
  is_ascii_char sep = true ->
  Py.split1 sep s = (h, t) -> Utf8.valid s = true ->
  Utf8.valid h = true /\ Utf8.valid (default "" t) = true.
Proof.
  intros Hsep Hs Hv. destruct (split1_spec _ _ _ _ Hs) as (_ & _ & ->).
  destruct t as [r|]; [|by rewrite str_app_nil_r in Hv].
  by apply (valid_split_ascii h sep r).
Qed.

End Utf8Facts.

(** ** Blank texts and the length in characters *)

Section BlankFacts.

Lemma rstrip_nil_spaces (s : string) :
  Py.rstrip s = "" -> str_all Py.isspace s = true.
Proof.
  induction s as [|c s IH]; [done|]. simpl.
  destruct (Py.rstrip s); [|done].
  destruct (Py.isspace c); [|done]. intros _. by rewrite IH.
Qed.

Lemma lstrip_spaces (s : string) :
  str_all Py.isspace (Py.lstrip s) = true -> str_all Py.isspace s = true.
Proof.
  induction s as [|c s IH]; [done|]. simpl.
  destruct (Py.isspace c) eqn:Hc; [done|]. simpl. by rewrite Hc.
Qed.

Lemma spaces_blank (s : string) :
  str_all Py.isspace s = true -> Py.blank s = true.
Proof.
  induction s as [|c s IH]; [done|]. simpl.
  intros [-> Hs]%andb_true_iff. by apply IH.
Qed.

(** A text that [strip()] of the model empties is blank for Python;
    so a text that is not blank for Python keeps something under the
    [strip()] of the model. *)
Lemma strip_nil_blank (s : string) : Py.strip s = "" -> Py.blank s = true.
Proof.
  intros Hs. by apply spaces_blank, lstrip_spaces, rstrip_nil_spaces.
Qed.

Lemma not_blank_strip (s : string) : Py.blank s = false -> Py.strip s <> "".
Proof. intros Hb Hs. apply strip_nil_blank in Hs. congruence. Qed.

(** A no-break space is blank for Python, not for the model's
    [strip()]. *)
Example blank_nbsp :
  Py.blank (String (ascii_of_nat 194) (String (ascii_of_nat 160) " "))
    = true /\
  Py.strip (String (ascii_of_nat 194) (String (ascii_of_nat 160) " "))
    = String (ascii_of_nat 194) (String (ascii_of_nat 160) "").
Proof. split; reflexivity. Qed.

(** The whitespace of Unicode beyond ASCII, each character in its UTF-8
    encoding, is blank; the characters next to them in the tables, the
    zero-width space, the Mongolian vowel separator and the byte order
    mark are not. *)
Example blank_unicode :
  forallb Py.blank
    [(* U+0085 *) String (ascii_of_nat 194) (String (ascii_of_nat 133) "");
    (* U+00A0 *) String (ascii_of_nat 194) (String (ascii_of_nat 160) "");
    (* U+1680 *) String (ascii_of_nat 225) (String (ascii_of_nat 154) (String (ascii_of_nat 128) ""));
    (* U+2000 *) String (ascii_of_nat 226) (String (ascii_of_nat 128) (String (ascii_of_nat 128) ""));
    (* U+2001 *) String (ascii_of_nat 226) (String (ascii_of_nat 128) (String (ascii_of_nat 129) ""));
    (* U+2002 *) String (ascii_of_nat 226) (String (ascii_of_nat 128) (String (ascii_of_nat 130) ""));
    (* U+2003 *) String (ascii_of_nat 226) (String (ascii_of_nat 128) (String (ascii_of_nat 131) ""));
    (* U+2004 *) String (ascii_of_nat 226) (String (ascii_of_nat 128) (String (ascii_of_nat 132) ""));
    (* U+2005 *) String (ascii_of_nat 226) (String (ascii_of_nat 128) (String (ascii_of_nat 133) ""));
    (* U+2006 *) String (ascii_of_nat 226) (String (ascii_of_nat 128) (String (ascii_of_nat 134) ""));
    (* U+2007 *) String (ascii_of_nat 226) (String (ascii_of_nat 128) (String (ascii_of_nat 135) ""));
    (* U+2008 *) String (ascii_of_nat 226) (String (ascii_of_nat 128) (String (ascii_of_nat 136) ""));
    (* U+2009 *) String (ascii_of_nat 226) (String (ascii_of_nat 128) (String (ascii_of_nat 137) ""));
    (* U+200A *) String (ascii_of_nat 226) (String (ascii_of_nat 128) (String (ascii_of_nat 138) ""));
    (* U+2028 *) String (ascii_of_nat 226) (String (ascii_of_nat 128) (String (ascii_of_nat 168) ""));
    (* U+2029 *) String (ascii_of_nat 226) (String (ascii_of_nat 128) (String (ascii_of_nat 169) ""));
    (* U+202F *) String (ascii_of_nat 226) (String (ascii_of_nat 128) (String (ascii_of_nat 175) ""));
    (* U+205F *) String (ascii_of_nat 226) (String (ascii_of_nat 129) (String (ascii_of_nat 159) ""));
    (* U+3000 *) String (ascii_of_nat 227) (String (ascii_of_nat 128) (String (ascii_of_nat 128) ""))]
  = true.
Proof. vm_compute. reflexivity. Qed.

Example not_blank_unicode :
  existsb Py.blank
    [(* U+0084 *) String (ascii_of_nat 194) (String (ascii_of_nat 132) "");
    (* U+0086 *) String (ascii_of_nat 194) (String (ascii_of_nat 134) "");
    (* U+00A1 *) String (ascii_of_nat 194) (String (ascii_of_nat 161) "");
    (* U+009F *) String (ascii_of_nat 194) (String (ascii_of_nat 159) "");
    (* U+1681 *) String (ascii_of_nat 225) (String (ascii_of_nat 154) (String (ascii_of_nat 129) ""));
    (* U+167F *) String (ascii_of_nat 225) (String (ascii_of_nat 153) (String (ascii_of_nat 191) ""));
    (* U+1FFF *) String (ascii_of_nat 225) (String (ascii_of_nat 191) (String (ascii_of_nat 191) ""));
    (* U+200B *) String (ascii_of_nat 226) (String (ascii_of_nat 128) (String (ascii_of_nat 139) ""));
    (* U+2027 *) String (ascii_of_nat 226) (String (ascii_of_nat 128) (String (ascii_of_nat 167) ""));
    (* U+202A *) String (ascii_of_nat 226) (String (ascii_of_nat 128) (String (ascii_of_nat 170) ""));
    (* U+202E *) String (ascii_of_nat 226) (String (ascii_of_nat 128) (String (ascii_of_nat 174) ""));
    (* U+2030 *) String (ascii_of_nat 226) (String (ascii_of_nat 128) (String (ascii_of_nat 176) ""));
    (* U+205E *) String (ascii_of_nat 226) (String (ascii_of_nat 129) (String (ascii_of_nat 158) ""));
    (* U+2060 *) String (ascii_of_nat 226) (String (ascii_of_nat 129) (String (ascii_of_nat 160) ""));
    (* U+2FFF *) String (ascii_of_nat 226) (String (ascii_of_nat 191) (String (ascii_of_nat 191) ""));
    (* U+3001 *) String (ascii_of_nat 227) (String (ascii_of_nat 128) (String (ascii_of_nat 129) ""));
    (* U+00E9 *) String (ascii_of_nat 195) (String (ascii_of_nat 169) "");
    (* U+180E *) String (ascii_of_nat 225) (String (ascii_of_nat 160) (String (ascii_of_nat 142) ""));
    (* U+FEFF *) String (ascii_of_nat 239) (String (ascii_of_nat 187) (String (ascii_of_nat 191) ""))]
  = false.
Proof. vm_compute. reflexivity. Qed.

(** On ASCII text the length in characters is the length in bytes. *)
Lemma len_ascii (s : string) :
  ascii_text s -> Py.len s = String.length s.
Proof.
  unfold ascii_text. induction s as [|c s IH]; [done|]. simpl.
  intros [Hc Hs]%andb_true_iff. rewrite (IH Hs).
  unfold is_ascii_char in Hc. unfold Py.is_start.
  apply Nat.ltb_lt in Hc.
  assert ((128 <=? nat_of_ascii c)%nat = false) as ->; [|done].
  by apply Nat.leb_gt.
Qed.

Example len_ex :
  Py.len (String (ascii_of_nat 195) (String (ascii_of_nat 169) "a")) = 2%nat.
Proof. reflexivity. Qed.

End BlankFacts.

(** ** The dispatcher *)

(** Case analysis on the next comparison of [s] with a literal. *)
Ltac case_eqb s :=
  match goal with
  | |- context [String.eqb s ?k] =>
      destruct (String.eqb_spec s k) as [->|?]
  end.

Section Dispatcher.
Context `{PasswordHasher}.
Implicit Types (st : Store) (c client : ClientState).
Implicit Types (ts line rest tok cmd : string).

Lemma process_line_dispatch ts st c line :
  line <> "" ->
  process_line ts st c line =
    dispatch ts (Py.upper (Py.split1 Py.SP line).1) st c
             (default "" (Py.split1 Py.SP line).2).
Proof.
  intros Hne. unfold process_line, dispatch.
  destruct line as [|a l]; [done|].
  by destruct (Py.split1 Py.SP (String a l)) as [part0 part1].
Qed.

(** A line with arguments: the command is what stands before the
    first space, the payload is everything after that space. *)
Lemma process_line_args ts st c tok rest :
  Py.contains Py.SP tok = false ->
  process_line ts st c (tok +:+ " " +:+ rest)
  = dispatch ts (Py.upper tok) st c rest.
Proof.
  intros Hsp. rewrite process_line_dispatch.
  - change (tok +:+ " " +:+ rest) with (tok +:+ String Py.SP rest).
    by rewrite split1_app.
  - by destruct tok.
Qed.

(** A line without a space is a command with the empty payload. *)
Lemma process_line_bare ts st c tok :
  tok <> "" -> Py.contains Py.SP tok = false ->
  process_line ts st c tok = dispatch ts (Py.upper tok) st c "".
Proof.
  intros Hne Hsp. rewrite process_line_dispatch by done.
  by rewrite split1_none.
Qed.


(** A token that upper-cases to a command name has no space in it and
    is not empty. *)
Lemma command_token tok :
  Py.upper tok ∈ command_names ->
  tok <> "" /\ Py.contains Py.SP tok = false.
Proof.
  intros Hin. split.
  - intros ->. revert Hin. unfold command_names. simpl.
    rewrite !elem_of_cons, elem_of_nil. intuition congruence.
  - rewrite <- contains_space_upper. revert Hin.
    generalize (Py.upper tok). intros cmd. unfold command_names.
    rewrite !elem_of_cons, elem_of_nil.
    intuition (subst; reflexivity).
Qed.

(** *** LOGIN *)

(** C10. A session that is already authenticated gets
    [ERR Already logged in] for every LOGIN line, with no argument, one,
    two or more, and never [ERR BAD_SYNTAX]; the session (user name,
    role, authenticated flag) and the stores stay as they were. *)
Theorem login_already_logged_in ts st c tok rest :
  authenticated c = true ->
  Py.upper tok = "LOGIN" ->
  handle_login st c rest = (st, c, ln "ERR Already logged in") /\
  process_line ts st c tok
    = (st, c, Some (ln "ERR Already logged in"), false) /\
  process_line ts st c (tok +:+ " " +:+ rest)
    = (st, c, Some (ln "ERR Already logged in"), false).
Proof.
  intros Hauth Hup.
  assert (Hl : forall r, handle_login st c r
                         = (st, c, ln "ERR Already logged in")).
  { intros r. unfold handle_login. by rewrite Hauth. }
  destruct (command_token tok) as [Hne Hsp].
  { rewrite Hup. unfold command_names. set_solver. }
  split; [apply Hl|].
  rewrite process_line_bare, process_line_args by done.
  unfold dispatch. rewrite Hup. simpl. by rewrite !Hl.
Qed.


(** What a LOGIN does to a session: nothing, or it authenticates it
    under a name of the credential store with that record's role. *)
Lemma handle_login_effect st c rest :
  let '(st', c', _) := handle_login st c rest in
  st' = st /\
  (c' = c \/
   exists name password record,
     authenticated c = false /\
     Py.split rest = [name; password] /\
     USERS st !! name = Some record /\
     verify_password record password = true /\
     c' = {| sock := sock c; addr := addr c; buffer := buffer c;
             username := Some name;
             role := Some (default "user" (rec_role record));
             authenticated := true |}).
Proof.
  unfold handle_login.
  destruct (authenticated c) eqn:Ha; [by auto|].
  destruct (Py.split rest) as [|name [|password [|]]] eqn:Hs; try by auto.
  destruct (USERS st !! name) as [record|] eqn:Hu; [|by auto].
  destruct (verify_password record password) eqn:Hv; simpl; [|by auto].
  split; [done|]. right. by exists name, password, record.
Qed.

(** The other handlers leave the session alone, and no handler
    touches [USERS]. *)
Lemma dispatch_session ts cmd st c rest :
  cmd <> "LOGIN" -> (dispatch ts cmd st c rest).1.1.2 = c.
Proof.
  intros Hne. unfold dispatch. simpl.
  repeat (case_eqb cmd; [try done; simpl|]); [..|done].
  all: unfold handle_help, handle_post, handle_list, handle_get, handle_del,
      handle_whoami, handle_quit, require_auth;
    repeat case_match; by simplify_eq/=.
Qed.

Lemma dispatch_users ts cmd st c rest :
  USERS (dispatch ts cmd st c rest).1.1.1 = USERS st.
Proof.
  unfold dispatch. simpl.
  repeat (case_eqb cmd; [simpl|]); [..|done].
  all: unfold handle_help, handle_login, handle_post, handle_list,
      handle_get, handle_del, handle_whoami, handle_quit, require_auth;
    repeat case_match; by simplify_eq/=.
Qed.

(** [register] adds a record without a role under a name that is free,
    and changes no record that is there: a role, once stored, stays. *)
Lemma register_keeps_records st name password other :
  is_Some (USERS st !! other) ->
  USERS (register st name password).1 !! other = USERS st !! other.
Proof.
  intros Hsome. unfold register.
  destruct (USERS st !! name) eqn:Hn; [done|].
  destruct (_ <? _)%nat; [done|]. simpl.
  apply lookup_insert_ne. intros ->. rewrite Hn in Hsome.
  by destruct Hsome.
Qed.


(** *** DEL *)

(** C1. For an authenticated session and a payload that reads as the
    post id [i], in a numeral that [int()] takes (at most 4300
    characters; a numeral is ASCII, so the payload is): when no post has
    id [i] the answer is [ERR Not found] (whoever asks: existence is
    looked at before authorization); when post [P] has id [i], the post
    is deleted and the answer is [OK Deleted i] if the session's role is
    admin or its user name is [P]'s author, and otherwise the answer is
    [ERR Not authorized] and the store is unchanged. *)
Theorem del_authorization ts st c rest part i :
  authenticated c = true ->
  Py.split rest = [part] -> Py.int part = Some i ->
  (String.length part <= MAX_STR_DIGITS)%nat ->
  let '(st', c', resp) := handle_del st c rest in
  process_line ts st c ("DEL" +:+ " " +:+ rest) = (st', c', Some resp, false) /\
  c' = c /\
  match posts st !! i with
  | None => st' = st /\ resp = ln "ERR Not found"
  | Some P =>
      if bool_decide (role c = Some "admin" \/ username c = author P)
      then resp = ln ("OK Deleted " +:+ pretty i) /\
           posts st' !! i = None /\
           (forall j, j <> i -> posts st' !! j = posts st !! j) /\
           USERS st' = USERS st /\ next_post_id st' = next_post_id st
      else st' = st /\ resp = ln "ERR Not authorized"
  end.
Proof.
  intros Hauth Hs Hi _.
  rewrite process_line_args by done. unfold dispatch. simpl.
  unfold handle_del, require_auth. rewrite Hauth, Hs, Hi.
  destruct (posts st !! i) as [P|] eqn:HP; [|done].
  destruct (bool_decide (role c = Some "admin" \/ username c = author P))
    eqn:Hd.
  - apply bool_decide_eq_true in Hd.
    assert (bool_decide (role c ≠ Some "admin")
            && bool_decide (author P ≠ username c) = false) as ->.
    { apply andb_false_iff.
      destruct Hd as [Hd|Hd]; [left|right];
        apply bool_decide_eq_false; intros Hn; by apply Hn. }
    simpl. split_and!; try done.
    + apply lookup_delete_eq.
    + intros j Hj. by apply lookup_delete_ne.
  - apply bool_decide_eq_false in Hd.
    assert (bool_decide (role c ≠ Some "admin")
            && bool_decide (author P ≠ username c) = true) as ->.
    { apply andb_true_iff. split; apply bool_decide_eq_true;
        intros Hn; apply Hd; [by left|by right]. }
    done.
Qed.

(** *** QUIT and the close flag *)

(** The flag comes from the table: it is set for QUIT and for no other
    command, whatever the handler answers. *)
Lemma close_flag_iff_quit ts cmd st c rest :
  (dispatch ts cmd st c rest).2 = true <-> cmd = "QUIT".
Proof.
  unfold dispatch. simpl.
  repeat (case_eqb cmd;
          [simpl; match goal with
                  | |- context [?h st c rest] =>
                      destruct (h st c rest) as [[? ?] ?]
                  end; simpl; split; (done || congruence)|]).
  simpl. split; [done|congruence].
Qed.

Lemma quit_bad_syntax st c rest :
  ascii_text rest -> Py.strip rest <> "" ->
  handle_quit st c rest = (st, c, ln "ERR BAD_SYNTAX").
Proof. intros _ Hr. unfold handle_quit. by destruct (Py.strip rest). Qed.

(** C2, at the line [QUIT now]: the handler reports the syntax error
    and the close-after-send flag is set all the same. *)
Theorem quit_with_argument_closes ts st c :
  process_line ts st c "QUIT now" = (st, c, Some (ln "ERR BAD_SYNTAX"), true).
Proof. reflexivity. Qed.

(** The same for every QUIT line with an argument of ASCII text, in any
    case of the letters. *)
Lemma quit_with_any_argument_closes ts st c tok rest :
  Py.upper tok = "QUIT" -> ascii_text rest -> Py.strip rest <> "" ->
  process_line ts st c (tok +:+ " " +:+ rest)
  = (st, c, Some (ln "ERR BAD_SYNTAX"), true).
Proof.
  intros Hup Ha Hr. destruct (command_token tok) as [Hne Hsp].
  { rewrite Hup. unfold command_names. set_solver. }
  rewrite process_line_args by done. unfold dispatch. rewrite Hup. simpl.
  by rewrite quit_bad_syntax.
Qed.

(** Every other line leaves the flag unset; the command is read off a
    first word of ASCII text. *)
Lemma not_quit_stays_open ts st c line :
  ascii_text (Py.split1 Py.SP line).1 ->
  Py.upper (Py.split1 Py.SP line).1 <> "QUIT" ->
  (process_line ts st c line).2 = false.
Proof.
  intros _ Hq. destruct (decide (line = "")) as [->|Hne]; [done|].
  rewrite process_line_dispatch by done.
  apply not_true_is_false. by rewrite close_flag_iff_quit.
Qed.

(** *** The command token *)


(** *** POST and the id counter *)

Lemma get_response_not_ack (p : Post) :
  is_post_ack (ln ("OK " +:+ post_line p)) = false.
Proof.
  unfold ln, post_line. rewrite !str_app_assoc.
  change (Py.startswith "Post "
            (pretty (post_id p) +:+ " " +:+ Py.fmt (author p) +:+ " "
               +:+ timestamp p +:+ " " +:+ message p +:+ Py.NL) = false).
  apply numeral_not_post.
Qed.

Lemma list_response_not_ack st :
  is_post_ack (Py.join Py.NL (list_lines st) +:+ Py.NL) = false.
Proof.
  unfold list_lines, Py.join. simpl.
  by destruct (omap _ _).
Qed.

(** What a command does to the posts and to the counter: a command
    either leaves the counter alone, adds no post and is not answered by
    an acknowledgement of a post, or it is a POST that files a post
    under the value of the counter, acknowledges that id and moves the
    counter up by one. *)
Lemma dispatch_post_effect ts cmd st c rest :
  let '(st', _, resp, _) := dispatch ts cmd st c rest in
  (next_post_id st' = next_post_id st /\
   (forall k p, posts st' !! k = Some p -> posts st !! k = Some p) /\
   (forall r, resp = Some r -> is_post_ack r = false))
  \/
  (cmd = "POST" /\
   resp = Some (post_ack (next_post_id st)) /\
   next_post_id st' = next_post_id st + 1 /\
   posts st' = <[next_post_id st :=
                   {| post_id := next_post_id st; author := username c;
                      timestamp := ts; message := rest |}]> (posts st)).
Proof.
  unfold dispatch. simpl.
  repeat (case_eqb cmd; [simpl|]);
    [..|left; split_and!; [done|done|by intros r [= <-]]].
  all: unfold handle_help, handle_login, handle_post, handle_list,
      handle_get, handle_del, handle_whoami, handle_quit, require_auth;
    repeat case_match; simplify_eq/=;
    try (by right);
    left; (split_and!; [done| |intros r [= <-];
      first [reflexivity | apply get_response_not_ack
            | apply list_response_not_ack]]);
    try done.
  intros k p. rewrite lookup_delete_Some. by intros [_ ?].
Qed.

Lemma process_line_post_effect ts st c line :
  let '(st', _, resp, _) := process_line ts st c line in
  (next_post_id st' = next_post_id st /\
   (forall k p, posts st' !! k = Some p -> posts st !! k = Some p) /\
   (forall r, resp = Some r -> is_post_ack r = false))
  \/
  (exists rest,
     resp = Some (post_ack (next_post_id st)) /\
     next_post_id st' = next_post_id st + 1 /\
     posts st' = <[next_post_id st :=
                     {| post_id := next_post_id st; author := username c;
                        timestamp := ts; message := rest |}]> (posts st)).
Proof.
  destruct (decide (line = "")) as [->|Hne].
  { simpl. left. by split_and!. }
  rewrite process_line_dispatch by done.
  set (cmd := Py.upper _). set (rest := default "" _).
  pose proof (dispatch_post_effect ts cmd st c rest) as He.
  destruct (dispatch ts cmd st c rest) as [[[st' c'] resp] cl].
  destruct He as [He|(_ & He)]; [by left|right]. by exists rest.
Qed.

(** *** Count-framed answers: LIST and HELP *)

Lemma wire_lines_go_line (cur l s : string) :
  no_lf l ->
  wire_lines_go cur (l +:+ String Py.LF s)
  = ((cur +:+ l) :: (wire_lines_go "" s).1, (wire_lines_go "" s).2).
Proof.
  unfold no_lf. revert cur. induction l as [|a l IH]; intros cur Hl.
  - rewrite str_app_nil_l, str_app_nil_r. simpl.
    by destruct (wire_lines_go "" s).
  - rewrite str_app_cons. simpl in *.
    apply orb_false_iff in Hl as [Ha Hl]. rewrite Ha, (IH _ Hl).
    by rewrite str_app_assoc.
Qed.

(** Lines without a line feed, joined and terminated, read back as
    themselves with nothing left over. *)
Lemma wire_lines_join (ls : list string) :
  ls <> [] -> Forall no_lf ls ->
  wire_lines (Py.join Py.NL ls +:+ Py.NL) = (ls, "").
Proof.
  unfold wire_lines, Py.join.
  induction ls as [|x [|y l] IH]; intros Hne Hall; [done| |].
  - simpl. apply Forall_cons in Hall as [Hx _].
    change (x +:+ Py.NL) with (x +:+ String Py.LF "").
    by rewrite wire_lines_go_line.
  - apply Forall_cons in Hall as [Hx Hall].
    change (String.concat Py.NL (x :: y :: l))
      with (x +:+ Py.NL +:+ String.concat Py.NL (y :: l)).
    rewrite !str_app_assoc.
    change (x +:+ Py.NL +:+ String.concat Py.NL (y :: l) +:+ Py.NL)
      with (x +:+ String Py.LF (String.concat Py.NL (y :: l) +:+ Py.NL)).
    rewrite wire_lines_go_line by done.
    by rewrite IH.
Qed.

Lemma no_lf_app (s t : string) : no_lf (s +:+ t) <-> no_lf s /\ no_lf t.
Proof. unfold no_lf. rewrite contains_app. apply orb_false_iff. Qed.

Lemma strictly_sorted (l : list Z) :
  StronglySorted Z.le l -> NoDup l -> StronglySorted Z.lt l.
Proof.
  induction 1 as [|x l Hs IH Hx]; intros Hnd; [constructor|].
  apply NoDup_cons in Hnd as [Hin Hnd]. constructor; [by apply IH|].
  rewrite Forall_forall in Hx |- *. intros y Hy.
  specialize (Hx y Hy). assert (x <> y) by (by intros ->). lia.
Qed.

(** [sorted(posts.keys())]: the keys, each once, in ascending order. *)
Lemma sorted_keys_spec (m : gmap Z Post) :
  StronglySorted Z.lt (sorted_keys m) /\
  (forall k, k ∈ sorted_keys m <-> is_Some (m !! k)) /\
  length (sorted_keys m) = size m.
Proof.
  unfold sorted_keys.
  pose proof (merge_sort_Permutation Z.le (elements (dom m))) as Hp.
  split_and!.
  - apply strictly_sorted; [apply StronglySorted_merge_sort; apply _|].
    rewrite Hp. apply NoDup_elements.
  - intros k. by rewrite Hp, elem_of_elements, elem_of_dom.
  - by rewrite Hp, <- size_dom.
Qed.

(** Every key the loop of [handle_list] visits has its post. *)
Lemma keys_posts (m : gmap Z Post) (ks : list Z) :
  (forall k, k ∈ ks -> is_Some (m !! k)) ->
  Forall2 (fun k p => m !! k = Some p) ks (omap (fun k => m !! k) ks).
Proof.
  induction ks as [|k ks IH]; intros Hks; [constructor|].
  destruct (Hks k) as [p Hp]; [by left|].
  change (omap (fun k => m !! k) (k :: ks))
    with (match m !! k with
          | Some y => y :: omap (fun k => m !! k) ks
          | None => omap (fun k => m !! k) ks
          end).
  rewrite Hp. constructor; [done|].
  apply IH. intros k' Hk'. apply Hks. by right.
Qed.

Lemma posts_ids (m : gmap Z Post) (ks : list Z) (ps : list Post) :
  (forall k p, m !! k = Some p -> post_id p = k) ->
  Forall2 (fun k p => m !! k = Some p) ks ps ->
  post_id <$> ps = ks.
Proof.
  intros Hid. induction 1 as [|k p ks ps Hkp _ IH]; [done|].
  rewrite fmap_cons, IH. f_equal. by apply Hid.
Qed.

Lemma omap_post_line (m : gmap Z Post) (ks : list Z) :
  omap (fun k => post_line <$> m !! k) ks
  = post_line <$> omap (fun k => m !! k) ks.
Proof.
  induction ks as [|k ks IH]; [done|].
  change (omap (fun k => post_line <$> m !! k) (k :: ks))
    with (match post_line <$> m !! k with
          | Some y => y :: omap (fun k => post_line <$> m !! k) ks
          | None => omap (fun k => post_line <$> m !! k) ks
          end).
  change (omap (fun k => m !! k) (k :: ks))
    with (match m !! k with
          | Some y => y :: omap (fun k => m !! k) ks
          | None => omap (fun k => m !! k) ks
          end).
  rewrite IH. by destruct (m !! k).
Qed.

Lemma post_line_no_lf (p : Post) :
  no_lf (Py.fmt (author p)) -> no_lf (timestamp p) -> no_lf (message p) ->
  no_lf (post_line p).
Proof.
  intros Ha Ht Hm. unfold post_line.
  rewrite !no_lf_app. split_and!; try done. apply pretty_Z_no_lf.
Qed.

(** The lines of a LIST answer: the header, then one line for each key
    in ascending order. When the store can go on lines, these are lines
    on the wire too and the ids shown are the keys. *)
Lemma list_lines_spec st :
  exists ks ps,
    list_lines st
      = ("OK LIST " +:+ pretty (size (posts st))) :: (post_line <$> ps) /\
    length ps = size (posts st) /\
    StronglySorted Z.lt ks /\
    Forall2 (fun k p => posts st !! k = Some p) ks ps /\
    (forall p, p ∈ ps <-> exists k, posts st !! k = Some p) /\
    (store_ok st ->
     post_id <$> ps = ks /\ Forall no_lf (list_lines st)).
Proof.
  unfold list_lines.
  destruct (sorted_keys_spec (posts st)) as (Hsorted & Hkeys & Hlen).
  pose proof (keys_posts (posts st) (sorted_keys (posts st))) as Hall.
  set (ps := omap (fun k => posts st !! k) (sorted_keys (posts st))) in *.
  assert (Hall' : Forall2 (fun k p => posts st !! k = Some p)
                    (sorted_keys (posts st)) ps).
  { apply Hall. by intros k ?%Hkeys. }
  clear Hall. rename Hall' into Hall.
  exists (sorted_keys (posts st)), ps. rewrite omap_post_line. fold ps.
  split_and!.
  - done.
  - by rewrite <- Hlen, (Forall2_length _ _ _ Hall).
  - done.
  - done.
  - intros p. split.
    + intros Hp. apply list_elem_of_lookup in Hp as [i Hi].
      destruct (Forall2_lookup_r _ _ _ _ _ Hall Hi) as (k & _ & Hkp).
      by exists k.
    + intros [k Hkp].
      assert (Hk : k ∈ sorted_keys (posts st)) by (by apply Hkeys).
      apply list_elem_of_lookup in Hk as [i Hi].
      destruct (Forall2_lookup_l _ _ _ _ _ Hall Hi) as (p' & Hp' & Hkp').
      rewrite Hkp in Hkp'. simplify_eq. by eapply list_elem_of_lookup_2.
  - intros Hok. split.
    + apply (posts_ids (posts st)); [|done].
      intros k p Hkp. by apply Hok in Hkp as [? _].
    + constructor.
      * apply no_lf_app. split; [done|apply pretty_nat_no_lf].
      * apply Forall_fmap, Forall_forall. intros p Hp.
        apply list_elem_of_lookup in Hp as [i Hi].
        destruct (Forall2_lookup_r _ _ _ _ _ Hall Hi) as (k & _ & Hkp).
        apply Hok in Hkp as (_ & ? & ? & ?). by apply post_line_no_lf.
Qed.

Lemma assoc_elem_of {V} (k : string) (d : list (string * V)) (v : V) :
  assoc k d = Some v -> (k, v) ∈ d.
Proof.
  induction d as [|[k' v'] d IH]; [done|]. simpl.
  destruct (String.eqb_spec k k') as [->|]; [intros [= ->]; by left|].
  intros Hd. right. by apply IH.
Qed.

(** Each HELP text reads back as its header and the lines the header
    counts. *)
Lemma help_bodies_framed :
  Forall (fun body =>
            wire_lines (help_response body)
            = (("OK HELP " +:+ pretty (length body)) :: body, ""))
         (help_body :: details.*2).
Proof. repeat constructor. Qed.

(** C3. A LIST that succeeds (an authenticated session, no argument)
    answers, for every store (the empty one too), with the header
    [OK LIST n] and then one line for each post, in ascending order of
    the keys the posts are filed under: [n] is the number of posts in
    the store and the number of lines that follow, every post of the
    store has its line, and the line of a post is its id, author, time
    and message with one space between them. In a store that can go on
    lines (every store the reactor reaches, see [reachable_store_ok])
    the ids shown go strictly up, and read off the wire the answer is
    the header and exactly those [n] lines, with nothing left over. A
    LIST with an argument is a syntax error; this is said for ASCII
    payloads, where the blank payloads of the model are those of
    [strip()]. A HELP that succeeds answers with the header [OK HELP n]
    and then exactly [n] lines. *)
Theorem count_framing st c rest :
  (let '(st', c', resp) := handle_list st c rest in
   st' = st /\ c' = c /\
   (authenticated c = false -> resp = ln "ERR Not logged in") /\
   (authenticated c = true -> ascii_text rest -> Py.strip rest <> "" ->
    resp = ln "ERR BAD_SYNTAX") /\
   (authenticated c = true -> Py.strip rest = "" ->
    exists ks ps lines,
      lines = (fun p => pretty (post_id p) +:+ " "
                          +:+ default "None" (author p) +:+ " "
                          +:+ timestamp p +:+ " " +:+ message p) <$> ps /\
      resp = Py.join Py.NL (("OK LIST " +:+ pretty (size (posts st)))
                              :: lines) +:+ Py.NL /\
      length lines = size (posts st) /\
      StronglySorted Z.lt ks /\
      Forall2 (fun k p => posts st !! k = Some p) ks ps /\
      (forall p, p ∈ ps <-> exists k, posts st !! k = Some p) /\
      (store_ok st ->
       post_id <$> ps = ks /\
       wire_lines resp
         = (("OK LIST " +:+ pretty (size (posts st))) :: lines, "")))) /\
  (let '(st', c', resp) := handle_help st c rest in
   st' = st /\ c' = c /\
   (resp = ln "ERR BAD_SYNTAX" \/ resp = ln "ERR UNKNOWN_COMMAND" \/
    exists body,
      resp = help_response body /\
      wire_lines resp
        = (("OK HELP " +:+ pretty (length body)) :: body, "")) /\
   (Py.strip rest = "" ->
    wire_lines resp = ("OK HELP 16" :: help_body, ""))).
Proof.
  split.
  - unfold handle_list, require_auth.
    destruct (authenticated c); [|by split_and!].
    destruct (Py.strip rest) eqn:Hr; [|by split_and!].
    split_and!; try done. intros _ _.
    destruct (list_lines_spec st)
      as (ks & ps & Hl & Hlen & Hs & Hall & Hin & Hok).
    exists ks, ps, (post_line <$> ps). rewrite length_fmap, <- Hl.
    split_and!; try done.
    intros [Hids Hnl]%Hok. split; [done|].
    rewrite wire_lines_join; [done|by rewrite Hl|done].
  - pose proof help_bodies_framed as Hf. rewrite Forall_cons in Hf.
    destruct Hf as [Hgen Htopics]. rewrite Forall_forall in Htopics.
    unfold handle_help.
    destruct (Py.strip rest) as [|a arg] eqn:Hr.
    { split_and!; try done. right. right. by exists help_body. }
    destruct (Py.split (String a arg)) as [|part [|]];
      [by split_and!; auto| |by split_and!; auto].
    destruct (assoc (Py.upper part) details) as [body|] eqn:Ha;
      [|by split_and!; auto].
    split_and!; try done. right. right. exists body. split; [done|].
    apply Htopics. apply assoc_elem_of in Ha.
    apply list_elem_of_fmap. by exists (Py.upper part, body).
Qed.

(** *** More on the handlers *)

(** POST, LIST, GET, DEL and WHOAMI from a session that is not
    authenticated: the answer is [ERR Not logged in] whatever the payload
    (the check comes before any look at the arguments), nothing changes
    and the connection stays open. *)
Theorem auth_required ts st c tok rest :
  authenticated c = false ->
  Py.upper tok ∈ ["POST"; "LIST"; "GET"; "DEL"; "WHOAMI"] ->
  process_line ts st c tok
    = (st, c, Some (ln "ERR Not logged in"), false) /\
  process_line ts st c (tok +:+ " " +:+ rest)
    = (st, c, Some (ln "ERR Not logged in"), false).
Proof.
  intros Hauth Hin.
  assert (Hcmd : Py.upper tok ∈ command_names).
  { revert Hin. unfold command_names. rewrite !elem_of_cons, !elem_of_nil.
    tauto. }
  destruct (command_token tok Hcmd) as [Hne Hsp].
  rewrite process_line_bare, process_line_args by done.
  revert Hin. rewrite !elem_of_cons, elem_of_nil. unfold dispatch.
  intros [->|[->|[->|[->|[->|[]]]]]]; simpl;
    unfold handle_post, handle_list, handle_get, handle_del,
      handle_whoami, require_auth;
    by rewrite Hauth.
Qed.

(** A session that is authenticated stays as it is under every line:
    there is no second login and no logout. *)
Theorem session_fixed_once_authenticated ts st c line :
  authenticated c = true ->
  (process_line ts st c line).1.1.2 = c.
Proof.
  intros Hauth. destruct (decide (line = "")) as [->|Hne]; [done|].
  rewrite process_line_dispatch by done.
  set (cmd := Py.upper _). set (rest := default "" _).
  destruct (decide (cmd = "LOGIN")) as [->|Hl];
    [|by apply dispatch_session].
  unfold dispatch. simpl. unfold handle_login. by rewrite Hauth.
Qed.


(** [register] with a free name and a password of ten characters or more
    reports success, and when the hasher verifies what it hashes, a LOGIN
    with that name and password then succeeds, with the role "user". The
    payload of the LOGIN is ASCII text, where its two words are the two
    words [split()] finds. *)
Theorem register_then_login st c name password rest :
  hasher_ok ->
  USERS st !! name = None ->
  (10 <= Py.len password)%nat ->
  authenticated c = false ->
  ascii_text rest ->
  Py.split rest = [name; password] ->
  let '(st1, outcome) := register st name password in
  outcome = (true, "OK registered") /\
  posts st1 = posts st /\ next_post_id st1 = next_post_id st /\
  exists c',
    handle_login st1 c rest
      = (st1, c', ln ("OK Logged in as " +:+ name +:+ " (user)")) /\
    authenticated c' = true /\ username c' = Some name /\
    role c' = Some "user".
Proof.
  intros [Hver Hne] Hfree Hlen Hauth _ Hs. unfold register. rewrite Hfree.
  destruct (Py.len password <? 10)%nat eqn:Hlt;
    [apply Nat.ltb_lt in Hlt; lia|].
  split_and!; try done. eexists.
  unfold handle_login. rewrite Hauth, Hs. simpl.
  rewrite lookup_insert_eq. unfold verify_password. simpl.
  specialize (Hne password). destruct (ph_hash password) eqn:Hh; [done|].
  rewrite <- Hh, Hver. simpl. by split_and!.
Qed.

(** The name a LOGIN authenticates is a word: not empty and free of
    whitespace. So a user whose name has a space in it, or is empty
    ([register] takes such names), can never log in. *)
Theorem login_name_is_word ts st c line name :
  authenticated c = false ->
  authenticated (process_line ts st c line).1.1.2 = true ->
  username (process_line ts st c line).1.1.2 = Some name ->
  name <> "" /\ str_all nonspace name = true /\
  is_Some (USERS st !! name).
Proof.
  intros Hauth. destruct (decide (line = "")) as [->|Hne].
  { simpl. congruence. }
  rewrite process_line_dispatch by done.
  set (cmd := Py.upper _). set (rest := default "" _).
  destruct (decide (cmd = "LOGIN")) as [->|Hl];
    [|rewrite dispatch_session by done; congruence].
  unfold dispatch. simpl.
  pose proof (handle_login_effect st c rest) as He.
  destruct (handle_login st c rest) as [[st' c'] resp]. simpl.
  destruct He as [_ [->|(n & pw & record & _ & Hs & Hu & _ & ->)]];
    [congruence|].
  simpl. intros _ [= <-].
  assert (Hin : n ∈ Py.split rest) by (rewrite Hs; by left).
  split_and!.
  - by apply (split_go_ne_nil "" rest).
  - by apply (split_go_word "" rest).
  - by eexists.
Qed.

(** A POST with a payload that is not blank (not empty, and not made
    of whitespace only, that of Unicode included) is acknowledged with
    its id, and a GET of that id, written as the acknowledgement writes
    it, from any authenticated session, shows the post: id, author, time
    and the message as it was sent. *)
Theorem post_then_get ts ts2 st c c2 rest :
  authenticated c = true -> Py.blank rest = false ->
  authenticated c2 = true ->
  exists st1,
    process_line ts st c ("POST" +:+ " " +:+ rest)
      = (st1, c, Some (post_ack (next_post_id st)), false) /\
    process_line ts2 st1 c2 ("GET" +:+ " " +:+ pretty (next_post_id st))
      = (st1, c2,
         Some (ln ("OK " +:+ pretty (next_post_id st) +:+ " "
                     +:+ Py.fmt (username c) +:+ " " +:+ ts +:+ " "
                     +:+ rest)),
         false).
Proof.
  intros Hauth Hr%not_blank_strip Hauth2. eexists. split.
  - rewrite process_line_args by done.
    unfold dispatch. simpl. unfold handle_post, require_auth. rewrite Hauth.
    destruct (Py.strip rest); [done|]. reflexivity.
  - rewrite process_line_args by done.
    unfold dispatch. simpl. unfold handle_get, require_auth.
    rewrite Hauth2, split_pretty, int_pretty. simpl.
    by rewrite lookup_insert_eq.
Qed.

(** In a store where the counter is above every id in use, a POST with
    a payload that is not blank never lands on a post that is there: the
    id is free, the other posts stay, and there is one post more. *)
Theorem post_is_fresh ts st c rest m :
  counter_inv m st ->
  authenticated c = true -> Py.blank rest = false ->
  let st1 := (handle_post ts st c rest).1.1 in
  posts st !! next_post_id st = None /\
  is_Some (posts st1 !! next_post_id st) /\
  (forall k, k <> next_post_id st -> posts st1 !! k = posts st !! k) /\
  size (posts st1) = S (size (posts st)) /\
  counter_inv (S m) st1.
Proof.
  intros [Hn Hk] Hauth Hr%not_blank_strip.
  assert (Hfree : posts st !! next_post_id st = None).
  { destruct (posts st !! next_post_id st) eqn:Hp; [|done].
    assert (1 <= next_post_id st <= Z.of_nat m) by (apply Hk; by eexists).
    lia. }
  unfold handle_post, require_auth. rewrite Hauth.
  destruct (Py.strip rest); [done|]. simpl.
  split; [done|]. split; [rewrite lookup_insert_eq; by eexists|].
  split; [intros k Hne; by rewrite lookup_insert_ne|].
  split; [by rewrite map_size_insert_None|].
  split; [simpl; lia|]. simpl.
  intros k. rewrite lookup_insert_is_Some.
  intros [<-|[_ Hs]]; [lia|]. apply Hk in Hs. lia.
Qed.

(** After a DEL that succeeds, a GET of the same id finds nothing and
    the store holds one post less. *)
Theorem del_then_get ts st c c2 i P :
  authenticated c = true -> authenticated c2 = true ->
  posts st !! i = Some P ->
  role c = Some "admin" \/ username c = author P ->
  exists st1,
    process_line ts st c ("DEL" +:+ " " +:+ pretty i)
      = (st1, c, Some (ln ("OK Deleted " +:+ pretty i)), false) /\
    process_line ts st1 c2 ("GET" +:+ " " +:+ pretty i)
      = (st1, c2, Some (ln "ERR Not found"), false) /\
    S (size (posts st1)) = size (posts st).
Proof.
  intros Hauth Hauth2 HP Hok.
  assert (Hb : bool_decide (role c ≠ Some "admin")
               && bool_decide (author P ≠ username c) = false).
  { apply andb_false_iff.
    destruct Hok as [Hd|Hd]; [left|right];
      apply bool_decide_eq_false; intros Hn; by apply Hn. }
  eexists. split_and!.
  - rewrite process_line_args by done.
    unfold dispatch. simpl. unfold handle_del, require_auth.
    rewrite Hauth, split_pretty, int_pretty, HP, Hb. reflexivity.
  - rewrite process_line_args by done.
    unfold dispatch. simpl. unfold handle_get, require_auth.
    rewrite Hauth2, split_pretty, int_pretty. simpl.
    by rewrite lookup_delete_eq.
  - simpl. rewrite map_size_delete, HP.
    assert (size (posts st) <> 0%nat); [|lia].
    intros Hz. apply map_size_empty_inv in Hz. by rewrite Hz in HP.
Qed.

Lemma list_response_not_err st :
  Py.startswith "ERR" (Py.join Py.NL (list_lines st) +:+ Py.NL) = false.
Proof.
  unfold list_lines, Py.join. simpl.
  by destruct (omap _ _).
Qed.

(** An answer that begins with [ERR] means that nothing happened: the
    stores and the session are as before the line. *)
Theorem error_means_no_effect ts st c line :
  let '(st', c', resp, _) := process_line ts st c line in
  forall r, resp = Some r -> Py.startswith "ERR" r = true ->
            st' = st /\ c' = c.
Proof.
  destruct (decide (line = "")) as [->|Hne]; [by simpl|].
  rewrite process_line_dispatch by done.
  generalize (Py.upper (Py.split1 Py.SP line).1) as cmd.
  generalize (default "" (Py.split1 Py.SP line).2) as rest.
  intros rest cmd. unfold dispatch. simpl.
  repeat (case_eqb cmd; [simpl|]); [..|by intros r _ _].
  all: unfold handle_help, handle_login, handle_post, handle_list,
      handle_get, handle_del, handle_whoami, handle_quit, require_auth;
    repeat case_match; simplify_eq/=;
    intros r [= <-] Hs; try done;
    first [by lazy in Hs | by rewrite list_response_not_err in Hs].
Qed.

(** Only POST and DEL change the stores, and only LOGIN changes a
    session. The command is read off a first word of ASCII text, where
    the upper-casing of the model is [upper()]. *)
Theorem who_changes_what ts st c line :
  ascii_text (Py.split1 Py.SP line).1 ->
  let cmd := Py.upper (Py.split1 Py.SP line).1 in
  let '(st', c', _, _) := process_line ts st c line in
  (cmd <> "POST" -> cmd <> "DEL" -> st' = st) /\
  (cmd <> "LOGIN" -> c' = c).
Proof.
  intros _ cmd. destruct (decide (line = "")) as [->|Hne]; [by simpl|].
  rewrite process_line_dispatch by done. fold cmd.
  generalize (default "" (Py.split1 Py.SP line).2) as rest.
  generalize cmd. clear cmd. intros cmd rest.
  pose proof (dispatch_session ts cmd st c rest) as Hs.
  assert (Hst : cmd <> "POST" -> cmd <> "DEL" ->
                (dispatch ts cmd st c rest).1.1.1 = st).
  { intros Hp Hd. unfold dispatch. simpl.
    repeat (case_eqb cmd; [try done; simpl|]); [..|done].
    all: unfold handle_help, handle_login, handle_list, handle_get,
        handle_whoami, handle_quit, require_auth;
      repeat case_match; by simplify_eq/=. }
  destruct (dispatch ts cmd st c rest) as [[[st' c'] resp] cl].
  simpl in *. auto.
Qed.

(** HELP knows the commands the dispatcher knows, and no others: for a
    payload of one word of ASCII text, in any case of the letters, the
    answer is the topic of that command when the word names one of the
    eight, and [ERR UNKNOWN_COMMAND] otherwise. The first line of a topic
    names its command. *)
Theorem help_topic_iff_command st c rest part :
  ascii_text part ->
  Py.split (Py.strip rest) = [part] ->
  (Py.upper part ∈ command_names ->
   exists body,
     handle_help st c rest
       = (st, c, help_response (("TOPIC: " +:+ Py.upper part) :: body))) /\
  (Py.upper part ∉ command_names ->
   handle_help st c rest = (st, c, ln "ERR UNKNOWN_COMMAND")).
Proof.
  intros _ Hs. unfold handle_help.
  destruct (Py.strip rest) as [|a arg] eqn:Hr; [done|]. rewrite Hs.
  split.
  - unfold command_names. rewrite !elem_of_cons, elem_of_nil.
    intros [->|[->|[->|[->|[->|[->|[->|[->|[]]]]]]]]]; simpl;
      eexists; reflexivity.
  - intros Hnot.
    destruct (assoc (Py.upper part) details) as [body|] eqn:Ha; [|done].
    exfalso. apply Hnot. revert Ha. unfold command_names. simpl.
    rewrite !elem_of_cons.
    repeat (case_eqb (Py.upper part); [tauto|]). done.
Qed.

(** Wherever GET answers with an error, DEL with the same payload gives
    the same answer and changes nothing: DEL has the errors of GET, and
    [ERR Not authorized] on top. *)
Theorem del_has_the_errors_of_get st c rest :
  Py.startswith "ERR" (handle_get st c rest).2 = true ->
  handle_del st c rest = handle_get st c rest.
Proof.
  unfold handle_get, handle_del, require_auth.
  destruct (authenticated c); [|done].
  destruct (Py.split rest) as [|part [|]]; [done| |done].
  destruct (Py.int part) as [i|]; [|done].
  destruct (posts st !! i) as [P|]; [|done].
  intros Hs. by lazy in Hs.
Qed.

(** Every answer ends with a line feed. *)
Theorem response_ends_with_newline ts st c line :
  line <> "" ->
  exists body, (process_line ts st c line).1.2 = Some (body +:+ Py.NL).
Proof.
  intros Hne. rewrite process_line_dispatch by done.
  generalize (Py.upper (Py.split1 Py.SP line).1) as cmd.
  generalize (default "" (Py.split1 Py.SP line).2) as rest.
  intros rest cmd. unfold dispatch. simpl.
  repeat (case_eqb cmd; [simpl|]); [..|by eexists].
  all: unfold handle_help, handle_login, handle_post, handle_list,
      handle_get, handle_del, handle_whoami, handle_quit, require_auth,
      help_response, ln;
    repeat case_match; simplify_eq/=;
    rewrite <- ?str_app_assoc; by eexists.
Qed.

End Dispatcher.

(** ** The reactor *)

Section ReactorFacts.
Context `{PasswordHasher}.
Implicit Types (st : Store) (c client : ClientState) (env : Env).
Implicit Types (ts line rest tok cmd raw tail : string).

Local Arguments process_line : simpl never.

Lemma app_ne_nil (s t : string) : t <> "" -> s +:+ t <> "".
Proof. destruct s; [done|]. by rewrite str_app_cons. Qed.

Lemma ln_ne_nil (s : string) : ln s <> "".
Proof. by apply app_ne_nil. Qed.

(** Every handler answers with a text that is not empty. *)
Lemma dispatch_response ts cmd st c rest :
  exists r, (dispatch ts cmd st c rest).1.2 = Some r /\ r <> "".
Proof.
  unfold dispatch. simpl.
  repeat (case_eqb cmd; [simpl|]); [..|by eexists; split; [|apply ln_ne_nil]].
  all: unfold handle_help, handle_login, handle_post, handle_list,
      handle_get, handle_del, handle_whoami, handle_quit, require_auth;
    repeat case_match; simplify_eq/=;
    (eexists; split; [done|]);
    first [apply ln_ne_nil | by apply app_ne_nil | done].
Qed.

(** No handler touches the buffer of the session. *)
Lemma process_line_buffer ts st c line :
  buffer (process_line ts st c line).1.1.2 = buffer c.
Proof.
  destruct (decide (line = "")) as [->|Hne]; [done|].
  rewrite process_line_dispatch by done.
  set (cmd := Py.upper _). set (rest := default "" _).
  destruct (decide (cmd = "LOGIN")) as [->|Hl].
  - unfold dispatch. simpl.
    pose proof (handle_login_effect st c rest) as He.
    destruct (handle_login st c rest) as [[st' c'] resp].
    by destruct He as [_ [->|(? & ? & ? & _ & _ & _ & _ & ->)]].
  - by rewrite dispatch_session.
Qed.

(** *** Line extraction *)

Lemma split1_lf_tail (b raw : string) (t : option string) :
  Py.split1 Py.LF b = (raw, t) -> Py.contains Py.LF b = true ->
  exists tail, t = Some tail /\ b = raw +:+ Py.NL +:+ tail /\
               (String.length tail < String.length b)%nat.
Proof.
  intros Hs Hc. destruct (split1_spec _ _ _ _ Hs) as (_ & Hc' & Hb).
  rewrite Hc in Hc'. symmetry in Hc'. apply bool_decide_eq_true in Hc'.
  destruct Hc' as [tail ->]. exists tail. split; [done|].
  split; [done|]. rewrite Hb, str_length_app. simpl. lia.
Qed.

(** The loop does not depend on its fuel once there is as much of it
    as the buffer is long. *)
Lemma drain_fuel f1 f2 env k fd st c :
  (String.length (buffer c) <= f1)%nat ->
  (String.length (buffer c) <= f2)%nat ->
  drain f1 env k fd st c = drain f2 env k fd st c.
Proof.
  revert f2 k st c. induction f1 as [|f1 IH]; intros f2 k st c H1 H2.
  - destruct (buffer c) eqn:Hb; [|simpl in H1; lia].
    destruct f2; simpl; [done|]. by rewrite Hb.
  - destruct f2 as [|f2].
    { destruct (buffer c) eqn:Hb; [|simpl in H2; lia].
      simpl. by rewrite Hb. }
    simpl. destruct (Py.contains Py.LF (buffer c)) eqn:Hc; [|done]. simpl.
    destruct (Py.split1 Py.LF (buffer c)) as [raw t] eqn:Hs.
    destruct (split1_lf_tail _ _ _ Hs Hc) as (tail & -> & _ & Hlen).
    simpl.
    destruct (Py.rstrip_char Py.CR raw) as [|a l] eqn:Hr.
    { apply IH; simpl; lia. }
    pose proof (process_line_buffer (clock env k) st
                  (set_buffer c tail) (String a l)) as Hbuf.
    destruct (process_line (clock env k) st (set_buffer c tail)
                (String a l)) as [[[st2 c2] resp] cl].
    simpl in Hbuf.
    rewrite (IH f2 (S k) st2 c2) by (rewrite Hbuf; lia). done.
Qed.

(** C8. While the buffer holds no line feed nothing is extracted.
    Otherwise the buffer is [raw], free of line feeds, then the line
    feed, then [tail]; the line is [raw] without the carriage returns at
    its end, and nothing else is removed (spaces at either end and
    inside stay); [tail] is the pending buffer. An empty line is
    skipped: the loop goes on as on [tail] alone, with no call of the
    dispatcher and nothing sent. A line that is not empty goes to
    [process_line] as it is, and its answer is sent before the loop
    goes on with [tail]. *)
Theorem line_extraction fuel env k fd st c :
  (String.length (buffer c) <= fuel)%nat ->
  (Py.contains Py.LF (buffer c) = false ->
   drain fuel env k fd st c = (st, Some c, [])) /\
  (forall raw tail,
     Py.contains Py.LF raw = false ->
     buffer c = raw +:+ Py.NL +:+ tail ->
     let line := Py.rstrip_char Py.CR raw in
     (exists n, raw = line +:+ repeat_char Py.CR n) /\
     ends_with Py.CR line = false /\
     (line = "" ->
      drain fuel env k fd st c
      = drain (String.length tail) env (S k) fd st (set_buffer c tail)) /\
     (line <> "" ->
      exists st2 c2 r close,
        process_line (clock env k) st (set_buffer c tail) line
          = (st2, c2, Some r, close) /\
        buffer c2 = tail /\
        drain fuel env k fd st c
        = if send_fails env k || close
          then (st2, None, [SendAll fd r; SockClose fd])
          else let '(st3, oc, acts) :=
                 drain (String.length tail) env (S k) fd st2 c2 in
               (st3, oc, SendAll fd r :: acts))).
Proof.
  intros Hfuel. split.
  - intros Hc. destruct fuel; simpl; [done|]. by rewrite Hc.
  - intros raw tail Hraw Hb line.
    destruct (rstrip_char_spec Py.CR raw) as (n & Hn & He).
    split; [by exists n|]. split; [done|].
    assert (Hlen : (String.length tail < String.length (buffer c))%nat).
    { rewrite Hb, !str_length_app. simpl. lia. }
    destruct fuel as [|fuel]; [lia|]. simpl.
    assert (Hc : Py.contains Py.LF (buffer c) = true).
    { rewrite Hb, !contains_app. simpl. by rewrite orb_true_r. }
    rewrite Hc. simpl.
    assert (Hs : Py.split1 Py.LF (buffer c) = (raw, Some tail)).
    { rewrite Hb. by apply split1_app. }
    rewrite Hs. simpl. fold line. split.
    + intros ->. apply drain_fuel; simpl; lia.
    + intros Hne. destruct line as [|a l] eqn:Hl; [done|].
      pose proof (process_line_buffer (clock env k) st
                    (set_buffer c tail) (String a l)) as Hbuf.
      pose proof (process_line_dispatch (clock env k) st
                    (set_buffer c tail) (String a l) Hne) as Hd.
      destruct (dispatch_response (clock env k)
                  (Py.upper (Py.split1 Py.SP (String a l)).1) st
                  (set_buffer c tail)
                  (default "" (Py.split1 Py.SP (String a l)).2))
        as (r & Hr & Hrne).
      rewrite <- Hd in Hr.
      destruct (process_line (clock env k) st (set_buffer c tail)
                  (String a l)) as [[[st2 c2] resp] cl].
      simpl in Hbuf, Hr. subst resp.
      exists st2, c2, r, cl. split; [done|]. split; [done|].
      destruct r as [|b r]; [done|].
      destruct (send_fails env k); simpl; [done|].
      destruct cl; simpl; [done|].
      rewrite (drain_fuel fuel (String.length tail)) by (rewrite ?Hbuf; lia).
      done.
Qed.

(** *** The cap on the buffer *)

(** C6. When the received text brings the buffer of a connection above
    [MAX_BUFFER_BYTES], the reactor sends the one line
    [ERR Line too long] (whether or not the send goes through), closes
    that connection, and does nothing else: no line is extracted or
    dispatched, the posts, the credential store and the id counter are
    as before, and so is the session of every other connection. *)
Theorem buffer_cap env fd srv client data text :
  clients srv !! fd = Some client ->
  recv env = RecvData data -> data <> "" ->
  Utf8.decode data = Some text ->
  (MAX_BUFFER_BYTES < String.length (buffer client +:+ text))%nat ->
  let '(srv', acts) := handle_client_socket env fd srv in
  acts = [SendAll fd (ln "ERR Line too long"); SockClose fd] /\
  store srv' = store srv /\
  clients srv' !! fd = None /\
  (forall fd', fd' <> fd -> clients srv' !! fd' = clients srv !! fd').
Proof.
  intros Hc Hr Hne Hd Hlen. unfold handle_client_socket.
  rewrite Hc, Hr. destruct data as [|a d]; [done|]. rewrite Hd.
  simpl buffer. apply Nat.ltb_lt in Hlen. rewrite Hlen. simpl.
  split_and!; [done|done|apply lookup_delete_eq|].
  intros fd' Hfd. by apply lookup_delete_ne.
Qed.

(** *** The id counter along a run *)

Lemma post_ack_is_ack (i : Z) : is_post_ack (post_ack i) = true.
Proof. reflexivity. Qed.

Lemma post_acks_app (a b : list action) :
  post_acks (a ++ b) = post_acks a ++ post_acks b.
Proof. apply omap_app. Qed.

Lemma acks_from_0 (m : nat) : acks_from m 0 = [].
Proof. reflexivity. Qed.

Lemma acks_from_S (m n : nat) :
  acks_from m (S n) = post_ack (Z.of_nat (S m)) :: acks_from (S m) n.
Proof. reflexivity. Qed.

(** One line keeps the invariant, and tells by its answer whether the
    number of posts went up. *)
Lemma process_line_counter ts st c line m :
  counter_inv m st ->
  let '(st', _, resp, _) := process_line ts st c line in
  (counter_inv m st' /\ forall r, resp = Some r -> is_post_ack r = false)
  \/ (counter_inv (S m) st' /\ resp = Some (post_ack (Z.of_nat (S m)))).
Proof.
  intros [Hn Hk].
  pose proof (process_line_post_effect ts st c line) as He.
  destruct (process_line ts st c line) as [[[st' c'] resp] cl].
  destruct He as [(Hn' & Hk' & Hr)|(rest & -> & Hn' & Hp)].
  - left. split; [|done]. split; [congruence|].
    intros k [p Hs]. apply Hk. exists p. by apply Hk'.
  - right. rewrite Hn in *. split.
    + split; [lia|]. intros k. rewrite Hp, lookup_insert_is_Some.
      intros [<-|[_ Hs]]; [lia|]. apply Hk in Hs. lia.
    + do 2 f_equal. lia.
Qed.

Lemma drain_counter fuel env k fd st c m :
  counter_inv m st ->
  let '(st', _, acts) := drain fuel env k fd st c in
  exists n, post_acks acts = acks_from m n /\ counter_inv (m + n) st'.
Proof.
  revert k st c m. induction fuel as [|fuel IH]; intros k st c m Hinv.
  { simpl. exists O. by rewrite Nat.add_0_r. }
  simpl. destruct (Py.contains Py.LF (buffer c)); simpl;
    [|exists O; by rewrite Nat.add_0_r].
  destruct (Py.split1 Py.LF (buffer c)) as [raw t].
  destruct (Py.rstrip_char Py.CR raw) as [|a l]; [by apply IH|].
  pose proof (process_line_counter (clock env k) st
                (set_buffer c (default "" t)) (String a l) m Hinv) as He.
  destruct (process_line (clock env k) st (set_buffer c (default "" t))
              (String a l)) as [[[st2 c2] resp] cl].
  set (sent := match resp with
               | Some (String _ _ as r) => [SendAll fd r]
               | _ => []
               end).
  (* the acknowledgements in [sent], and the invariant after the line *)
  assert (Hs : exists j, post_acks sent = acks_from m j /\
                         counter_inv (m + j) st2 /\ (j <= 1)%nat).
  { destruct He as [[Hinv2 Hr]|[Hinv2 ->]].
    - exists O. rewrite Nat.add_0_r. split; [|split; [done|lia]].
      subst sent. destruct resp as [[|b r]|]; try done.
      simpl. by rewrite (Hr _ eq_refl).
    - exists 1%nat. rewrite Nat.add_1_r. split; [|by split; [|lia]].
      done. }
  destruct Hs as (j & Hj & Hinv2 & _).
  assert (Hstop : exists n, post_acks (sent ++ [SockClose fd])
                            = acks_from m n /\ counter_inv (m + n) st2).
  { exists j. rewrite post_acks_app. simpl. by rewrite app_nil_r. }
  destruct (match sent with [] => false | _ => send_fails env k end);
    [done|].
  destruct cl; [done|].
  specialize (IH (S k) st2 c2 (m + j)%nat Hinv2).
  destruct (drain fuel env (S k) fd st2 c2) as [[st3 oc] acts].
  destruct IH as (n & Hn & Hinv3).
  exists (j + n)%nat. rewrite post_acks_app, Hj, Hn, Nat.add_assoc.
  split; [|done]. unfold acks_from. by rewrite seq_app, fmap_app.
Qed.

Lemma handle_client_socket_counter env fd srv m :
  counter_inv m (store srv) ->
  let '(srv', acts) := handle_client_socket env fd srv in
  exists n, post_acks acts = acks_from m n /\
            counter_inv (m + n) (store srv').
Proof.
  intros Hinv. unfold handle_client_socket, close_client.
  assert (Hz : counter_inv (m + 0) (store srv)) by by rewrite Nat.add_0_r.
  destruct (clients srv !! fd) as [client|]; [|by exists O].
  destruct (match recv env with
            | RecvConnectionError => ""
            | RecvData d => d
            end) as [|a d] eqn:Hdata; [by exists O|].
  destruct (Utf8.decode (String a d)) as [text|]; [|by exists O].
  destruct (_ <? _)%nat; [by exists O|].
  pose proof (drain_counter
                (String.length (buffer (set_buffer client
                                          (buffer client +:+ text))))
                env 0 fd (store srv)
                (set_buffer client (buffer client +:+ text)) m Hinv) as Hd.
  destruct (drain _ env 0 fd (store srv) _) as [[st oc] acts].
  done.
Qed.

Lemma run_counter evs srv m :
  counter_inv m (store srv) ->
  let '(srv', acts) := run srv evs in
  exists n, post_acks acts = acks_from m n /\
            counter_inv (m + n) (store srv').
Proof.
  revert srv m. induction evs as [|ev evs IH]; intros srv m Hinv.
  { simpl. exists O. by rewrite Nat.add_0_r. }
  simpl.
  assert (Hstep : let '(srv1, a1) := step srv ev in
            exists j, post_acks a1 = acks_from m j /\
                      counter_inv (m + j) (store srv1)).
  { destruct ev as [fd a|fd env]; simpl.
    - exists O. by rewrite Nat.add_0_r.
    - by apply handle_client_socket_counter. }
  destruct (step srv ev) as [srv1 a1].
  destruct Hstep as (j & Hj & Hinv1).
  specialize (IH srv1 (m + j)%nat Hinv1).
  destruct (run srv1 evs) as [srv2 a2].
  destruct IH as (n & Hn & Hinv2).
  exists (j + n)%nat. rewrite post_acks_app, Hj, Hn, Nat.add_assoc.
  split; [|done]. unfold acks_from. by rewrite seq_app, fmap_app.
Qed.

(** C4. The counter starts at 1. Along every run of the reactor, from
    the start, the posts acknowledged are numbered 1, 2, 3, ... in the
    order of their creation, whatever else the connections sent in
    between (POSTs that failed, deletions, anything); the counter ends
    one above the number of posts created: nothing else moved it, and
    no id was given twice. The ids still in the store are among those
    given. *)
Theorem post_ids_consecutive (evs : list event) :
  next_post_id initial_store = 1 /\
  let '(srv, acts) := run initial_server evs in
  exists n : nat,
    post_acks acts = (fun i => post_ack (Z.of_nat i)) <$> seq 1 n /\
    next_post_id (store srv) = 1 + Z.of_nat n /\
    forall k, is_Some (posts (store srv) !! k) -> 1 <= k <= Z.of_nat n.
Proof.
  split; [done|].
  assert (Hinit : counter_inv 0 (store initial_server)).
  { split; [done|]. intros k [p Hp]. revert Hp.
    change (posts (store initial_server)) with (∅ : gmap Z Post).
    by rewrite lookup_empty. }
  pose proof (run_counter evs initial_server 0 Hinit) as Hr.
  destruct (run initial_server evs) as [srv acts].
  destruct Hr as (n & Hn & Hc & Hk). by exists n.
Qed.

(** *** What the reactor keeps true of the store *)

Lemma split_go_nonspace (cur s tok : string) :
  str_all nonspace cur = true -> tok ∈ Py.split_go cur s ->
  str_all nonspace tok = true.
Proof.
  revert cur. induction s as [|a s IH]; intros cur Hcur; simpl.
  - destruct cur; [by intros ?%elem_of_nil|].
    by intros ->%list_elem_of_singleton.
  - destruct (Py.isspace a) eqn:Ha.
    + destruct cur; [by apply IH|].
      intros [->|Hin]%elem_of_cons; [done|]. by apply (IH "").
    + apply IH. rewrite str_all_app, Hcur. simpl.
      unfold nonspace. by rewrite Ha.
Qed.

(** The words of [split()] hold no line feed. *)
Lemma split_no_lf (s tok : string) : tok ∈ Py.split s -> no_lf tok.
Proof.
  intros Hin. apply (str_all_contains nonspace); [reflexivity|].
  by apply (split_go_nonspace "" s).
Qed.

Lemma split1_no_lf (sep : ascii) (s h : string) (t : option string) :
  Py.split1 sep s = (h, t) -> no_lf s -> no_lf (default "" t).
Proof.
  intros Hs Hn. destruct (split1_spec _ _ _ _ Hs) as (_ & _ & ->).
  destruct t as [r|]; [|done]. simpl.
  apply no_lf_app in Hn as [_ Hr]. unfold no_lf in *. simpl in Hr.
  by apply orb_false_iff in Hr as [_ ?].
Qed.

Lemma process_line_ok ts st c line :
  store_ok st -> session_ok c -> no_lf ts -> no_lf line ->
  store_ok (process_line ts st c line).1.1.1 /\
  session_ok (process_line ts st c line).1.1.2.
Proof.
  intros Hst Hc Hts Hline.
  destruct (decide (line = "")) as [->|Hne]; [done|].
  rewrite process_line_dispatch by done.
  destruct (Py.split1 Py.SP line) as [tok t] eqn:Hs. simpl.
  pose proof (split1_no_lf _ _ _ _ Hs Hline) as Hrest.
  set (cmd := Py.upper tok). set (rest := default "" t) in *.
  split.
  - pose proof (dispatch_post_effect ts cmd st c rest) as He.
    destruct (dispatch ts cmd st c rest) as [[[st' c'] resp] cl]. simpl.
    destruct He as [(_ & Hk & _)|(_ & _ & _ & Hp)].
    + intros k p Hkp. by apply Hst, Hk.
    + intros k p. rewrite Hp, lookup_insert_Some.
      intros [[<- <-]|[_ Hkp]]; [done|by apply Hst].
  - destruct (decide (cmd = "LOGIN")) as [->|Hl];
      [|by rewrite dispatch_session].
    unfold dispatch. simpl.
    pose proof (handle_login_effect st c rest) as He.
    destruct (handle_login st c rest) as [[st' c'] resp]. simpl.
    destruct He as [_ [->|(name & pw & record & _ & Hsp & _ & _ & ->)]];
      [done|].
    unfold session_ok. simpl. apply (split_no_lf rest).
    rewrite Hsp. by left.
Qed.

Lemma drain_ok fuel env k fd st c :
  env_ok env -> store_ok st -> session_ok c ->
  let '(st', oc, _) := drain fuel env k fd st c in
  store_ok st' /\ forall c', oc = Some c' -> session_ok c'.
Proof.
  intros Henv. revert k st c.
  induction fuel as [|fuel IH]; intros k st c Hst Hc; simpl.
  { split; [done|]. by intros ? [= <-]. }
  destruct (Py.contains Py.LF (buffer c)) eqn:Hlf; simpl;
    [|split; [done|]; by intros ? [= <-]].
  destruct (Py.split1 Py.LF (buffer c)) as [raw t] eqn:Hs.
  assert (Hraw : no_lf raw) by (by destruct (split1_spec _ _ _ _ Hs)).
  destruct (rstrip_char_spec Py.CR raw) as (n & Hn & _).
  destruct (Py.rstrip_char Py.CR raw) as [|a l] eqn:Hr; [by apply IH|].
  assert (Hline : no_lf (String a l)).
  { rewrite Hn in Hraw. by apply no_lf_app in Hraw as [? _]. }
  pose proof (process_line_ok (clock env k) st
                (set_buffer c (default "" t)) (String a l)
                Hst Hc (Henv k) Hline) as [Hst2 Hc2].
  destruct (process_line (clock env k) st (set_buffer c (default "" t))
              (String a l)) as [[[st2 c2] resp] cl]. simpl in Hst2, Hc2.
  destruct (match _ with [] => false | _ => send_fails env k end);
    [by split|].
  destruct cl; [by split|].
  specialize (IH (S k) st2 c2 Hst2 Hc2).
  by destruct (drain fuel env (S k) fd st2 c2) as [[st3 oc] acts].
Qed.

Lemma handle_client_socket_ok env fd srv :
  env_ok env -> server_ok srv ->
  server_ok (handle_client_socket env fd srv).1.
Proof.
  intros Henv [Hst Hcl]. unfold handle_client_socket, close_client.
  assert (Hdel : server_ok {| clients := delete fd (clients srv);
                              store := store srv |}).
  { split; [done|]. intros fd' c'. simpl. rewrite lookup_delete_Some.
    intros [_ ?]. by eapply Hcl. }
  destruct (clients srv !! fd) as [client|] eqn:Hfd; [|by split].
  destruct (match recv env with
            | RecvConnectionError => ""
            | RecvData d => d
            end) as [|a d]; [done|].
  destruct (Utf8.decode (String a d)) as [text|]; [|done].
  destruct (_ <? _)%nat; [done|].
  pose proof (drain_ok
                (String.length (buffer (set_buffer client
                                          (buffer client +:+ text))))
                env 0 fd (store srv)
                (set_buffer client (buffer client +:+ text))
                Henv Hst (Hcl _ _ Hfd)) as Hd.
  destruct (drain _ env 0 fd (store srv) _) as [[st oc] acts].
  destruct Hd as [Hst' Hoc]. split; [done|]. simpl.
  intros fd' c'. destruct oc as [c2|].
  - rewrite lookup_insert_Some. intros [[_ <-]|[_ ?]]; [by apply Hoc|].
    by eapply Hcl.
  - rewrite lookup_delete_Some. intros [_ ?]. by eapply Hcl.
Qed.

(** Every store the reactor reaches can go on lines. *)
Lemma run_ok (evs : list event) (srv : Server) :
  Forall event_ok evs -> server_ok srv -> server_ok (run srv evs).1.
Proof.
  intros Hevs. revert srv.
  induction Hevs as [|ev evs Hev _ IH]; intros srv Hsrv; [done|]. simpl.
  assert (Hstep : server_ok (step srv ev).1).
  { destruct ev as [fd a|fd env]; simpl.
    - destruct Hsrv as [Hst Hcl]. split; [done|]. simpl.
      intros fd' c'. rewrite lookup_insert_Some.
      intros [[_ <-]|[_ ?]]; [done|by eapply Hcl].
    - by apply handle_client_socket_ok. }
  destruct (step srv ev) as [srv1 a1]. specialize (IH srv1 Hstep).
  by destruct (run srv1 evs) as [srv2 a2].
Qed.

Lemma reachable_store_ok (evs : list event) :
  Forall event_ok evs -> store_ok (store (run initial_server evs).1).
Proof.
  intros Hevs. apply (run_ok evs initial_server Hevs).
  split.
  - intros k p Hkp.
    change (posts (store initial_server)) with (∅ : gmap Z Post) in Hkp.
    by apply lookup_empty_Some in Hkp.
  - intros fd c Hc.
    change (clients initial_server) with (∅ : gmap nat ClientState) in Hc.
    by apply lookup_empty_Some in Hc.
Qed.

(** *** More on the reactor *)

(** A socket the reactor has no session for is closed and nothing else
    happens; a read that fails, that returns nothing, or that returns
    bytes that are not UTF-8 on their own (a character cut in two by the
    read, say) closes the connection without a word: nothing is sent,
    what was buffered is dropped, the stores and the other connections
    stay as they were. *)
Theorem silent_close env fd srv :
  (clients srv !! fd = None ->
   handle_client_socket env fd srv = (srv, [SockClose fd])) /\
  (is_Some (clients srv !! fd) ->
   recv env = RecvConnectionError \/ recv env = RecvData "" \/
   (exists data, recv env = RecvData data /\ Utf8.decode data = None) ->
   handle_client_socket env fd srv
   = ({| clients := delete fd (clients srv); store := store srv |},
      [SockClose fd])).
Proof.
  unfold handle_client_socket, close_client. split.
  - by intros ->.
  - intros [client ->] [->|[->|(data & -> & Hd)]]; [done|done|].
    rewrite Hd. by destruct data.
Qed.

(** Whatever a connection receives, the sessions of the other
    connections are not touched. *)
Theorem other_connections_untouched env fd srv fd' :
  fd' <> fd ->
  clients (handle_client_socket env fd srv).1 !! fd' = clients srv !! fd'.
Proof.
  intros Hne. unfold handle_client_socket, close_client.
  destruct (clients srv !! fd) as [client|]; [|done].
  destruct (match recv env with
            | RecvConnectionError => ""
            | RecvData d => d
            end) as [|a d]; [by apply lookup_delete_ne|].
  destruct (Utf8.decode (String a d)) as [text|];
    [|by apply lookup_delete_ne].
  destruct (_ <? _)%nat; [by apply lookup_delete_ne|].
  destruct (drain _ env 0 fd (store srv) _) as [[st oc] acts]. simpl.
  destruct oc; [by apply lookup_insert_ne|by apply lookup_delete_ne].
Qed.

Lemma drain_line fuel env k fd st c raw tail :
  buffer c = raw +:+ Py.NL +:+ tail -> no_lf raw ->
  Py.rstrip_char Py.CR raw <> "" ->
  exists st2 c2 r close,
    process_line (clock env k) st (set_buffer c tail)
                 (Py.rstrip_char Py.CR raw) = (st2, c2, Some r, close) /\
    drain (S fuel) env k fd st c
    = if send_fails env k || close
      then (st2, None, [SendAll fd r; SockClose fd])
      else let '(st3, oc, acts) := drain fuel env (S k) fd st2 c2 in
           (st3, oc, SendAll fd r :: acts).
Proof.
  intros Hb Hraw Hne. simpl.
  assert (Hs : Py.split1 Py.LF (buffer c) = (raw, Some tail)).
  { rewrite Hb. by apply split1_app. }
  assert (Hc : Py.contains Py.LF (buffer c) = true).
  { rewrite Hb, !contains_app. simpl. by rewrite orb_true_r. }
  rewrite Hc, Hs. simpl.
  destruct (Py.rstrip_char Py.CR raw) as [|a l]; [done|].
  pose proof (process_line_dispatch (clock env k) st (set_buffer c tail)
                (String a l) Hne) as Hd.
  destruct (dispatch_response (clock env k)
              (Py.upper (Py.split1 Py.SP (String a l)).1) st
              (set_buffer c tail)
              (default "" (Py.split1 Py.SP (String a l)).2))
    as (r & Hr & Hrne).
  rewrite <- Hd in Hr.
  destruct (process_line (clock env k) st (set_buffer c tail) (String a l))
    as [[[st2 c2] resp] cl].
  simpl in Hr. subst resp. exists st2, c2, r, cl. split; [done|].
  destruct r; [done|]. destruct (send_fails env k); [done|].
  destruct cl; [done|]. simpl.
  by destruct (drain fuel env (S k) fd st2 c2) as [[st3 oc] acts].
Qed.

(** After a QUIT line, with or without arguments and in any case of the
    letters, the connection is closed at once: what follows it in the
    buffer is never looked at, and nothing changes in the stores. *)
Theorem quit_drops_the_rest fuel env k fd st c raw tail :
  buffer c = raw +:+ Py.NL +:+ tail -> no_lf raw ->
  Py.upper (Py.split1 Py.SP (Py.rstrip_char Py.CR raw)).1 = "QUIT" ->
  exists r,
    (r = ln "OK Bye" \/ r = ln "ERR BAD_SYNTAX") /\
    drain (S fuel) env k fd st c
    = (st, None, [SendAll fd r; SockClose fd]).
Proof.
  intros Hb Hraw Hq.
  assert (Hne : Py.rstrip_char Py.CR raw <> "").
  { intros He. by rewrite He in Hq. }
  destruct (drain_line fuel env k fd st c raw tail Hb Hraw Hne)
    as (st2 & c2 & r & cl & Hp & ->).
  rewrite process_line_dispatch in Hp by done. rewrite Hq in Hp.
  unfold dispatch in Hp. simpl in Hp. unfold handle_quit in Hp.
  exists r.
  destruct (Py.strip (default "" (Py.split1 Py.SP
                                    (Py.rstrip_char Py.CR raw)).2));
    simplify_eq; rewrite orb_true_r; auto.
Qed.

(** When the answer to a line cannot be sent, the connection is closed
    and the rest of the buffer is dropped, but what the line did to the
    stores stays: a POST is filed even if its acknowledgement was lost. *)
Theorem failed_send_keeps_the_effect fuel env k fd st c raw tail :
  buffer c = raw +:+ Py.NL +:+ tail -> no_lf raw ->
  Py.rstrip_char Py.CR raw <> "" ->
  send_fails env k = true ->
  exists st2 c2 r close,
    process_line (clock env k) st (set_buffer c tail)
                 (Py.rstrip_char Py.CR raw) = (st2, c2, Some r, close) /\
    drain (S fuel) env k fd st c
    = (st2, None, [SendAll fd r; SockClose fd]).
Proof.
  intros Hb Hraw Hne Hfail.
  destruct (drain_line fuel env k fd st c raw tail Hb Hraw Hne)
    as (st2 & c2 & r & cl & Hp & ->).
  exists st2, c2, r, cl. by rewrite Hfail.
Qed.

(** The loop looks at the clock and at the fate of its sends, not at what
    was received. *)
Lemma drain_env_ext fuel env1 env2 k fd st c :
  (forall j, send_fails env1 j = send_fails env2 j) ->
  (forall j, clock env1 j = clock env2 j) ->
  drain fuel env1 k fd st c = drain fuel env2 k fd st c.
Proof.
  intros Hsf Hck. revert k st c.
  induction fuel as [|fuel IH]; intros k st c; [done|]. simpl.
  destruct (Py.contains Py.LF (buffer c)); [|done]. simpl.
  destruct (Py.split1 Py.LF (buffer c)) as [raw t].
  destruct (Py.rstrip_char Py.CR raw) as [|x l]; [by apply IH|].
  rewrite Hck, Hsf.
  destruct (process_line _ _ _ _) as [[[st2 c2] resp] cl].
  by rewrite IH.
Qed.

(** A line that arrives in two reads is handled as if it had come in
    one: when the first chunk holds no line feed, the first read sends
    nothing and changes only the buffer, and the two reads together
    leave the server where the single read of both chunks leaves it,
    with the same output. The same holds when the whole goes over the
    cap. *)
Theorem fragments_reassemble envA envB fd srv client a b :
  clients srv !! fd = Some client ->
  no_lf (buffer client) ->
  recv envA = RecvData a -> recv envB = RecvData b ->
  a <> "" -> b <> "" -> no_lf a ->
  Utf8.valid a = true -> Utf8.valid b = true ->
  (String.length (buffer client +:+ a) <= MAX_BUFFER_BYTES)%nat ->
  (handle_client_socket envA fd srv).2 = [] /\
  store (handle_client_socket envA fd srv).1 = store srv /\
  handle_client_socket envB fd (handle_client_socket envA fd srv).1
  = handle_client_socket
      {| recv := RecvData (a +:+ b); send_fails := send_fails envB;
         clock := clock envB |} fd srv.
Proof.
  intros Hfd Hbuf Ha Hb Hane Hbne Hnl Hva Hvb Hcap.
  assert (HA : handle_client_socket envA fd srv
               = ({| clients := <[fd := set_buffer client
                                          (buffer client +:+ a)]>
                                  (clients srv);
                     store := store srv |}, [])).
  { unfold handle_client_socket. rewrite Hfd, Ha.
    destruct a as [|a0 a']; [done|].
    unfold Utf8.decode. rewrite Hva.
    apply Nat.ltb_ge in Hcap. cbn [buffer set_buffer]. rewrite Hcap.
    assert (Hno : Py.contains Py.LF (buffer client +:+ String a0 a') = false).
    { by apply no_lf_app. }
    destruct (String.length (buffer client +:+ String a0 a')); simpl;
      [done|]. by rewrite Hno. }
  rewrite HA. split; [done|]. split; [done|]. cbn [fst snd].
  unfold handle_client_socket. cbn [clients store recv].
  rewrite lookup_insert_eq, Hfd, Hb.
  assert (Hab : a +:+ b <> "") by (by destruct a).
  destruct b as [|b0 b']; [done|].
  destruct (a +:+ String b0 b') as [|x y] eqn:Hxy; [done|]. rewrite <- Hxy.
  unfold Utf8.decode. rewrite Hvb, (valid_app_2 a (String b0 b')) by done.
  cbn [buffer set_buffer]. rewrite str_app_assoc.
  destruct (_ <? _)%nat.
  - unfold close_client. cbn [clients store].
    by rewrite delete_insert_eq.
  - set (c1 := set_buffer (set_buffer client (buffer client +:+ a))
                 (buffer client +:+ a +:+ String b0 b')).
    change (set_buffer client (buffer client +:+ a +:+ String b0 b'))
      with c1.
    cbn [buffer set_buffer].
    rewrite (drain_env_ext _
               {| recv := RecvData (a +:+ String b0 b');
                  send_fails := send_fails envB; clock := clock envB |}
               envB) by done.
    destruct (drain _ envB 0 fd (store srv) c1) as [[st oc] acts].
    destruct oc; by rewrite ?insert_insert_eq, ?delete_insert_eq.
Qed.

(** *** What every run keeps true *)

Lemma process_line_sock ts st c line :
  sock (process_line ts st c line).1.1.2 = sock c.
Proof.
  destruct (decide (line = "")) as [->|Hne]; [done|].
  rewrite process_line_dispatch by done.
  set (cmd := Py.upper _). set (rest := default "" _).
  destruct (decide (cmd = "LOGIN")) as [->|Hl].
  - unfold dispatch. simpl.
    pose proof (handle_login_effect st c rest) as He.
    destruct (handle_login st c rest) as [[st' c'] resp].
    by destruct He as [_ [->|(? & ? & ? & _ & _ & _ & _ & ->)]].
  - by rewrite dispatch_session.
Qed.

Lemma process_line_users ts st c line :
  USERS (process_line ts st c line).1.1.1 = USERS st.
Proof.
  destruct (decide (line = "")) as [->|Hne]; [done|].
  rewrite process_line_dispatch by done. apply dispatch_users.
Qed.

Lemma auth_inv_users st st' c :
  USERS st' = USERS st -> auth_inv st c -> auth_inv st' c.
Proof. unfold auth_inv. by intros ->. Qed.

Lemma auth_inv_buffer st c b : auth_inv st c -> auth_inv st (set_buffer c b).
Proof. done. Qed.

Lemma process_line_auth ts st c line :
  auth_inv st c ->
  auth_inv (process_line ts st c line).1.1.1 (process_line ts st c line).1.1.2.
Proof.
  intros Hc. apply (auth_inv_users st); [apply process_line_users|].
  destruct (decide (line = "")) as [->|Hne]; [done|].
  rewrite process_line_dispatch by done.
  set (cmd := Py.upper _). set (rest := default "" _).
  destruct (decide (cmd = "LOGIN")) as [->|Hl];
    [|by rewrite dispatch_session].
  unfold dispatch. simpl.
  pose proof (handle_login_effect st c rest) as He.
  destruct (handle_login st c rest) as [[st' c'] resp]. simpl.
  destruct He as [_ [->|(name & pw & record & _ & _ & Hu & _ & ->)]];
    [done|].
  unfold auth_inv. simpl. by exists name, record.
Qed.

(** What a command does to the posts: it adds none, or it is a POST from
    an authenticated session with a message that is not blank. *)
Lemma dispatch_post_created ts cmd st c rest :
  let '(st', _, _, _) := dispatch ts cmd st c rest in
  (next_post_id st' = next_post_id st /\
   forall k p, posts st' !! k = Some p -> posts st !! k = Some p)
  \/
  (authenticated c = true /\ Py.strip rest <> "" /\
   next_post_id st' = next_post_id st + 1 /\
   posts st' = <[next_post_id st :=
                   {| post_id := next_post_id st; author := username c;
                      timestamp := ts; message := rest |}]> (posts st)).
Proof.
  unfold dispatch. simpl.
  repeat (case_eqb cmd; [simpl|]); [..|by left].
  all: unfold handle_help, handle_login, handle_post, handle_list,
      handle_get, handle_del, handle_whoami, handle_quit, require_auth;
    repeat case_match; simplify_eq/=;
    try (by left);
    try (right; split_and!; [done|congruence|done|done]).
  left. split; [done|]. intros k p. rewrite lookup_delete_Some.
  by intros [_ ?].
Qed.

Lemma post_inv_mono st st' k p :
  USERS st' = USERS st -> next_post_id st <= next_post_id st' ->
  post_inv st k p -> post_inv st' k p.
Proof.
  intros Hu Hn (H1 & [H2 H3] & (name & H4 & H5) & H6 & H7).
  unfold post_inv. rewrite Hu.
  split; [done|]. split; [lia|]. split; [by exists name|]. done.
Qed.

Lemma process_line_store_inv ts st c line :
  no_lf line -> auth_inv st c -> store_inv st ->
  store_inv (process_line ts st c line).1.1.1.
Proof.
  intros Hline Hc [Hn Hp].
  destruct (decide (line = "")) as [->|Hne]; [done|].
  pose proof (process_line_users ts st c line) as Hu. revert Hu.
  rewrite process_line_dispatch by done.
  destruct (Py.split1 Py.SP line) as [tok t] eqn:Hs. simpl.
  pose proof (split1_no_lf _ _ _ _ Hs Hline) as Hrest.
  set (cmd := Py.upper tok). set (rest := default "" t) in *.
  pose proof (dispatch_post_created ts cmd st c rest) as He.
  destruct (dispatch ts cmd st c rest) as [[[st' c'] resp] cl]. simpl.
  intros Hu.
  destruct He as [[Hn' Hk]|(Hauth & Hr & Hn' & Hp')].
  - split; [lia|]. intros k p Hkp. apply Hk in Hkp.
    apply (post_inv_mono st); [done|lia|by apply Hp].
  - split; [lia|]. intros k p. rewrite Hp', lookup_insert_Some.
    intros [[<- <-]|[_ Hkp]];
      [|apply (post_inv_mono st); [done|lia|by apply Hp]].
    unfold auth_inv in Hc. rewrite Hauth in Hc.
    destruct Hc as (name & record & Hname & Hrec & _).
    unfold post_inv. simpl. rewrite Hu.
    split; [done|]. split; [lia|]. split; [|done].
    exists name. split; [done|]. by eexists.
Qed.

(** The loop, with fuel enough, stops on a buffer without a line feed
    that is no longer than the one it started with. *)
Lemma drain_buffer fuel env k fd st c :
  (String.length (buffer c) <= fuel)%nat ->
  forall c', (drain fuel env k fd st c).1.2 = Some c' ->
    no_lf (buffer c') /\
    (String.length (buffer c') <= String.length (buffer c))%nat /\
    sock c' = sock c.
Proof.
  revert k st c. induction fuel as [|fuel IH]; intros k st c Hf c'.
  { simpl. intros [= <-]. split; [|done].
    destruct (buffer c); [done|simpl in Hf; lia]. }
  simpl. destruct (Py.contains Py.LF (buffer c)) eqn:Hlf; simpl;
    [|by intros [= <-]].
  destruct (Py.split1 Py.LF (buffer c)) as [raw t] eqn:Hs.
  destruct (split1_lf_tail _ _ _ Hs Hlf) as (tail & -> & _ & Hlen). simpl.
  destruct (Py.rstrip_char Py.CR raw) as [|a l].
  { intros Hd. apply IH in Hd; [|simpl; lia]. simpl in Hd.
    destruct Hd as (? & ? & ?). split_and!; [done|lia|done]. }
  pose proof (process_line_buffer (clock env k) st (set_buffer c tail)
                (String a l)) as Hbuf.
  pose proof (process_line_sock (clock env k) st (set_buffer c tail)
                (String a l)) as Hsock.
  destruct (process_line (clock env k) st (set_buffer c tail) (String a l))
    as [[[st2 c2] resp] cl]. simpl in Hbuf, Hsock.
  destruct (match _ with [] => false | _ => send_fails env k end); [done|].
  destruct cl; [done|].
  assert (Hf2 : (String.length (buffer c2) <= fuel)%nat).
  { rewrite Hbuf. lia. }
  pose proof (IH (S k) st2 c2 Hf2 c') as IH2.
  destruct (drain fuel env (S k) fd st2 c2) as [[st3 oc] acts].
  simpl in IH2 |- *.
  intros Hoc. destruct (IH2 Hoc) as (? & Hle & ?). rewrite Hbuf in Hle.
  split_and!; [done|lia|congruence].
Qed.

Lemma drain_inv fuel env k fd st c :
  USERS st = _hash_seeded_users -> store_inv st -> auth_inv st c ->
  let '(st', oc, _) := drain fuel env k fd st c in
  USERS st' = _hash_seeded_users /\ store_inv st' /\
  forall c', oc = Some c' -> auth_inv st' c'.
Proof.
  revert k st c. induction fuel as [|fuel IH]; intros k st c Hu Hst Hc.
  { simpl. split_and!; try done. by intros ? [= <-]. }
  simpl. destruct (Py.contains Py.LF (buffer c)) eqn:Hlf; simpl;
    [|split_and!; try done; by intros ? [= <-]].
  destruct (Py.split1 Py.LF (buffer c)) as [raw t] eqn:Hs.
  assert (Hraw : no_lf raw) by (by destruct (split1_spec _ _ _ _ Hs)).
  destruct (rstrip_char_spec Py.CR raw) as (n & Hn & _).
  destruct (Py.rstrip_char Py.CR raw) as [|a l] eqn:Hr; [by apply IH|].
  assert (Hline : no_lf (String a l)).
  { rewrite Hn in Hraw. by apply no_lf_app in Hraw as [? _]. }
  pose proof (process_line_store_inv (clock env k) st
                (set_buffer c (default "" t)) (String a l) Hline Hc Hst)
    as Hst2.
  pose proof (process_line_auth (clock env k) st
                (set_buffer c (default "" t)) (String a l) Hc) as Hc2.
  pose proof (process_line_users (clock env k) st
                (set_buffer c (default "" t)) (String a l)) as Hu2.
  destruct (process_line (clock env k) st (set_buffer c (default "" t))
              (String a l)) as [[[st2 c2] resp] cl].
  simpl in Hst2, Hc2, Hu2. rewrite Hu in Hu2.
  destruct (match _ with [] => false | _ => send_fails env k end);
    [by split_and!|].
  destruct cl; [by split_and!|].
  specialize (IH (S k) st2 c2 Hu2 Hst2 Hc2).
  by destruct (drain fuel env (S k) fd st2 c2) as [[st3 oc] acts].
Qed.

Lemma session_inv_store st st' fd c :
  USERS st' = USERS st -> session_inv st fd c -> session_inv st' fd c.
Proof.
  intros Hu (? & ? & ? & ?). split_and!; try done.
  by apply (auth_inv_users st).
Qed.

Lemma handle_client_socket_inv env fd srv :
  server_inv srv -> server_inv (handle_client_socket env fd srv).1.
Proof.
  intros (Hu & Hst & Hcl). unfold handle_client_socket, close_client.
  assert (Hdel : server_inv {| clients := delete fd (clients srv);
                               store := store srv |}).
  { split_and!; try done. intros fd' c'. simpl. rewrite lookup_delete_Some.
    intros [_ ?]. by eapply Hcl. }
  destruct (clients srv !! fd) as [client|] eqn:Hfd; [|by split_and!].
  destruct (match recv env with
            | RecvConnectionError => ""
            | RecvData d => d
            end) as [|a d]; [done|].
  destruct (Utf8.decode (String a d)) as [text|]; [|done].
  destruct (_ <? _)%nat eqn:Hcap; [done|].
  apply Nat.ltb_ge in Hcap.
  destruct (Hcl _ _ Hfd) as (Hsock & _ & _ & Hauth).
  set (c1 := set_buffer client (buffer client +:+ text)) in *.
  pose proof (drain_inv (String.length (buffer c1)) env 0 fd (store srv) c1
                Hu Hst Hauth) as Hd.
  pose proof (drain_buffer (String.length (buffer c1)) env 0 fd (store srv)
                c1 (Nat.le_refl _)) as Hb.
  destruct (drain _ env 0 fd (store srv) c1) as [[st oc] acts].
  destruct Hd as (Hu' & Hst' & Hoc). simpl in Hb |- *.
  assert (Hothers : forall fd' c', clients srv !! fd' = Some c' ->
                                   session_inv st fd' c').
  { intros fd' c' Hc'. apply (session_inv_store (store srv)); [congruence|].
    by apply Hcl. }
  split_and!; try done. simpl. intros fd' c'. destruct oc as [c2|].
  - rewrite lookup_insert_Some. intros [[<- <-]|[_ ?]]; [|by eapply Hothers].
    destruct (Hb c2 eq_refl) as (Hnl & Hle & Hsk).
    split; [by rewrite Hsk|]. split; [done|].
    split; [by etrans|by apply Hoc].
  - rewrite lookup_delete_Some. intros [_ ?]. by eapply Hothers.
Qed.

Lemma run_inv (evs : list event) (srv : Server) :
  server_inv srv -> server_inv (run srv evs).1.
Proof.
  revert srv. induction evs as [|ev evs IH]; intros srv Hsrv; [done|].
  simpl.
  assert (Hstep : server_inv (step srv ev).1).
  { destruct ev as [fd a|fd env]; simpl;
      [|by apply handle_client_socket_inv].
    destruct Hsrv as (Hu & Hst & Hcl). split_and!; try done. simpl.
    intros fd' c'. rewrite lookup_insert_Some.
    intros [[<- <-]|[_ ?]]; [|by eapply Hcl].
    split; [done|]. split; [done|]. split; [apply Nat.le_0_l|done]. }
  destruct (step srv ev) as [srv1 a1]. specialize (IH srv1 Hstep).
  by destruct (run srv1 evs) as [srv2 a2].
Qed.

Lemma initial_server_inv : server_inv initial_server.
Proof.
  split; [done|]. split; [split; [done|]|].
  - intros k p Hkp.
    change (posts (store initial_server)) with (∅ : gmap Z Post) in Hkp.
    by apply lookup_empty_Some in Hkp.
  - intros fd c Hc.
    change (clients initial_server) with (∅ : gmap nat ClientState) in Hc.
    by apply lookup_empty_Some in Hc.
Qed.

Lemma seeded_admin name record :
  _hash_seeded_users !! name = Some record ->
  (rec_role record = Some "user" \/ rec_role record = Some "admin") /\
  (rec_role record = Some "admin" -> name = "admin").
Proof.
  unfold _hash_seeded_users. simpl.
  rewrite !lookup_insert_Some, lookup_empty.
  intros [[<- <-]|[_ [[<- <-]|[_ [[<- <-]|[_ ?]]]]]]; simpl;
    try done; split; auto; done.
Qed.

(** Along every run, the buffer of a connection holds no complete line
    and never more than [MAX_BUFFER_BYTES] bytes, and a session sits
    under its own descriptor. *)
Theorem buffers_stay_bounded (evs : list event) fd c :
  clients (run initial_server evs).1 !! fd = Some c ->
  sock c = fd /\ no_lf (buffer c) /\
  (String.length (buffer c) <= MAX_BUFFER_BYTES)%nat.
Proof.
  intros Hc.
  destruct (run_inv evs initial_server initial_server_inv) as (_ & _ & Hcl).
  by destruct (Hcl _ _ Hc) as (? & ? & ? & _).
Qed.

(** Along every run, the credential store is the seeded one, and a
    session is either fresh (no name, no role, not authenticated) or
    authenticated as a seeded user with that user's role; the role
    admin goes with the name admin and no other. *)
Theorem sessions_match_the_store (evs : list event) fd c :
  clients (run initial_server evs).1 !! fd = Some c ->
  USERS (store (run initial_server evs).1) = _hash_seeded_users /\
  (authenticated c = false -> username c = None /\ role c = None) /\
  (authenticated c = true ->
   exists name record,
     username c = Some name /\
     _hash_seeded_users !! name = Some record /\
     role c = rec_role record /\
     (role c = Some "user" \/ role c = Some "admin")) /\
  (role c = Some "admin" ->
   authenticated c = true /\ username c = Some "admin").
Proof.
  intros Hc.
  destruct (run_inv evs initial_server initial_server_inv) as (Hu & _ & Hcl).
  destruct (Hcl _ _ Hc) as (_ & _ & _ & Hauth). unfold auth_inv in Hauth.
  rewrite Hu in Hauth. split; [done|].
  destruct (authenticated c).
  - destruct Hauth as (name & record & Hn & Hr & Hrole).
    destruct (seeded_admin _ _ Hr) as [Hur Hadm].
    assert (Hrole' : role c = rec_role record).
    { rewrite Hrole. by destruct Hur as [-> | ->]. }
    split_and!; try done.
    + intros _. exists name, record. split_and!; try done.
      rewrite Hrole'. tauto.
    + intros Ha. split; [done|]. rewrite Hn. f_equal. apply Hadm.
      by rewrite <- Hrole'.
  - destruct Hauth as [Hn Hr]. split_and!; try done. by rewrite Hr.
Qed.

(** Along every run, a post in the store is filed under its own id, the
    id is below the counter, the author is a seeded user, and the
    message is not blank and holds no line feed. *)
Theorem posts_are_well_formed (evs : list event) k p :
  posts (store (run initial_server evs).1) !! k = Some p ->
  post_id p = k /\
  1 <= k < next_post_id (store (run initial_server evs).1) /\
  (exists name, author p = Some name /\
                is_Some (_hash_seeded_users !! name)) /\
  Py.strip (message p) <> "" /\ no_lf (message p).
Proof.
  intros Hp.
  destruct (run_inv evs initial_server initial_server_inv)
    as (Hu & [_ Hst] & _).
  destruct (Hst _ _ Hp) as (? & ? & (name & ? & ?) & ? & ?).
  split; [done|]. split; [done|]. split; [|done].
  exists name. by rewrite <- Hu.
Qed.

(** *** The texts the reactor keeps are well-formed *)

Lemma process_line_text ts st c line :
  Utf8.valid ts = true -> Utf8.valid line = true -> store_text st ->
  store_text (process_line ts st c line).1.1.1.
Proof.
  intros Hts Hline Hst.
  destruct (decide (line = "")) as [->|Hne]; [done|].
  rewrite process_line_dispatch by done.
  destruct (Py.split1 Py.SP line) as [tok t] eqn:Hs. simpl.
  destruct (valid_split1 Py.SP line tok t eq_refl Hs Hline) as [_ Hrest].
  pose proof (dispatch_post_created ts (Py.upper tok) st c (default "" t))
    as He.
  destruct (dispatch ts (Py.upper tok) st c (default "" t))
    as [[[st' c'] r] cl]. simpl.
  destruct He as [[_ Hsub] | (_ & _ & _ & Hp)].
  - intros k p Hkp. by apply (Hst k), Hsub.
  - intros k p. rewrite Hp, lookup_insert_Some.
    intros [[_ <-]|[_ Hkp]]; [done|by apply (Hst k)].
Qed.

Lemma drain_text fuel env k fd st c :
  env_text env -> store_text st -> Utf8.valid (buffer c) = true ->
  let '(st', oc, _) := drain fuel env k fd st c in
  store_text st' /\ forall c', oc = Some c' -> Utf8.valid (buffer c') = true.
Proof.
  intros Henv. revert k st c.
  induction fuel as [|fuel IH]; intros k st c Hst Hc; simpl.
  { split; [done|]. by intros ? [= <-]. }
  destruct (Py.contains Py.LF (buffer c)) eqn:Hlf; simpl;
    [|split; [done|]; by intros ? [= <-]].
  destruct (Py.split1 Py.LF (buffer c)) as [raw t] eqn:Hs.
  destruct (valid_split1 Py.LF (buffer c) raw t eq_refl Hs Hc) as [Hraw Ht].
  pose proof (valid_rstrip_char Py.CR raw eq_refl Hraw) as Hline.
  destruct (Py.rstrip_char Py.CR raw) as [|a l] eqn:Hr; [by apply IH|].
  pose proof (process_line_text (clock env k) st
                (set_buffer c (default "" t)) (String a l)
                (Henv k) Hline Hst) as Hst2.
  pose proof (process_line_buffer (clock env k) st
                (set_buffer c (default "" t)) (String a l)) as Hb.
  destruct (process_line (clock env k) st (set_buffer c (default "" t))
              (String a l)) as [[[st2 c2] resp] cl]. simpl in Hst2, Hb.
  destruct (match _ with [] => false | _ => send_fails env k end);
    [by split|].
  destruct cl; [by split|].
  assert (Hc2 : Utf8.valid (buffer c2) = true) by (by rewrite Hb).
  specialize (IH (S k) st2 c2 Hst2 Hc2).
  by destruct (drain fuel env (S k) fd st2 c2) as [[st3 oc] acts].
Qed.

Lemma handle_client_socket_text env fd srv :
  env_text env -> server_text srv ->
  server_text (handle_client_socket env fd srv).1.
Proof.
  intros Henv [Hst Hcl]. unfold handle_client_socket, close_client.
  assert (Hdel : server_text {| clients := delete fd (clients srv);
                                store := store srv |}).
  { split; [done|]. intros fd' c'. simpl. rewrite lookup_delete_Some.
    intros [_ ?]. by eapply Hcl. }
  destruct (clients srv !! fd) as [client|] eqn:Hfd; [|by split].
  destruct (match recv env with
            | RecvConnectionError => ""
            | RecvData d => d
            end) as [|a d]; [done|].
  unfold Utf8.decode.
  destruct (Utf8.valid (String a d)) eqn:Hv; [|done].
  destruct (_ <? _)%nat; [done|].
  assert (Hb : Utf8.valid (buffer (set_buffer client
                                     (buffer client +:+ String a d))) = true).
  { apply valid_app_2; [by eapply Hcl|done]. }
  pose proof (drain_text
                (String.length (buffer (set_buffer client
                                          (buffer client +:+ String a d))))
                env 0 fd (store srv)
                (set_buffer client (buffer client +:+ String a d))
                Henv Hst Hb) as Hd.
  destruct (drain _ env 0 fd (store srv) _) as [[st oc] acts].
  destruct Hd as [Hst' Hoc]. split; [done|]. simpl.
  intros fd' c'. destruct oc as [c2|].
  - rewrite lookup_insert_Some. intros [[_ <-]|[_ ?]]; [by apply Hoc|].
    by eapply Hcl.
  - rewrite lookup_delete_Some. intros [_ ?]. by eapply Hcl.
Qed.

Lemma run_text (evs : list event) (srv : Server) :
  Forall event_text evs -> server_text srv -> server_text (run srv evs).1.
Proof.
  intros Hevs. revert srv.
  induction Hevs as [|ev evs Hev _ IH]; intros srv Hsrv; [done|]. simpl.
  assert (Hstep : server_text (step srv ev).1).
  { destruct ev as [fd a|fd env]; simpl.
    - destruct Hsrv as [Hst Hcl]. split; [done|]. simpl.
      intros fd' c'. rewrite lookup_insert_Some.
      intros [[_ <-]|[_ ?]]; [done|by eapply Hcl].
    - by apply handle_client_socket_text. }
  destruct (step srv ev) as [srv1 a1]. specialize (IH srv1 Hstep).
  by destruct (run srv1 evs) as [srv2 a2].
Qed.

Lemma initial_server_text : server_text initial_server.
Proof.
  split.
  - intros k p Hkp.
    change (posts (store initial_server)) with (∅ : gmap Z Post) in Hkp.
    by apply lookup_empty_Some in Hkp.
  - intros fd c Hc.
    change (clients initial_server) with (∅ : gmap nat ClientState) in Hc.
    by apply lookup_empty_Some in Hc.
Qed.

End ReactorFacts.

(** ** The client *)

Section ClientFacts.
Context `{PasswordHasher}.

Lemma concat_cons (x : string) (l : list string) :
  String.concat "" (x :: l) = x +:+ String.concat "" l.
Proof. destruct l; simpl; [by rewrite str_app_nil_r|done]. Qed.

Lemma concat_app (l1 l2 : list string) :
  String.concat "" (l1 ++ l2)
  = String.concat "" l1 +:+ String.concat "" l2.
Proof.
  induction l1 as [|x l1 IH]; [done|].
  rewrite <- app_comm_cons, !concat_cons, IH. by rewrite str_app_assoc.
Qed.

(** The first line feed of a text is where it is. *)
Lemma lf_split_unique (a b c d : string) :
  no_lf a -> no_lf c ->
  a +:+ String Py.LF b = c +:+ String Py.LF d -> a = c /\ b = d.
Proof.
  unfold no_lf. revert c. induction a as [|x a IH]; intros c Ha Hc Heq.
  - rewrite str_app_nil_l in Heq. destruct c as [|y c].
    + rewrite str_app_nil_l in Heq. by simplify_eq.
    + rewrite str_app_cons in Heq. by simplify_eq.
  - rewrite str_app_cons in Heq. destruct c as [|y c].
    + rewrite str_app_nil_l in Heq. by simplify_eq.
    + rewrite str_app_cons in Heq. simpl in Ha, Hc. simplify_eq.
      apply orb_false_iff in Ha as [_ Ha].
      apply orb_false_iff in Hc as [_ Hc].
      destruct (IH c Ha Hc) as [-> ->]; done.
Qed.

(** [read_line] gives the first line of what is pending, line feed
    included, however the text is cut into chunks, and leaves the rest
    pending. *)
Lemma read_line_from_spec (inc : list string) (b l rest : string) :
  chunks_ok inc -> no_lf l ->
  b +:+ String.concat "" inc = l +:+ Py.NL +:+ rest ->
  exists conn',
    read_line_from inc b
    = (match Utf8.decode (l +:+ Py.NL) with
       | Some s => Text s
       | None => DecodeError
       end, conn') /\
    pending conn' = rest /\ chunks_ok (incoming conn').
Proof.
  intros Hinc Hl. revert b.
  assert (Hfound : forall inc b, chunks_ok inc ->
            Py.contains Py.LF b = true ->
            b +:+ String.concat "" inc = l +:+ Py.NL +:+ rest ->
            exists conn',
              (let '(line, r) := Py.split1 Py.LF b in
               (match Utf8.decode (line +:+ Py.NL) with
                | Some s => Text s
                | None => DecodeError
                end, {| incoming := inc; buf := default "" r |}))
              = (match Utf8.decode (l +:+ Py.NL) with
                 | Some s => Text s
                 | None => DecodeError
                 end, conn') /\
              pending conn' = rest /\ chunks_ok (incoming conn')).
  { intros inc' b Hinc' Hc Heq.
    destruct (Py.split1 Py.LF b) as [line r] eqn:Hs.
    destruct (split1_lf_tail _ _ _ Hs Hc) as (tail & -> & Hb & _).
    assert (Hline : no_lf line) by (by destruct (split1_spec _ _ _ _ Hs)).
    rewrite Hb, !str_app_assoc in Heq.
    destruct (lf_split_unique line (tail +:+ String.concat "" inc') l rest
                Hline Hl Heq) as [-> <-].
    eexists. split; [done|]. by split. }
  induction Hinc as [|chunk inc Hchunk Hinc IH]; intros b Heq.
  - assert (Hc : Py.contains Py.LF b = true).
    { simpl in Heq. rewrite str_app_nil_r in Heq. rewrite Heq.
      rewrite !contains_app. simpl. by rewrite orb_true_r. }
    simpl. rewrite Hc. apply (Hfound [] b); [constructor|done|done].
  - simpl. destruct (Py.contains Py.LF b) eqn:Hc.
    + apply (Hfound (chunk :: inc) b); [by constructor|done|done].
    + destruct chunk as [|x chunk]; [done|].
      apply IH. by rewrite str_app_assoc, <- concat_cons.
Qed.

(** When no line feed is left to come, [read_line] returns [None]. *)
Theorem read_line_closed (conn : ClientConn) :
  no_lf (pending conn) -> (read_line conn).1 = Closed.
Proof.
  unfold read_line, pending. destruct conn as [inc b]. simpl.
  revert b. induction inc as [|chunk inc IH]; intros b Hn.
  - simpl in *. rewrite str_app_nil_r in Hn. by rewrite Hn.
  - rewrite concat_cons in Hn. simpl.
    assert (Hb : Py.contains Py.LF b = false).
    { by apply no_lf_app in Hn as [? _]. }
    rewrite Hb. destruct chunk as [|x chunk]; [done|].
    apply IH. by rewrite str_app_assoc.
Qed.

Lemma valid_app_nl (l : string) :
  Utf8.valid (l +:+ Py.NL) = Utf8.valid l.
Proof.
  destruct (Utf8.valid l) eqn:Hl; [by apply valid_app_2|].
  destruct (Utf8.valid (l +:+ Py.NL)) eqn:Hv; [|done].
  destruct (valid_split_ascii l Py.LF "" eq_refl Hv) as [Hl' _]. congruence.
Qed.

Lemma read_line_text (conn : ClientConn) (l rest : string) :
  chunks_ok (incoming conn) -> no_lf l -> Utf8.valid l = true ->
  pending conn = l +:+ Py.NL +:+ rest ->
  exists conn',
    read_line conn = (Text (l +:+ Py.NL), conn') /\
    pending conn' = rest /\ chunks_ok (incoming conn').
Proof.
  intros Hinc Hl Hv Hp.
  destruct (read_line_from_spec (incoming conn) (buf conn) l rest
              Hinc Hl Hp) as (conn' & Hr & Hrest).
  exists conn'. split; [|done]. unfold read_line. rewrite Hr.
  unfold Utf8.decode. by rewrite valid_app_nl, Hv.
Qed.

(** [read_line] puts a line together from any number of chunks and
    keeps what follows it for the next call; the line is decoded on its
    own, so that bytes that are no text fail the call that reads them
    and no later one. *)
Theorem read_line_reassembles (conn : ClientConn) (l rest : string) :
  chunks_ok (incoming conn) -> no_lf l ->
  pending conn = l +:+ Py.NL +:+ rest ->
  exists conn',
    read_line conn
    = (if Utf8.valid l then Text (l +:+ Py.NL) else DecodeError, conn') /\
    pending conn' = rest /\ chunks_ok (incoming conn').
Proof.
  intros Hinc Hl Hp.
  destruct (read_line_from_spec (incoming conn) (buf conn) l rest
              Hinc Hl Hp) as (conn' & Hr & Hrest).
  exists conn'. split; [|done]. unfold read_line. rewrite Hr.
  unfold Utf8.decode. rewrite valid_app_nl. by destruct (Utf8.valid l).
Qed.

Lemma read_more_spec (ls : list string) (conn : ClientConn)
    (acc : list string) (extra : string) :
  chunks_ok (incoming conn) ->
  Forall no_lf ls -> Forall (fun l => Utf8.valid l = true) ls ->
  pending conn = String.concat "" (with_nl ls) +:+ extra ->
  exists conn',
    read_more (length ls) conn acc
    = (Text (String.concat "" (acc ++ with_nl ls)), conn') /\
    pending conn' = extra /\ chunks_ok (incoming conn').
Proof.
  revert conn acc. induction ls as [|l ls IH]; intros conn acc Hinc Hnl Hv Hp.
  - exists conn. simpl. rewrite app_nil_r. by split_and!.
  - apply Forall_cons in Hnl as [Hl Hnl]. apply Forall_cons in Hv as [Hvl Hv].
    unfold with_nl in Hp. rewrite fmap_cons, concat_cons in Hp.
    rewrite !str_app_assoc in Hp.
    destruct (read_line_text conn l _ Hinc Hl Hvl Hp)
      as (conn1 & Hr & Hp1 & Hinc1).
    destruct (IH conn1 (acc ++ [l +:+ Py.NL]) Hinc1 Hnl Hv Hp1)
      as (conn' & Hm & Hrest).
    exists conn'. split; [|done]. cbn [read_more length]. rewrite Hr, Hm.
    unfold with_nl. by rewrite fmap_cons, <- app_assoc.
Qed.

(** Lines joined with line feeds and closed by one are the lines each
    with its line feed. *)
Lemma join_with_nl (h : string) (ls : list string) :
  Py.join Py.NL (h :: ls) +:+ Py.NL = String.concat "" (with_nl (h :: ls)).
Proof.
  unfold Py.join, with_nl. revert h.
  induction ls as [|l ls IH]; intros h.
  - reflexivity.
  - change (String.concat Py.NL (h :: l :: ls))
      with (h +:+ Py.NL +:+ String.concat Py.NL (l :: ls)).
    rewrite !str_app_assoc, IH, !fmap_cons, !concat_cons.
    by rewrite !str_app_assoc.
Qed.

Lemma split_go_char (cur : string) (c : ascii) (s : string) :
  Py.isspace c = false ->
  Py.split_go cur (String c s) = Py.split_go (cur +:+ String c "") s.
Proof. intros Hc. simpl. by rewrite Hc. Qed.

Lemma split_go_space (cur : string) (c : ascii) (s : string) :
  Py.isspace c = true -> cur <> "" ->
  Py.split_go cur (String c s) = cur :: Py.split_go "" s.
Proof. intros Hc Hne. simpl. rewrite Hc. by destruct cur. Qed.

Lemma rstrip_app_nl (s : string) : Py.rstrip (s +:+ Py.NL) = Py.rstrip s.
Proof.
  induction s as [|c s IH]; [done|].
  rewrite str_app_cons. simpl. by rewrite IH.
Qed.

Lemma pretty_nat_Z (n : nat) : pretty n = pretty (Z.of_nat n).
Proof. by destruct n. Qed.

Lemma pretty_nat_word (n : nat) :
  pretty n <> "" /\ str_all nonspace (pretty n) = true.
Proof.
  rewrite pretty_nat_Z. split; [apply pretty_Z_ne_nil|].
  eapply str_all_impl; [apply num_char_nonspace|apply pretty_Z_num].
Qed.

(** The header of a count-framed answer reads as three words, the
    third of which is the count. *)
Lemma header_words (tag : string) (n : nat) :
  tag = "LIST" \/ tag = "HELP" ->
  Py.split (Py.strip (("OK " +:+ tag +:+ " " +:+ pretty n) +:+ Py.NL))
    = ["OK"; tag; pretty n] /\
  Py.int (pretty n) = Some (Z.of_nat n) /\
  Py.startswith ("OK " +:+ tag +:+ " ")
                (("OK " +:+ tag +:+ " " +:+ pretty n) +:+ Py.NL) = true.
Proof.
  intros Htag. destruct (pretty_nat_word n) as [Hne Hw].
  split; [|split; [by rewrite pretty_nat_Z, int_pretty|
                   by destruct Htag as [-> | ->]]].
  unfold Py.strip.
  assert (Hl : Py.lstrip (("OK " +:+ tag +:+ " " +:+ pretty n) +:+ Py.NL)
               = ("OK " +:+ tag +:+ " " +:+ pretty n) +:+ Py.NL) by done.
  rewrite Hl.
  assert (Hr : Py.rstrip (("OK " +:+ tag +:+ " " +:+ pretty n) +:+ Py.NL)
               = ("OK " +:+ tag +:+ " ") +:+ pretty n).
  { rewrite rstrip_app_nl, <- !str_app_assoc.
    rewrite rstrip_app_nonspace by done. by rewrite !str_app_assoc. }
  rewrite Hr. unfold Py.split.
  pose proof (split_go_nonspace_run "" (pretty n) Hw) as Hrun.
  rewrite str_app_nil_l in Hrun. specialize (Hrun Hne).
  destruct Htag as [-> | ->].
  - change (Py.split_go "" (("OK " +:+ "LIST" +:+ " ") +:+ pretty n))
      with ("OK" :: "LIST" :: Py.split_go "" (pretty n)).
    by rewrite Hrun.
  - change (Py.split_go "" (("OK " +:+ "HELP" +:+ " ") +:+ pretty n))
      with ("OK" :: "HELP" :: Py.split_go "" (pretty n)).
    by rewrite Hrun.
Qed.

Lemma valid_header (tag : string) (n : nat) :
  tag = "LIST" \/ tag = "HELP" ->
  Utf8.valid ("OK " +:+ tag +:+ " " +:+ pretty n) = true /\
  no_lf ("OK " +:+ tag +:+ " " +:+ pretty n).
Proof.
  intros Htag. split.
  - rewrite <- !str_app_assoc. apply valid_app_2; [|apply valid_pretty_nat].
    by destruct Htag as [-> | ->].
  - rewrite <- !str_app_assoc. apply no_lf_app.
    split; [by destruct Htag as [-> | ->]|apply pretty_nat_no_lf].
Qed.

Lemma recv_frame (conn : ClientConn) (sent tag : string)
    (ls : list string) (extra : string) :
  tag = "LIST" \/ tag = "HELP" ->
  Py.upper (Py.split1 Py.SP (Py.strip sent)).1 = tag ->
  chunks_ok (incoming conn) ->
  Forall no_lf ls -> Forall (fun l => Utf8.valid l = true) ls ->
  pending conn = framed tag ls +:+ extra ->
  exists conn',
    recv_response conn sent = (Text (framed tag ls), conn') /\
    pending conn' = extra /\ chunks_ok (incoming conn').
Proof.
  intros Htag Hcmd Hinc Hnl Hv Hp.
  destruct (valid_header tag (length ls) Htag) as [Hvh Hnh].
  destruct (header_words tag (length ls) Htag) as (Hw & Hi & Hsw).
  unfold framed in *. rewrite join_with_nl in *.
  remember ("OK " +:+ tag +:+ " " +:+ pretty (length ls)) as hdr eqn:Hhdr.
  unfold with_nl in Hp. rewrite fmap_cons, concat_cons in Hp.
  rewrite !str_app_assoc in Hp.
  destruct (read_line_text conn _ _ Hinc Hnh Hvh Hp)
    as (conn1 & Hr & Hp1 & Hinc1).
  destruct (read_more_spec ls conn1 [hdr +:+ Py.NL] extra Hinc1 Hnl Hv Hp1)
    as (conn' & Hm & Hrest).
  exists conn'. split; [|done]. unfold recv_response.
  rewrite Hr, Hcmd.
  assert (Hframe : recv_count_framed conn1 (hdr +:+ Py.NL)
                     ("OK " +:+ tag +:+ " ")
                   = (Text (String.concat "" (with_nl (hdr :: ls))), conn')).
  { unfold recv_count_framed. rewrite Hsw, Hw, Hi. cbn [negb].
    by rewrite Nat2Z.id, Hm. }
  clear Hhdr. by destruct Htag as [-> | ->].
Qed.

Lemma recv_line (conn : ClientConn) (sent l extra : string) :
  chunks_ok (incoming conn) -> no_lf l -> Utf8.valid l = true ->
  Py.startswith "OK LIST " (l +:+ Py.NL) = false ->
  Py.startswith "OK HELP " (l +:+ Py.NL) = false ->
  pending conn = l +:+ Py.NL +:+ extra ->
  exists conn',
    recv_response conn sent = (Text (l +:+ Py.NL), conn') /\
    pending conn' = extra /\ chunks_ok (incoming conn').
Proof.
  intros Hinc Hl Hv Hnl Hnh Hp.
  destruct (read_line_text conn l extra Hinc Hl Hv Hp)
    as (conn' & Hr & Hrest).
  exists conn'. split; [|done]. unfold recv_response. rewrite Hr.
  unfold recv_count_framed. rewrite Hnl, Hnh. simpl.
  by repeat case_match.
Qed.

(** [recv_response] reads a count-framed answer whole, whatever the
    chunks it comes in, and leaves what follows it pending. *)
Theorem client_reads_frame (conn : ClientConn) (sent tag : string)
    (ls : list string) (extra : string) :
  tag = "LIST" \/ tag = "HELP" ->
  Py.upper (Py.split1 Py.SP (Py.strip sent)).1 = tag ->
  chunks_ok (incoming conn) ->
  Forall no_lf ls -> Forall (fun l => Utf8.valid l = true) ls ->
  pending conn = framed tag ls +:+ extra ->
  exists conn',
    recv_response conn sent = (Text (framed tag ls), conn') /\
    pending conn' = extra /\ chunks_ok (incoming conn').
Proof. apply recv_frame. Qed.

(** A one-line answer is read whole by [recv_response], too: for a
    command that is neither LIST nor HELP, and for LIST and HELP when the
    line does not begin as their header does (an error, say). *)
Theorem client_reads_one_line (conn : ClientConn) (sent l extra : string) :
  chunks_ok (incoming conn) -> no_lf l -> Utf8.valid l = true ->
  Py.startswith "OK LIST " (l +:+ Py.NL) = false ->
  Py.startswith "OK HELP " (l +:+ Py.NL) = false ->
  pending conn = l +:+ Py.NL +:+ extra ->
  exists conn',
    recv_response conn sent = (Text (l +:+ Py.NL), conn') /\
    pending conn' = extra /\ chunks_ok (incoming conn').
Proof. apply recv_line. Qed.

End ClientFacts.

(** ** The client and the server together *)

Section Exchange.
Context `{PasswordHasher}.
Implicit Types (st : Store) (c client : ClientState) (env : Env).
Implicit Types (ts line rest tok cmd raw tail : string).
Local Arguments process_line : simpl never.

(** The names and the roles of the seeded users are plain text. *)
Lemma seeded_text name record :
  _hash_seeded_users !! name = Some record ->
  no_lf name /\ Utf8.valid name = true /\
  no_lf (default "user" (rec_role record)) /\
  Utf8.valid (default "user" (rec_role record)) = true.
Proof.
  unfold _hash_seeded_users. simpl.
  rewrite !lookup_insert_Some, lookup_empty.
  by intros [[<- <-]|[_ [[<- <-]|[_ [[<- <-]|[_ ?]]]]]].
Qed.

Lemma auth_inv_text st c :
  USERS st = _hash_seeded_users -> auth_inv st c ->
  no_lf (Py.fmt (username c)) /\ Utf8.valid (Py.fmt (username c)) = true /\
  no_lf (Py.fmt (role c)) /\ Utf8.valid (Py.fmt (role c)) = true.
Proof.
  intros Hu. unfold auth_inv. destruct (authenticated c).
  - intros (name & record & -> & Hr & ->). rewrite Hu in Hr.
    by apply seeded_text in Hr.
  - by intros [-> ->].
Qed.

Lemma post_line_text st k p :
  USERS st = _hash_seeded_users -> store_inv st -> store_ok st ->
  store_text st -> posts st !! k = Some p ->
  no_lf (post_line p) /\ Utf8.valid (post_line p) = true.
Proof.
  intros Hu [_ Hinv] Hok Htext Hkp.
  destruct (Hok k p Hkp) as (_ & Han & Htn & Hmn).
  destruct (Htext k p Hkp) as [Htv Hmv].
  destruct (Hinv k p Hkp) as (_ & _ & (name & Ha & [record Hr]) & _).
  rewrite Hu in Hr. apply seeded_text in Hr as (_ & Hnv & _).
  split; [by apply post_line_no_lf|].
  unfold post_line. rewrite Ha. simpl.
  repeat (apply valid_app_2; [first [apply valid_pretty_Z | done]|]). done.
Qed.

Lemma numeral_not_tag (tag : string) (i : Z) (s : string) :
  tag = "LIST " \/ tag = "HELP " ->
  Py.startswith ("OK " +:+ tag) ("OK " +:+ pretty i +:+ s) = false.
Proof.
  intros Htag. pose proof (pretty_Z_num i) as Hn.
  pose proof (pretty_Z_ne_nil i) as Hne.
  destruct (pretty i) as [|a p]; [done|].
  apply andb_true_iff in Hn as [Ha _].
  destruct Htag as [-> | ->].
  - change (Ascii.eqb "L" a && Py.startswith "IST " (p +:+ s) = false).
    destruct (Ascii.eqb_spec "L" a) as [<-|]; [|done].
    vm_compute in Ha. discriminate Ha.
  - change (Ascii.eqb "H" a && Py.startswith "ELP " (p +:+ s) = false).
    destruct (Ascii.eqb_spec "H" a) as [<-|]; [|done].
    vm_compute in Ha. discriminate Ha.
Qed.

(** Each HELP text is a frame of plain lines. *)
Lemma help_bodies_text :
  Forall (fun body =>
            help_response body = framed "HELP" body /\
            Forall no_lf body /\
            Forall (fun l => Utf8.valid l = true) body)
         (help_body :: details.*2).
Proof.
  repeat (apply Forall_cons; split;
          [split; [reflexivity|split; repeat constructor]|]).
  constructor.
Qed.

Lemma plain_literal (l : string) :
  no_lf l -> Utf8.valid l = true ->
  Py.startswith "OK LIST " (ln l) = false ->
  Py.startswith "OK HELP " (ln l) = false ->
  plain_answer (ln l).
Proof. intros. by exists l. Qed.

(** What the server answers to a line is either one plain line or, to a
    LIST or a HELP, a frame of plain lines. *)
Lemma dispatch_answer ts cmd st c rest r :
  USERS st = _hash_seeded_users -> auth_inv st c -> store_inv st ->
  store_ok st -> store_text st ->
  (dispatch ts cmd st c rest).1.2 = Some r ->
  counted_answer cmd r \/ plain_answer r.
Proof.
  intros Hu Hc Hinv Hok Htext.
  destruct (auth_inv_text st c Hu Hc) as (Hun & Huv & Hrn & Hrv).
  unfold dispatch. simpl.
  repeat (case_eqb cmd; [simpl|]);
    [..|intros [= <-]; right; by apply plain_literal].
  - (* HELP *)
    pose proof help_bodies_text as Hf. rewrite Forall_cons in Hf.
    destruct Hf as [(Hg1 & Hg2 & Hg3) Htopics].
    rewrite Forall_forall in Htopics.
    destruct (handle_help st c rest) as [[st' c'] resp] eqn:Hh.
    simpl. intros [= <-]. unfold handle_help in Hh.
    destruct (Py.strip rest) as [|a arg]; cbv beta iota zeta in Hh.
    { simplify_eq. left. exists help_body. by split_and!; auto. }
    destruct (Py.split (String a arg)) as [|part [|]];
      [simplify_eq; right; by apply plain_literal| |
       simplify_eq; right; by apply plain_literal].
    destruct (assoc (Py.upper part) details) as [body|] eqn:Ha;
      simplify_eq; [|right; by apply plain_literal].
    left. exists body.
    destruct (Htopics body) as (Hb1 & Hb2 & Hb3).
    { apply assoc_elem_of in Ha. apply list_elem_of_fmap.
      by exists (Py.upper part, body). }
    by split_and!; auto.
  - (* LOGIN *)
    unfold handle_login.
    destruct (authenticated c); simpl;
      [intros [= <-]; right; by apply plain_literal|].
    destruct (Py.split rest) as [|name [|password [|]]]; simpl;
      try (intros [= <-]; right; by apply plain_literal).
    destruct (USERS st !! name) as [record|] eqn:Hr; simpl;
      [|intros [= <-]; right; by apply plain_literal].
    destruct (negb _); simpl;
      [intros [= <-]; right; by apply plain_literal|].
    rewrite Hu in Hr. apply seeded_text in Hr as (Hn1 & Hn2 & Hr1 & Hr2).
    intros [= <-]. right. apply plain_literal; [| |done|done].
    + rewrite !no_lf_app. by split_and!.
    + repeat (apply valid_app_2; [done|]). done.
  - (* POST *)
    unfold handle_post, require_auth.
    destruct (authenticated c); simpl;
      [|intros [= <-]; right; by apply plain_literal].
    destruct (Py.strip rest); simpl;
      [intros [= <-]; right; by apply plain_literal|].
    intros [= <-]. right. apply plain_literal; [| |done|done].
    + rewrite !no_lf_app. split_and!; [done|apply pretty_Z_no_lf|done].
    + repeat (apply valid_app_2; [first [apply valid_pretty_Z|done]|]). done.
  - (* LIST *)
    destruct (handle_list st c rest) as [[st' c'] resp] eqn:Hh.
    simpl. intros [= <-]. unfold handle_list, require_auth in Hh.
    destruct (authenticated c); cbn [negb] in Hh; cbv beta iota zeta in Hh;
      [|simplify_eq; right; by apply plain_literal].
    destruct (Py.strip rest);
      [|simplify_eq; right; by apply plain_literal].
    assert (Hresp : resp = Py.join Py.NL (list_lines st) +:+ Py.NL)
      by congruence.
    clear Hh. subst resp. left.
    destruct (list_lines_spec st) as (ks & ps & Hl & Hlen & _ & Hf2 & _).
    exists (post_line <$> ps).
    assert (Hps : Forall (fun p => no_lf (post_line p) /\
                                   Utf8.valid (post_line p) = true) ps).
    { clear Hl Hlen. induction Hf2 as [|k p ks ps Hkp _ IH]; [constructor|].
      constructor; [by apply (post_line_text st k)|done]. }
    split; [by left|]. split.
    + rewrite Hl. unfold framed. rewrite length_fmap, Hlen. reflexivity.
    + split; apply Forall_fmap; eapply Forall_impl; try exact Hps;
        by intros p [? ?].
  - (* GET *)
    unfold handle_get, require_auth.
    destruct (authenticated c); simpl;
      [|intros [= <-]; right; by apply plain_literal].
    destruct (Py.split rest) as [|part [|]]; simpl;
      try (intros [= <-]; right; by apply plain_literal).
    destruct (Py.int part) as [id|]; simpl;
      [|intros [= <-]; right; by apply plain_literal].
    destruct (posts st !! id) as [post|] eqn:Hp; simpl;
      [|intros [= <-]; right; by apply plain_literal].
    destruct (post_line_text st id post Hu Hinv Hok Htext Hp) as [Hpn Hpv].
    intros [= <-]. right. apply plain_literal.
    + rewrite no_lf_app. by split.
    + by apply valid_app_2.
    + unfold ln, post_line. rewrite !str_app_assoc.
      apply (numeral_not_tag "LIST "). by left.
    + unfold ln, post_line. rewrite !str_app_assoc.
      apply (numeral_not_tag "HELP "). by right.
  - (* DEL *)
    unfold handle_del, require_auth.
    destruct (authenticated c); simpl;
      [|intros [= <-]; right; by apply plain_literal].
    destruct (Py.split rest) as [|part [|]]; simpl;
      try (intros [= <-]; right; by apply plain_literal).
    destruct (Py.int part) as [id|]; simpl;
      [|intros [= <-]; right; by apply plain_literal].
    destruct (posts st !! id) as [post|] eqn:Hp; simpl;
      [|intros [= <-]; right; by apply plain_literal].
    destruct (_ && _); simpl;
      [intros [= <-]; right; by apply plain_literal|].
    intros [= <-]. right. apply plain_literal; [| |done|done].
    + rewrite !no_lf_app. split; [done|apply pretty_Z_no_lf].
    + apply valid_app_2; [done|apply valid_pretty_Z].
  - (* WHOAMI *)
    unfold handle_whoami, require_auth.
    destruct (authenticated c); simpl;
      [|intros [= <-]; right; by apply plain_literal].
    destruct (Py.strip rest); simpl;
      [|intros [= <-]; right; by apply plain_literal].
    intros [= <-]. right. apply plain_literal; [| |done|done].
    + rewrite !no_lf_app. by split_and!.
    + repeat (apply valid_app_2; [done|]). done.
  - (* QUIT *)
    unfold handle_quit.
    destruct (Py.strip rest); simpl;
      intros [= <-]; right; by apply plain_literal.
Qed.

(** *** The command as the client sees it *)

Lemma upper_char_nonspace (ch : ascii) :
  nonspace (Py.upper_char ch) = nonspace ch.
Proof. by destruct ch as [[] [] [] [] [] [] [] []]. Qed.

Lemma upper_nonspace (s : string) :
  str_all nonspace (Py.upper s) = str_all nonspace s.
Proof.
  induction s as [|ch s IH]; [done|]. simpl.
  by rewrite upper_char_nonspace, IH.
Qed.

Lemma tag_word (tok tag : string) :
  tag = "LIST" \/ tag = "HELP" -> Py.upper tok = tag ->
  tok <> "" /\ str_all nonspace tok = true.
Proof.
  intros Htag Hup. split.
  - intros ->. by destruct Htag as [-> | ->].
  - rewrite <- upper_nonspace, Hup. by destruct Htag as [-> | ->].
Qed.

Lemma lstrip_word_app (tok z : string) :
  tok <> "" -> str_all nonspace tok = true ->
  Py.lstrip (tok +:+ z) = tok +:+ z.
Proof.
  destruct tok as [|ch tok]; [done|]. intros _. simpl str_all.
  intros [Hc _]%andb_true_iff. rewrite str_app_cons. simpl.
  unfold nonspace in Hc. by destruct (Py.isspace ch).
Qed.

Lemma rstrip_word_app (tok z : string) :
  str_all nonspace tok = true ->
  Py.rstrip (tok +:+ z) = tok +:+ Py.rstrip z.
Proof.
  induction tok as [|ch tok IH]; [done|]. simpl str_all.
  intros [Hc Htok]%andb_true_iff. rewrite !str_app_cons. simpl.
  rewrite (IH Htok). unfold nonspace in Hc.
  destruct (tok +:+ Py.rstrip z); [|done]. by destruct (Py.isspace ch).
Qed.

Lemma strip_repeat_space (x : ascii) (n : nat) :
  Py.isspace x = true ->
  Py.lstrip (repeat_char x n) = "" /\ Py.rstrip (repeat_char x n) = "".
Proof.
  intros Hx. induction n as [|n [IH1 IH2]]; [done|]. simpl.
  by rewrite IH1, IH2, Hx.
Qed.

Lemma rstrip_cons_space (ch : ascii) (s : string) :
  Py.isspace ch = true ->
  Py.rstrip (String ch s) = "" \/
  exists r, Py.rstrip (String ch s) = String ch r.
Proof.
  intros Hc. simpl. destruct (Py.rstrip s); [rewrite Hc; by left|].
  right. by eexists.
Qed.

(** When the server takes a line for a LIST or a HELP, so does the
    client that sent it. *)
Lemma client_command (input tag : string) :
  tag = "LIST" \/ tag = "HELP" ->
  Py.upper (Py.split1 Py.SP (Py.rstrip_char Py.CR input)).1 = tag ->
  Py.upper (Py.split1 Py.SP (Py.strip input)).1 = tag.
Proof.
  intros Htag Hup.
  destruct (rstrip_char_spec Py.CR input) as (n & Hin & _).
  remember (Py.rstrip_char Py.CR input) as line eqn:Hl. clear Hl.
  destruct (Py.split1 Py.SP line) as [tok t] eqn:Hs. simpl in Hup.
  destruct (split1_spec _ _ _ _ Hs) as (Htok & _ & Hline).
  destruct (tag_word tok tag Htag Hup) as [Hne Hw].
  subst input line. unfold Py.strip. rewrite str_app_assoc.
  rewrite lstrip_word_app, rstrip_word_app by done.
  destruct t as [r|].
  - rewrite str_app_cons.
    destruct (rstrip_cons_space Py.SP (r +:+ repeat_char Py.CR n) eq_refl)
      as [->|[r' ->]].
    + by rewrite str_app_nil_r, split1_none.
    + by rewrite split1_app.
  - rewrite str_app_nil_l.
    rewrite (proj2 (strip_repeat_space Py.CR n eq_refl)).
    by rewrite str_app_nil_r, split1_none.
Qed.

Lemma rstrip_char_id (x : ascii) (s : string) :
  Py.contains x s = false -> Py.rstrip_char x s = s.
Proof.
  induction s as [|ch s IH]; [done|]. simpl.
  intros [Hc Hs]%orb_false_iff. rewrite (IH Hs), Hc. by destruct s.
Qed.

(** What the client sends is its input closed by a line feed, and the
    server does not take it for an empty line. *)
Lemma request_sent (input sent : string) :
  no_lf input -> request input = Some sent ->
  sent = input +:+ Py.NL /\ Py.rstrip_char Py.CR input <> "".
Proof.
  intros Hn. unfold request. destruct (Py.strip input) eqn:Hs; [done|].
  intros [= <-]. rewrite rstrip_char_id by done. split; [done|].
  intros He. destruct (rstrip_char_spec Py.CR input) as (n & Hin & _).
  rewrite He, str_app_nil_l in Hin. subst input. unfold Py.strip in Hs.
  by rewrite (proj1 (strip_repeat_space Py.CR n eq_refl)) in Hs.
Qed.

Lemma recv_answer (conn : ClientConn) (input cmd r extra : string) :
  (cmd = "LIST" \/ cmd = "HELP" ->
   Py.upper (Py.split1 Py.SP (Py.strip input)).1 = cmd) ->
  counted_answer cmd r \/ plain_answer r ->
  chunks_ok (incoming conn) -> pending conn = r +:+ extra ->
  exists conn',
    recv_response conn input = (Text r, conn') /\
    pending conn' = extra /\ chunks_ok (incoming conn').
Proof.
  intros Hcmd [(ls & Htag & -> & Hnl & Hv)|(l & -> & Hl & Hv & H1 & H2)]
    Hinc Hp.
  - by apply (recv_frame conn input cmd ls extra); auto.
  - rewrite str_app_assoc in Hp. by apply recv_line.
Qed.

Lemma process_line_answer ts st c input st' c' r close
    (conn : ClientConn) (extra : string) :
  USERS st = _hash_seeded_users -> auth_inv st c -> store_inv st ->
  store_ok st -> store_text st ->
  process_line ts st c (Py.rstrip_char Py.CR input)
  = (st', c', Some r, close) ->
  chunks_ok (incoming conn) -> pending conn = r +:+ extra ->
  exists conn',
    recv_response conn input = (Text r, conn') /\
    pending conn' = extra /\ chunks_ok (incoming conn').
Proof.
  intros Hu Hc Hinv Hok Htext Hp.
  assert (Hne : Py.rstrip_char Py.CR input <> "").
  { intros He. by rewrite He in Hp. }
  rewrite process_line_dispatch in Hp by done.
  apply (recv_answer conn input
           (Py.upper (Py.split1 Py.SP (Py.rstrip_char Py.CR input)).1)).
  - intros Htag. by apply client_command.
  - eapply dispatch_answer; try done. by rewrite Hp.
Qed.

Lemma initial_server_ok : server_ok initial_server.
Proof.
  split.
  - intros k p Hkp.
    change (posts (store initial_server)) with (∅ : gmap Z Post) in Hkp.
    by apply lookup_empty_Some in Hkp.
  - intros fd c Hc.
    change (clients initial_server) with (∅ : gmap nat ClientState) in Hc.
    by apply lookup_empty_Some in Hc.
Qed.

(** *** One exchange *)

(** After any run of the server, a client whose earlier lines have all
    been handled sends what [main] makes of a line of input. The server
    answers it at once, and [recv_response] reads exactly that answer,
    however it is cut into chunks on the way: a plain line, or for a LIST
    or a HELP the whole frame, with what follows left for the next call. *)
Theorem round_trip (evs : list event) env fd c (input sent : string) :
  Forall event_ok evs -> Forall event_text evs ->
  clients (run initial_server evs).1 !! fd = Some c -> buffer c = "" ->
  no_lf input -> Utf8.valid input = true ->
  (String.length input < MAX_BUFFER_BYTES)%nat ->
  request input = Some sent -> recv env = RecvData sent ->
  exists r acts,
    (handle_client_socket env fd (run initial_server evs).1).2
    = SendAll fd r :: acts /\
    forall (conn : ClientConn) (extra : string),
      chunks_ok (incoming conn) -> pending conn = r +:+ extra ->
      exists conn',
        recv_response conn input = (Text r, conn') /\
        pending conn' = extra /\ chunks_ok (incoming conn').
Proof.
  intros Hok Htx Hfd Hbuf Hn Hv Hlen Hreq Hrecv.
  destruct (request_sent input sent Hn Hreq) as [-> Hne].
  pose proof (run_inv evs initial_server initial_server_inv)
    as (Hu & Hinv & Hcl).
  pose proof (run_ok evs initial_server Hok initial_server_ok) as [Hsok _].
  pose proof (run_text evs initial_server Htx initial_server_text)
    as [Hstx _].
  set (srv := (run initial_server evs).1) in *.
  destruct (Hcl fd c Hfd) as (_ & _ & _ & Hauth).
  unfold handle_client_socket. rewrite Hfd, Hrecv. clear Hrecv.
  destruct (input +:+ Py.NL) as [|x y] eqn:Hxy; [by destruct input|].
  rewrite <- Hxy in *. clear x y Hxy.
  unfold Utf8.decode. rewrite valid_app_nl, Hv.
  cbn [buffer set_buffer]. rewrite Hbuf, str_app_nil_l.
  assert (Hcap : (MAX_BUFFER_BYTES <? String.length (input +:+ Py.NL))%nat
                 = false).
  { apply Nat.ltb_ge. rewrite str_length_app.
    change (String.length Py.NL) with 1%nat. rewrite Nat.add_1_r.
    exact Hlen. }
  rewrite Hcap, str_length_app.
  change (String.length Py.NL) with 1%nat. rewrite Nat.add_1_r.
  destruct (drain_line (String.length input) env 0 fd (store srv)
              (set_buffer c (input +:+ Py.NL)) input "" eq_refl Hn Hne)
    as (st2 & c2 & r & cl & Hp & Hd).
  rewrite Hd. exists r.
  assert (Hread : forall (conn : ClientConn) (extra : string),
            chunks_ok (incoming conn) -> pending conn = r +:+ extra ->
            exists conn',
              recv_response conn input = (Text r, conn') /\
              pending conn' = extra /\ chunks_ok (incoming conn')).
  { intros conn extra.
    by apply (process_line_answer (clock env 0) (store srv)
                (set_buffer (set_buffer c (input +:+ Py.NL)) "")
                input st2 c2 r cl). }
  destruct (send_fails env 0 || cl); [by eexists|].
  destruct (drain _ env 1 fd st2 c2) as [[st3 oc] acts]. by exists acts.
Qed.

(** *** Everything the server sends *)

Lemma drain_sends fuel env k fd st c :
  env_ok env -> env_text env ->
  USERS st = _hash_seeded_users -> store_inv st -> auth_inv st c ->
  store_ok st -> session_ok c -> store_text st ->
  Utf8.valid (buffer c) = true ->
  sends_ok (drain fuel env k fd st c).2.
Proof.
  intros Henv Hetx. revert k st c.
  induction fuel as [|fuel IH]; intros k st c Hu Hinv Hauth Hok Hc Htx Hb;
    simpl; [constructor|].
  destruct (Py.contains Py.LF (buffer c)) eqn:Hlf; simpl; [|constructor].
  destruct (Py.split1 Py.LF (buffer c)) as [raw t] eqn:Hs.
  destruct (valid_split1 Py.LF (buffer c) raw t eq_refl Hs Hb) as [Hrawv Ht].
  assert (Hraw : no_lf raw) by (by destruct (split1_spec _ _ _ _ Hs)).
  destruct (rstrip_char_spec Py.CR raw) as (n & Hn & _).
  pose proof (valid_rstrip_char Py.CR raw eq_refl Hrawv) as Hlinev.
  destruct (Py.rstrip_char Py.CR raw) as [|a l] eqn:Hr; [by apply IH|].
  assert (Hline : no_lf (String a l)).
  { rewrite Hn in Hraw. by apply no_lf_app in Hraw as [? _]. }
  set (c1 := set_buffer c (default "" t)).
  assert (Hauth1 : auth_inv st c1) by done.
  pose proof (process_line_users (clock env k) st c1 (String a l)) as Hu2.
  pose proof (process_line_store_inv (clock env k) st c1 (String a l)
                Hline Hauth1 Hinv) as Hinv2.
  pose proof (process_line_auth (clock env k) st c1 (String a l) Hauth1)
    as Hauth2.
  pose proof (process_line_ok (clock env k) st c1 (String a l)
                Hok Hc (Henv k) Hline) as [Hok2 Hc2].
  pose proof (process_line_text (clock env k) st c1 (String a l)
                (Hetx k) Hlinev Htx) as Htx2.
  pose proof (process_line_buffer (clock env k) st c1 (String a l)) as Hb2.
  assert (Hans : forall r,
            (process_line (clock env k) st c1 (String a l)).1.2 = Some r ->
            wire_answer r).
  { intros r. rewrite process_line_dispatch by done. intros Hr'.
    destruct (dispatch_answer _ _ _ _ _ _ Hu Hauth1 Hinv Hok Htx Hr');
      [right; by eexists|by left]. }
  destruct (process_line (clock env k) st c1 (String a l))
    as [[[st2 c2] resp] cl].
  simpl in Hu2, Hinv2, Hauth2, Hok2, Hc2, Htx2, Hb2, Hans.
  assert (Hsent : sends_ok match resp with
                           | None | Some "" => []
                           | Some r => [SendAll fd r]
                           end).
  { destruct resp as [[|x r]|]; try constructor; [by apply Hans|constructor]. }
  assert (Hclose : sends_ok (match resp with
                             | None | Some "" => []
                             | Some r => [SendAll fd r]
                             end ++ [SockClose fd])).
  { apply Forall_app. split; [done|]. by repeat constructor. }
  destruct (match _ with [] => false | _ => send_fails env k end); [done|].
  destruct cl; [done|].
  assert (Hb3 : Utf8.valid (buffer c2) = true) by (by rewrite Hb2).
  pose proof (IH (S k) st2 c2 ltac:(congruence) Hinv2 Hauth2 Hok2 Hc2 Htx2 Hb3)
    as Hrest.
  destruct (drain fuel env (S k) fd st2 c2) as [[st3 oc] acts].
  apply Forall_app. by split.
Qed.

Lemma handle_client_socket_sends env fd srv :
  env_ok env -> env_text env ->
  server_inv srv -> server_ok srv -> server_text srv ->
  sends_ok (handle_client_socket env fd srv).2.
Proof.
  intros Henv Hetx (Hu & Hinv & Hcl) [Hok Hcok] [Htx Hctx].
  unfold handle_client_socket, close_client.
  destruct (clients srv !! fd) as [client|] eqn:Hfd;
    [|by repeat constructor].
  destruct (match recv env with
            | RecvConnectionError => ""
            | RecvData d => d
            end) as [|a d]; [by repeat constructor|].
  unfold Utf8.decode.
  destruct (Utf8.valid (String a d)) eqn:Hv; [|by repeat constructor].
  destruct (_ <? _)%nat.
  { constructor; [left; by apply plain_literal|by repeat constructor]. }
  destruct (Hcl fd client Hfd) as (_ & _ & _ & Hauth).
  pose proof (drain_sends
                (String.length (buffer (set_buffer client
                                          (buffer client +:+ String a d))))
                env 0 fd (store srv)
                (set_buffer client (buffer client +:+ String a d))
                Henv Hetx Hu Hinv Hauth Hok (Hcok _ _ Hfd) Htx) as Hd.
  destruct (drain _ env 0 fd (store srv) _) as [[st oc] acts].
  apply Hd. apply valid_app_2; [by eapply Hctx|done].
Qed.

Lemma step_first (srv : Server) (ev : event) :
  (run srv [ev]).1 = (step srv ev).1.
Proof. simpl. by destruct (step srv ev). Qed.

Lemma run_sends (evs : list event) (srv : Server) :
  Forall event_ok evs -> Forall event_text evs ->
  server_inv srv -> server_ok srv -> server_text srv ->
  sends_ok (run srv evs).2.
Proof.
  revert srv. induction evs as [|ev evs IH]; intros srv Hoks Htxs H1 H2 H3;
    [constructor|].
  apply Forall_cons in Hoks as [Hok Hoks].
  apply Forall_cons in Htxs as [Htx Htxs].
  pose proof (run_inv [ev] srv H1) as H1'.
  pose proof (run_ok [ev] srv ltac:(by constructor) H2) as H2'.
  pose proof (run_text [ev] srv ltac:(by constructor) H3) as H3'.
  rewrite step_first in H1', H2', H3'.
  assert (Hs : sends_ok (step srv ev).2).
  { destruct ev as [fd a|fd env]; [constructor|].
    by apply handle_client_socket_sends. }
  simpl. destruct (step srv ev) as [srv1 a1].
  specialize (IH srv1 Hoks Htxs H1' H2' H3').
  destruct (run srv1 evs) as [srv2 a2]. apply Forall_app. by split.
Qed.

(** Whatever the server sends, in any run, is text a client can read:
    one plain line closed by a line feed, or the frame of a LIST or a
    HELP with as many plain lines as its header counts. *)
Theorem server_sends_lines_and_frames (evs : list event) fd (r : string) :
  Forall event_ok evs -> Forall event_text evs ->
  SendAll fd r ∈ (run initial_server evs).2 ->
  (exists l, r = l +:+ Py.NL /\ no_lf l /\ Utf8.valid l = true) \/
  (exists tag ls,
     (tag = "LIST" \/ tag = "HELP") /\ r = framed tag ls /\
     Forall no_lf ls /\ Forall (fun l => Utf8.valid l = true) ls).
Proof.
  intros Hok Htx Hin.
  pose proof (run_sends evs initial_server Hok Htx initial_server_inv
                initial_server_ok initial_server_text) as Hs.
  unfold sends_ok in Hs. rewrite Forall_forall in Hs.
  destruct (Hs _ Hin) as [(l & ? & ? & ? & _)|[cmd (ls & ? & ? & ? & ?)]].
  - left. by exists l.
  - right. by exists cmd, ls.
Qed.

End Exchange.

(** ** The model at concrete inputs *)

Section Concrete.
Local Existing Instance plain_hasher.


(** The same happens when the line starts with a space. *)
Example leading_space_unknown :
  (process_line "" initial_store (new_client 0 "") " HELP").1.2
    = Some (ln "ERR UNKNOWN_COMMAND") /\
  (spec_process_line "" initial_store (new_client 0 "") " HELP").1.2
    = Some (help_response help_body).
Proof. split; reflexivity. Qed.

(** *** The theorems above at sample inputs *)

Lemma sample_store_ok : store_ok sample_store.
Proof.
  intros k p. unfold sample_store. simpl.
  rewrite !lookup_insert_Some, lookup_empty.
  intros [[<- <-]|[_ [[<- <-]|[_ ?]]]]; done.
Qed.

Lemma del_authorization_witness :
  authenticated (session 7 "admin" "admin") = true /\
  Py.split " 2 " = ["2"] /\ Py.int "2" = Some 2 /\
  (String.length "2" <= MAX_STR_DIGITS)%nat /\
  let '(st', c', resp) :=
    handle_del sample_store (session 7 "admin" "admin") " 2 " in
  process_line "" sample_store (session 7 "admin" "admin")
               ("DEL" +:+ " " +:+ " 2 ")
    = (st', c', Some resp, false) /\
  c' = session 7 "admin" "admin" /\
  match posts sample_store !! 2 with
  | None => st' = sample_store /\ resp = ln "ERR Not found"
  | Some P =>
      if bool_decide (role (session 7 "admin" "admin") = Some "admin"
                      \/ username (session 7 "admin" "admin") = author P)
      then resp = ln ("OK Deleted " +:+ pretty 2) /\
           posts st' !! 2 = None /\
           (forall j, j <> 2 -> posts st' !! j = posts sample_store !! j) /\
           USERS st' = USERS sample_store /\
           next_post_id st' = next_post_id sample_store
      else st' = sample_store /\ resp = ln "ERR Not authorized"
  end.
Proof.
  assert (Hlen : (String.length "2" <= MAX_STR_DIGITS)%nat).
  { apply Nat.leb_le. reflexivity. }
  split; [reflexivity|]. split; [reflexivity|]. split; [reflexivity|].
  split; [exact Hlen|].
  apply (del_authorization "" sample_store (session 7 "admin" "admin")
           " 2 " "2" 2); [reflexivity|reflexivity|reflexivity|exact Hlen].
Defined.

Lemma count_framing_witness :
  authenticated (session 5 "sam" "user") = true /\
  Py.strip " " = "" /\ ascii_text " 1" /\ Py.strip " 1" <> "" /\
  store_ok sample_store /\
  (handle_list sample_store (session 5 "sam" "user") " 1").2
    = ln "ERR BAD_SYNTAX" /\
  exists ks ps lines,
    lines = (fun p => pretty (post_id p) +:+ " "
                        +:+ default "None" (author p) +:+ " "
                        +:+ timestamp p +:+ " " +:+ message p) <$> ps /\
    (handle_list sample_store (session 5 "sam" "user") " ").2
      = Py.join Py.NL (("OK LIST " +:+ pretty (size (posts sample_store)))
                         :: lines) +:+ Py.NL /\
    length lines = size (posts sample_store) /\
    StronglySorted Z.lt ks /\
    post_id <$> ps = ks /\
    wire_lines (handle_list sample_store (session 5 "sam" "user") " ").2
      = (("OK LIST " +:+ pretty (size (posts sample_store))) :: lines, "").
Proof.
  assert (Hne : Py.strip " 1" <> "") by discriminate.
  split; [reflexivity|]. split; [reflexivity|]. split; [reflexivity|].
  split; [exact Hne|]. split; [exact sample_store_ok|].
  split.
  - pose proof (proj1 (count_framing sample_store (session 5 "sam" "user")
                         " 1")) as Hl.
    destruct Hl as (_ & _ & _ & Hl & _). exact (Hl eq_refl eq_refl Hne).
  - pose proof (proj1 (count_framing sample_store (session 5 "sam" "user")
                         " ")) as Hl.
    destruct Hl as (_ & _ & _ & _ & Hl).
    destruct (Hl eq_refl eq_refl)
      as (ks & ps & lines & Ht & Hr & Hn & Hs & _ & _ & Hok).
    destruct (Hok sample_store_ok) as [Hids Hw].
    exists ks, ps, lines.
    split; [exact Ht|]. split; [exact Hr|]. split; [exact Hn|].
    split; [exact Hs|]. split; [exact Hids|exact Hw].
Defined.

(** What that LIST answer is, line by line. *)
Example list_sample :
  wire_lines (handle_list sample_store (session 5 "sam" "user") " ").2
  = ([ "OK LIST 2";
       "1 oliver 2026-01-01T00:00:00 hello world";
       "2 sam 2026-01-01T00:00:00 second  post" ], "").
Proof. vm_compute. reflexivity. Qed.

(** The answer for the empty store. *)
Example list_empty :
  (handle_list initial_store (session 5 "sam" "user") "").2
  = ln "OK LIST 0".
Proof. vm_compute. reflexivity. Qed.

Lemma post_ids_consecutive_witness :
  let '(srv, acts) := run initial_server sample_events in
  exists n : nat,
    post_acks acts = (fun i => post_ack (Z.of_nat i)) <$> seq 1 n /\
    next_post_id (store srv) = 1 + Z.of_nat n /\
    forall k, is_Some (posts (store srv) !! k) -> 1 <= k <= Z.of_nat n.
Proof. exact (proj2 (post_ids_consecutive sample_events)). Defined.

(** In that run the ids given are 1, 2 and 3: the POST without a
    message took none, and the id of the deleted post was not given
    again. *)
Example run_sample :
  post_acks (run initial_server sample_events).2
    = [post_ack 1; post_ack 2; post_ack 3] /\
  next_post_id (store (run initial_server sample_events).1) = 4 /\
  posts (store (run initial_server sample_events).1) !! 1 = None.
Proof. vm_compute. auto. Qed.


(** A role in the place of the password gets nobody in, and the right
    password gives the stored role. *)
Example login_no_spoof :
  (process_line "" initial_store (new_client 3 "") "LOGIN sam admin").1
    = (initial_store, new_client 3 "", Some (ln "ERR Invalid credentials"))
  /\
  role (process_line "" initial_store (new_client 3 "")
                     "LOGIN sam pw2").1.1.2 = Some "user" /\
  role (process_line "" initial_store (new_client 3 "")
                     "LOGIN admin adminpw").1.1.2 = Some "admin".
Proof. split_and!; reflexivity. Qed.

Lemma buffer_cap_witness :
  clients full_server !! 4%nat = Some full_client /\
  recv (quiet_env (RecvData "B")) = RecvData "B" /\ "B" <> "" /\
  Utf8.decode "B" = Some "B" /\
  (MAX_BUFFER_BYTES < String.length (buffer full_client +:+ "B"))%nat /\
  let '(srv', acts) :=
    handle_client_socket (quiet_env (RecvData "B")) 4 full_server in
  acts = [SendAll 4 (ln "ERR Line too long"); SockClose 4] /\
  store srv' = store full_server /\
  clients srv' !! 4%nat = None /\
  (forall fd', fd' <> 4%nat ->
               clients srv' !! fd' = clients full_server !! fd').
Proof.
  assert (Hlen : (MAX_BUFFER_BYTES
                  < String.length (buffer full_client +:+ "B"))%nat).
  { apply Nat.ltb_lt. vm_compute. reflexivity. }
  split_and!; [reflexivity|reflexivity|discriminate|reflexivity|exact Hlen|].
  apply (buffer_cap (quiet_env (RecvData "B")) 4 full_server full_client
           "B" "B"); [reflexivity|reflexivity|discriminate|reflexivity|].
  exact Hlen.
Defined.


(** The payload of that line keeps its spaces. *)
Example post_verbatim :
  message <$> posts (process_line "" sample_store (session 5 "sam" "user")
                                  "post  a  b ").1.1.1 !! 3
  = Some " a  b ".
Proof. vm_compute. reflexivity. Qed.


Lemma login_already_logged_in_witness :
  authenticated (session 5 "sam" "user") = true /\
  Py.upper "Login" = "LOGIN" /\
  handle_login sample_store (session 5 "sam" "user") "admin adminpw x"
    = (sample_store, session 5 "sam" "user", ln "ERR Already logged in") /\
  process_line "" sample_store (session 5 "sam" "user") "Login"
    = (sample_store, session 5 "sam" "user",
       Some (ln "ERR Already logged in"), false) /\
  process_line "" sample_store (session 5 "sam" "user")
               ("Login" +:+ " " +:+ "admin adminpw x")
    = (sample_store, session 5 "sam" "user",
       Some (ln "ERR Already logged in"), false).
Proof.
  split_and!; [reflexivity|reflexivity|..];
    apply (login_already_logged_in "" sample_store
             (session 5 "sam" "user") "Login" "admin adminpw x");
    reflexivity.
Defined.

Lemma line_extraction_witness :
  (String.length (buffer sample_conn) <= 40)%nat /\
  (Py.contains Py.LF (buffer sample_conn) = false ->
   drain 40 (quiet_env RecvConnectionError) 0 5 sample_store sample_conn
   = (sample_store, Some sample_conn, [])) /\
  (forall raw tail,
     Py.contains Py.LF raw = false ->
     buffer sample_conn = raw +:+ Py.NL +:+ tail ->
     let line := Py.rstrip_char Py.CR raw in
     (exists n, raw = line +:+ repeat_char Py.CR n) /\
     ends_with Py.CR line = false /\
     (line = "" ->
      drain 40 (quiet_env RecvConnectionError) 0 5 sample_store sample_conn
      = drain (String.length tail) (quiet_env RecvConnectionError) 1 5
              sample_store (set_buffer sample_conn tail)) /\
     (line <> "" ->
      exists st2 c2 r close,
        process_line (clock (quiet_env RecvConnectionError) 0) sample_store
                     (set_buffer sample_conn tail) line
          = (st2, c2, Some r, close) /\
        buffer c2 = tail /\
        drain 40 (quiet_env RecvConnectionError) 0 5 sample_store
              sample_conn
        = if send_fails (quiet_env RecvConnectionError) 0 || close
          then (st2, None, [SendAll 5 r; SockClose 5])
          else let '(st3, oc, acts) :=
                 drain (String.length tail) (quiet_env RecvConnectionError)
                       1 5 st2 c2 in
               (st3, oc, SendAll 5 r :: acts))).
Proof.
  assert (Hf : (String.length (buffer sample_conn) <= 40)%nat).
  { apply Nat.leb_le. reflexivity. }
  split; [exact Hf|].
  exact (line_extraction 40 (quiet_env RecvConnectionError) 0 5
           sample_store sample_conn Hf).
Defined.

(** That buffer, drained: the first line keeps its spaces and loses
    both carriage returns, the empty line is passed over in silence,
    and the unfinished line stays in the buffer. *)
Example drain_sample :
  let '(st, oc, acts) :=
    drain 40 (quiet_env RecvConnectionError) 0 5 sample_store sample_conn in
  message <$> posts st !! 3 = Some " a  b " /\
  buffer <$> oc = Some "LI" /\
  acts = [SendAll 5 (post_ack 3)].
Proof. vm_compute. auto. Qed.

(** One carriage return alone on a line is an empty line. *)
Example drain_cr_only :
  drain 9 (quiet_env RecvConnectionError) 0 5 sample_store
        (set_buffer sample_conn (String Py.CR Py.NL))
  = (sample_store, Some (set_buffer sample_conn ""), []).
Proof. reflexivity. Qed.

End Concrete.

(** ** Further theorems at sample inputs *)

Section ConcreteMore.
Local Existing Instance plain_hasher.

Lemma plain_hasher_ok : hasher_ok.
Proof.
  split; intros p; simpl; [apply String.eqb_refl|discriminate].
Qed.

Lemma quiet_env_ok (r : recv_result) :
  env_ok (quiet_env r) /\ env_text (quiet_env r).
Proof. split; intros k; reflexivity. Qed.

Lemma sample_events_ok :
  Forall event_ok sample_events /\ Forall event_text sample_events.
Proof.
  split; repeat constructor; apply quiet_env_ok.
Qed.

Lemma sample_run_session :
  clients (run initial_server sample_events).1 !! 3%nat
  = Some (session 3 "oliver" "user").
Proof. vm_compute. reflexivity. Qed.

Lemma auth_required_witness :
  authenticated (new_client 3 "") = false /\
  Py.upper "list" ∈ ["POST"; "LIST"; "GET"; "DEL"; "WHOAMI"] /\
  process_line "" sample_store (new_client 3 "") "list"
    = (sample_store, new_client 3 "", Some (ln "ERR Not logged in"), false) /\
  process_line "" sample_store (new_client 3 "") ("list" +:+ " " +:+ "x y")
    = (sample_store, new_client 3 "", Some (ln "ERR Not logged in"), false).
Proof.
  assert (Hin : Py.upper "list" ∈ ["POST"; "LIST"; "GET"; "DEL"; "WHOAMI"]).
  { apply elem_of_cons. right. apply elem_of_cons. by left. }
  split; [reflexivity|]. split; [exact Hin|].
  apply (auth_required "" sample_store (new_client 3 "") "list" "x y");
    [reflexivity|exact Hin].
Defined.

Lemma session_fixed_once_authenticated_witness :
  authenticated (session 5 "sam" "user") = true /\
  (process_line "" sample_store (session 5 "sam" "user")
                "LOGIN admin adminpw").1.1.2
  = session 5 "sam" "user".
Proof.
  split; [reflexivity|].
  apply (session_fixed_once_authenticated "" sample_store
           (session 5 "sam" "user") "LOGIN admin adminpw").
  reflexivity.
Defined.


Lemma register_then_login_witness :
  hasher_ok /\
  USERS initial_store !! "newcomer" = None /\
  (10 <= Py.len "0123456789")%nat /\
  authenticated (new_client 3 "") = false /\
  ascii_text "newcomer 0123456789" /\
  Py.split "newcomer 0123456789" = ["newcomer"; "0123456789"] /\
  let '(st1, outcome) := register initial_store "newcomer" "0123456789" in
  outcome = (true, "OK registered") /\
  posts st1 = posts initial_store /\
  next_post_id st1 = next_post_id initial_store /\
  exists c',
    handle_login st1 (new_client 3 "") "newcomer 0123456789"
      = (st1, c', ln ("OK Logged in as " +:+ "newcomer" +:+ " (user)")) /\
    authenticated c' = true /\ username c' = Some "newcomer" /\
    role c' = Some "user".
Proof.
  assert (Hlen : (10 <= Py.len "0123456789")%nat).
  { apply Nat.leb_le. reflexivity. }
  split; [exact plain_hasher_ok|].
  split; [reflexivity|]. split; [exact Hlen|].
  split; [reflexivity|]. split; [reflexivity|]. split; [reflexivity|].
  apply (register_then_login initial_store (new_client 3 "")
           "newcomer" "0123456789" "newcomer 0123456789");
    [exact plain_hasher_ok|reflexivity|exact Hlen|reflexivity|reflexivity|
     reflexivity].
Defined.

Lemma login_name_is_word_witness :
  authenticated (new_client 3 "") = false /\
  authenticated (process_line "" initial_store (new_client 3 "")
                              "LOGIN sam pw2").1.1.2 = true /\
  username (process_line "" initial_store (new_client 3 "")
                         "LOGIN sam pw2").1.1.2 = Some "sam" /\
  "sam" <> "" /\ str_all nonspace "sam" = true /\
  is_Some (USERS initial_store !! "sam").
Proof.
  split_and!; [reflexivity..| | |];
    apply (login_name_is_word "" initial_store (new_client 3 "")
             "LOGIN sam pw2" "sam"); reflexivity.
Defined.

Lemma post_then_get_witness :
  authenticated (session 5 "sam" "user") = true /\
  Py.blank " hi  there" = false /\
  authenticated (session 7 "admin" "admin") = true /\
  exists st1,
    process_line "noon" sample_store (session 5 "sam" "user")
                 ("POST" +:+ " " +:+ " hi  there")
      = (st1, session 5 "sam" "user",
         Some (post_ack (next_post_id sample_store)), false) /\
    process_line "later" st1 (session 7 "admin" "admin")
                 ("GET" +:+ " " +:+ pretty (next_post_id sample_store))
      = (st1, session 7 "admin" "admin",
         Some (ln ("OK " +:+ pretty (next_post_id sample_store) +:+ " "
                     +:+ Py.fmt (username (session 5 "sam" "user"))
                     +:+ " " +:+ "noon" +:+ " " +:+ " hi  there")),
         false).
Proof.
  split; [reflexivity|]. split; [reflexivity|]. split; [reflexivity|].
  apply (post_then_get "noon" "later" sample_store
           (session 5 "sam" "user") (session 7 "admin" "admin")
           " hi  there"); reflexivity.
Defined.

Lemma initial_counter : counter_inv 0 initial_store.
Proof.
  split; [reflexivity|]. intros k [p Hp].
  change (posts initial_store) with (∅ : gmap Z Post) in Hp.
  by apply lookup_empty_Some in Hp.
Qed.

Lemma post_is_fresh_witness :
  counter_inv 0 initial_store /\
  authenticated (session 5 "sam" "user") = true /\
  Py.blank "first" = false /\
  let st1 :=
    (handle_post "noon" initial_store (session 5 "sam" "user")
                 "first").1.1 in
  posts initial_store !! next_post_id initial_store = None /\
  is_Some (posts st1 !! next_post_id initial_store) /\
  (forall k, k <> next_post_id initial_store ->
             posts st1 !! k = posts initial_store !! k) /\
  size (posts st1) = S (size (posts initial_store)) /\
  counter_inv 1 st1.
Proof.
  split; [exact initial_counter|].
  split; [reflexivity|]. split; [reflexivity|].
  apply (post_is_fresh "noon" initial_store (session 5 "sam" "user")
           "first" 0); [exact initial_counter|reflexivity|reflexivity].
Defined.

Lemma del_then_get_witness :
  authenticated (session 7 "admin" "admin") = true /\
  authenticated (session 5 "sam" "user") = true /\
  posts sample_store !! 2 = Some (sample_post 2 "sam" "second  post") /\
  (role (session 7 "admin" "admin") = Some "admin" \/
   username (session 7 "admin" "admin")
   = author (sample_post 2 "sam" "second  post")) /\
  exists st1,
    process_line "" sample_store (session 7 "admin" "admin")
                 ("DEL" +:+ " " +:+ pretty 2)
      = (st1, session 7 "admin" "admin",
         Some (ln ("OK Deleted " +:+ pretty 2)), false) /\
    process_line "" st1 (session 5 "sam" "user")
                 ("GET" +:+ " " +:+ pretty 2)
      = (st1, session 5 "sam" "user", Some (ln "ERR Not found"), false) /\
    S (size (posts st1)) = size (posts sample_store).
Proof.
  split; [reflexivity|]. split; [reflexivity|]. split; [reflexivity|].
  split; [by left|].
  apply (del_then_get "" sample_store (session 7 "admin" "admin")
           (session 5 "sam" "user") 2
           (sample_post 2 "sam" "second  post"));
    [reflexivity|reflexivity|reflexivity|by left].
Defined.

Lemma error_means_no_effect_witness :
  (process_line "" sample_store (session 5 "sam" "user") "DEL 1").1.2
    = Some (ln "ERR Not authorized") /\
  Py.startswith "ERR" (ln "ERR Not authorized") = true /\
  (process_line "" sample_store (session 5 "sam" "user") "DEL 1").1.1.1
    = sample_store /\
  (process_line "" sample_store (session 5 "sam" "user") "DEL 1").1.1.2
    = session 5 "sam" "user".
Proof.
  pose proof (error_means_no_effect "" sample_store
                (session 5 "sam" "user") "DEL 1") as He.
  assert (Hr : (process_line "" sample_store (session 5 "sam" "user")
                             "DEL 1").1.2
               = Some (ln "ERR Not authorized")) by reflexivity.
  destruct (process_line "" sample_store (session 5 "sam" "user") "DEL 1")
    as [[[st' c'] resp] cl].
  destruct (He _ Hr eq_refl) as [Hst Hc].
  split; [exact Hr|]. split; [reflexivity|]. split; [exact Hst|exact Hc].
Defined.

Lemma who_changes_what_witness :
  ascii_text (Py.split1 Py.SP "get 1").1 /\
  Py.upper (Py.split1 Py.SP "get 1").1 <> "POST" /\
  Py.upper (Py.split1 Py.SP "get 1").1 <> "DEL" /\
  Py.upper (Py.split1 Py.SP "get 1").1 <> "LOGIN" /\
  (process_line "" sample_store (session 5 "sam" "user") "get 1").1.1.1
    = sample_store /\
  (process_line "" sample_store (session 5 "sam" "user") "get 1").1.1.2
    = session 5 "sam" "user".
Proof.
  assert (Ha : ascii_text (Py.split1 Py.SP "get 1").1) by reflexivity.
  pose proof (who_changes_what "" sample_store
                (session 5 "sam" "user") "get 1" Ha) as Hw.
  cbv zeta in Hw.
  destruct (process_line "" sample_store (session 5 "sam" "user") "get 1")
    as [[[st' c'] resp] cl].
  destruct Hw as [Hst Hc].
  assert (H1 : Py.upper (Py.split1 Py.SP "get 1").1 <> "POST")
    by discriminate.
  assert (H2 : Py.upper (Py.split1 Py.SP "get 1").1 <> "DEL")
    by discriminate.
  assert (H3 : Py.upper (Py.split1 Py.SP "get 1").1 <> "LOGIN")
    by discriminate.
  split; [exact Ha|].
  split; [exact H1|]. split; [exact H2|]. split; [exact H3|].
  split; [exact (Hst H1 H2)|exact (Hc H3)].
Defined.

Lemma help_topic_iff_command_witness :
  ascii_text "login" /\
  Py.split (Py.strip " login ") = ["login"] /\
  Py.upper "login" ∈ command_names /\
  exists body,
    handle_help sample_store (new_client 3 "") " login "
    = (sample_store, new_client 3 "",
       help_response (("TOPIC: " +:+ Py.upper "login") :: body)).
Proof.
  assert (Hin : Py.upper "login" ∈ command_names).
  { apply elem_of_cons. right. apply elem_of_cons. by left. }
  split; [reflexivity|]. split; [reflexivity|]. split; [exact Hin|].
  apply (help_topic_iff_command sample_store (new_client 3 "")
           " login " "login"); [reflexivity|reflexivity|exact Hin].
Defined.

Lemma del_has_the_errors_of_get_witness :
  Py.startswith "ERR"
    (handle_get sample_store (session 5 "sam" "user") "99").2 = true /\
  handle_del sample_store (session 5 "sam" "user") "99"
  = handle_get sample_store (session 5 "sam" "user") "99".
Proof.
  split; [reflexivity|].
  apply (del_has_the_errors_of_get sample_store (session 5 "sam" "user")
           "99"). reflexivity.
Defined.

Lemma response_ends_with_newline_witness :
  "WHOAMI" <> "" /\
  exists body,
    (process_line "" sample_store (session 5 "sam" "user") "WHOAMI").1.2
    = Some (body +:+ Py.NL).
Proof.
  split; [discriminate|].
  apply (response_ends_with_newline "" sample_store
           (session 5 "sam" "user") "WHOAMI"). discriminate.
Defined.

Lemma silent_close_witness :
  is_Some (clients sample_server !! 5%nat) /\
  recv (quiet_env (RecvData "")) = RecvData "" /\
  handle_client_socket (quiet_env (RecvData "")) 5 sample_server
  = ({| clients := delete 5%nat (clients sample_server);
        store := store sample_server |}, [SockClose 5]).
Proof.
  assert (Hfd : is_Some (clients sample_server !! 5%nat)).
  { exists (session 5 "sam" "user"). reflexivity. }
  split; [exact Hfd|]. split; [reflexivity|].
  apply (proj2 (silent_close (quiet_env (RecvData "")) 5 sample_server));
    [exact Hfd|]. right. left. reflexivity.
Defined.

Lemma other_connections_untouched_witness :
  6%nat <> 5%nat /\
  clients (handle_client_socket
             (quiet_env (RecvData ("QUIT" +:+ Py.NL))) 6
             {| clients := <[6%nat := session 6 "oliver" "user"]>
                             (clients sample_server);
                store := sample_store |}).1 !! 5%nat
  = clients {| clients := <[6%nat := session 6 "oliver" "user"]>
                            (clients sample_server);
               store := sample_store |} !! 5%nat.
Proof.
  assert (Hne : 5%nat <> 6%nat) by discriminate.
  split; [discriminate|].
  apply (other_connections_untouched
           (quiet_env (RecvData ("QUIT" +:+ Py.NL))) 6
           {| clients := <[6%nat := session 6 "oliver" "user"]>
                           (clients sample_server);
              store := sample_store |} 5). exact Hne.
Defined.

Lemma quit_drops_the_rest_witness :
  buffer (set_buffer (session 5 "sam" "user")
            ("quit now" +:+ Py.NL +:+ "POST x" +:+ Py.NL))
  = "quit now" +:+ Py.NL +:+ ("POST x" +:+ Py.NL) /\
  no_lf "quit now" /\
  Py.upper (Py.split1 Py.SP (Py.rstrip_char Py.CR "quit now")).1 = "QUIT" /\
  exists r,
    (r = ln "OK Bye" \/ r = ln "ERR BAD_SYNTAX") /\
    drain 6 (quiet_env RecvConnectionError) 0 5 sample_store
          (set_buffer (session 5 "sam" "user")
             ("quit now" +:+ Py.NL +:+ "POST x" +:+ Py.NL))
    = (sample_store, None, [SendAll 5 r; SockClose 5]).
Proof.
  split; [reflexivity|]. split; [reflexivity|]. split; [reflexivity|].
  apply (quit_drops_the_rest 5 (quiet_env RecvConnectionError) 0 5
           sample_store
           (set_buffer (session 5 "sam" "user")
              ("quit now" +:+ Py.NL +:+ "POST x" +:+ Py.NL))
           "quit now" ("POST x" +:+ Py.NL)); reflexivity.
Defined.

Lemma failed_send_keeps_the_effect_witness :
  buffer (set_buffer (session 5 "sam" "user")
            ("POST lost" +:+ Py.NL +:+ "LIST" +:+ Py.NL))
  = "POST lost" +:+ Py.NL +:+ ("LIST" +:+ Py.NL) /\
  no_lf "POST lost" /\
  Py.rstrip_char Py.CR "POST lost" <> "" /\
  send_fails (failing_env RecvConnectionError) 0 = true /\
  exists st2 c2 r close,
    process_line (clock (failing_env RecvConnectionError) 0) sample_store
                 (set_buffer
                    (set_buffer (session 5 "sam" "user")
                       ("POST lost" +:+ Py.NL +:+ "LIST" +:+ Py.NL))
                    ("LIST" +:+ Py.NL))
                 (Py.rstrip_char Py.CR "POST lost")
      = (st2, c2, Some r, close) /\
    drain 6 (failing_env RecvConnectionError) 0 5 sample_store
          (set_buffer (session 5 "sam" "user")
             ("POST lost" +:+ Py.NL +:+ "LIST" +:+ Py.NL))
    = (st2, None, [SendAll 5 r; SockClose 5]).
Proof.
  split; [reflexivity|]. split; [reflexivity|]. split; [discriminate|].
  split; [reflexivity|].
  apply (failed_send_keeps_the_effect 5 (failing_env RecvConnectionError)
           0 5 sample_store
           (set_buffer (session 5 "sam" "user")
              ("POST lost" +:+ Py.NL +:+ "LIST" +:+ Py.NL))
           "POST lost" ("LIST" +:+ Py.NL));
    [reflexivity|reflexivity|discriminate|reflexivity].
Defined.

Lemma fragments_reassemble_witness :
  clients sample_server !! 5%nat = Some (session 5 "sam" "user") /\
  no_lf (buffer (session 5 "sam" "user")) /\
  recv (quiet_env (RecvData "POST he")) = RecvData "POST he" /\
  recv (quiet_env (RecvData ("llo" +:+ Py.NL)))
    = RecvData ("llo" +:+ Py.NL) /\
  "POST he" <> "" /\ "llo" +:+ Py.NL <> "" /\ no_lf "POST he" /\
  Utf8.valid "POST he" = true /\ Utf8.valid ("llo" +:+ Py.NL) = true /\
  (String.length (buffer (session 5 "sam" "user") +:+ "POST he")
   <= MAX_BUFFER_BYTES)%nat /\
  (handle_client_socket (quiet_env (RecvData "POST he")) 5
                        sample_server).2 = [] /\
  store (handle_client_socket (quiet_env (RecvData "POST he")) 5
                              sample_server).1 = store sample_server /\
  handle_client_socket (quiet_env (RecvData ("llo" +:+ Py.NL))) 5
    (handle_client_socket (quiet_env (RecvData "POST he")) 5
                          sample_server).1
  = handle_client_socket
      {| recv := RecvData ("POST he" +:+ ("llo" +:+ Py.NL));
         send_fails := send_fails (quiet_env (RecvData ("llo" +:+ Py.NL)));
         clock := clock (quiet_env (RecvData ("llo" +:+ Py.NL))) |}
      5 sample_server.
Proof.
  assert (Hcap : (String.length (buffer (session 5 "sam" "user")
                                   +:+ "POST he")
                  <= MAX_BUFFER_BYTES)%nat).
  { apply Nat.leb_le. vm_compute. reflexivity. }
  split; [reflexivity|]. split; [reflexivity|]. split; [reflexivity|].
  split; [reflexivity|]. split; [discriminate|]. split; [discriminate|].
  split; [reflexivity|]. split; [reflexivity|]. split; [reflexivity|].
  split; [exact Hcap|].
  apply (fragments_reassemble (quiet_env (RecvData "POST he"))
           (quiet_env (RecvData ("llo" +:+ Py.NL))) 5 sample_server
           (session 5 "sam" "user") "POST he" ("llo" +:+ Py.NL));
    [reflexivity|reflexivity|reflexivity|reflexivity|discriminate|
     discriminate|reflexivity|reflexivity|reflexivity|exact Hcap].
Defined.

Lemma buffers_stay_bounded_witness :
  clients (run initial_server sample_events).1 !! 3%nat
    = Some (session 3 "oliver" "user") /\
  sock (session 3 "oliver" "user") = 3%nat /\
  no_lf (buffer (session 3 "oliver" "user")) /\
  (String.length (buffer (session 3 "oliver" "user"))
   <= MAX_BUFFER_BYTES)%nat.
Proof.
  split; [exact sample_run_session|].
  apply (buffers_stay_bounded sample_events 3 (session 3 "oliver" "user")).
  exact sample_run_session.
Defined.

Lemma sessions_match_the_store_witness :
  clients (run initial_server sample_events).1 !! 3%nat
    = Some (session 3 "oliver" "user") /\
  USERS (store (run initial_server sample_events).1)
    = _hash_seeded_users /\
  (authenticated (session 3 "oliver" "user") = true ->
   exists name record,
     username (session 3 "oliver" "user") = Some name /\
     _hash_seeded_users !! name = Some record /\
     role (session 3 "oliver" "user") = rec_role record /\
     (role (session 3 "oliver" "user") = Some "user" \/
      role (session 3 "oliver" "user") = Some "admin")).
Proof.
  split; [exact sample_run_session|].
  destruct (sessions_match_the_store sample_events 3
              (session 3 "oliver" "user") sample_run_session)
    as (Hu & _ & Ha & _).
  split; [exact Hu|exact Ha].
Defined.

Lemma sample_run_post :
  posts (store (run initial_server sample_events).1) !! 2
  = Some {| post_id := 2; author := Some "oliver";
            timestamp := "2026-01-01T00:00:00"; message := "two" |}.
Proof. vm_compute. reflexivity. Qed.

Lemma posts_are_well_formed_witness :
  posts (store (run initial_server sample_events).1) !! 2
    = Some {| post_id := 2; author := Some "oliver";
              timestamp := "2026-01-01T00:00:00"; message := "two" |} /\
  1 <= 2 < next_post_id (store (run initial_server sample_events).1) /\
  (exists name, Some "oliver" = Some name /\
                is_Some (_hash_seeded_users !! name)) /\
  Py.strip "two" <> "" /\ no_lf "two".
Proof.
  split; [exact sample_run_post|].
  destruct (posts_are_well_formed sample_events 2 _ sample_run_post)
    as (_ & Hk & Ha & Hm & Hn).
  split; [exact Hk|]. split; [exact Ha|]. split; [exact Hm|exact Hn].
Defined.

Lemma read_line_closed_witness :
  no_lf (pending {| incoming := ["ab"; "cd"]; buf := "x" |}) /\
  (read_line {| incoming := ["ab"; "cd"]; buf := "x" |}).1 = Closed.
Proof.
  split; [reflexivity|].
  apply (read_line_closed {| incoming := ["ab"; "cd"]; buf := "x" |}).
  reflexivity.
Defined.

Lemma sample_chunks_ok : chunks_ok sample_chunks.
Proof. repeat (constructor; [discriminate|]). constructor. Qed.

Lemma read_line_reassembles_witness :
  chunks_ok (incoming (chunked sample_chunks)) /\
  no_lf "OK LIST 2" /\
  pending (chunked sample_chunks)
  = "OK LIST 2" +:+ Py.NL
      +:+ ("1 oliver t hello world" +:+ Py.NL +:+ "2 sam t second"
             +:+ Py.NL +:+ "OK B") /\
  exists conn',
    read_line (chunked sample_chunks)
    = (if Utf8.valid "OK LIST 2" then Text ("OK LIST 2" +:+ Py.NL)
       else DecodeError, conn') /\
    pending conn'
    = "1 oliver t hello world" +:+ Py.NL +:+ "2 sam t second"
        +:+ Py.NL +:+ "OK B" /\
    chunks_ok (incoming conn').
Proof.
  split; [exact sample_chunks_ok|]. split; [reflexivity|].
  split; [reflexivity|].
  apply (read_line_reassembles (chunked sample_chunks) "OK LIST 2"
           ("1 oliver t hello world" +:+ Py.NL +:+ "2 sam t second"
              +:+ Py.NL +:+ "OK B"));
    [exact sample_chunks_ok|reflexivity|reflexivity].
Defined.

Lemma sample_lines_ok :
  Forall no_lf ["1 oliver t hello world"; "2 sam t second"] /\
  Forall (fun l => Utf8.valid l = true)
         ["1 oliver t hello world"; "2 sam t second"].
Proof. split; repeat constructor. Qed.

Lemma client_reads_frame_witness :
  ("LIST" = "LIST" \/ "LIST" = "HELP") /\
  Py.upper (Py.split1 Py.SP (Py.strip " list ")).1 = "LIST" /\
  chunks_ok (incoming (chunked sample_chunks)) /\
  Forall no_lf ["1 oliver t hello world"; "2 sam t second"] /\
  Forall (fun l => Utf8.valid l = true)
         ["1 oliver t hello world"; "2 sam t second"] /\
  pending (chunked sample_chunks)
  = framed "LIST" ["1 oliver t hello world"; "2 sam t second"]
      +:+ "OK B" /\
  exists conn',
    recv_response (chunked sample_chunks) " list "
    = (Text (framed "LIST" ["1 oliver t hello world"; "2 sam t second"]),
       conn') /\
    pending conn' = "OK B" /\ chunks_ok (incoming conn').
Proof.
  split; [by left|]. split; [reflexivity|].
  split; [exact sample_chunks_ok|].
  split; [exact (proj1 sample_lines_ok)|].
  split; [exact (proj2 sample_lines_ok)|].
  split; [reflexivity|].
  apply (client_reads_frame (chunked sample_chunks) " list " "LIST"
           ["1 oliver t hello world"; "2 sam t second"] "OK B");
    [by left|reflexivity|exact sample_chunks_ok|
     exact (proj1 sample_lines_ok)|exact (proj2 sample_lines_ok)|
     reflexivity].
Defined.

Lemma client_reads_one_line_witness :
  chunks_ok (incoming (chunked ["ERR Not"; " logged in" +:+ Py.NL])) /\
  no_lf "ERR Not logged in" /\ Utf8.valid "ERR Not logged in" = true /\
  Py.startswith "OK LIST " ("ERR Not logged in" +:+ Py.NL) = false /\
  Py.startswith "OK HELP " ("ERR Not logged in" +:+ Py.NL) = false /\
  pending (chunked ["ERR Not"; " logged in" +:+ Py.NL])
  = "ERR Not logged in" +:+ Py.NL +:+ "" /\
  exists conn',
    recv_response (chunked ["ERR Not"; " logged in" +:+ Py.NL]) "LIST"
    = (Text ("ERR Not logged in" +:+ Py.NL), conn') /\
    pending conn' = "" /\ chunks_ok (incoming conn').
Proof.
  assert (Hc : chunks_ok
                 (incoming (chunked ["ERR Not"; " logged in" +:+ Py.NL]))).
  { repeat (constructor; [discriminate|]). constructor. }
  split; [exact Hc|]. split; [reflexivity|]. split; [reflexivity|].
  split; [reflexivity|]. split; [reflexivity|]. split; [reflexivity|].
  apply (client_reads_one_line
           (chunked ["ERR Not"; " logged in" +:+ Py.NL]) "LIST"
           "ERR Not logged in" "");
    [exact Hc|reflexivity|reflexivity|reflexivity|reflexivity|reflexivity].
Defined.

Lemma round_trip_witness :
  Forall event_ok sample_events /\ Forall event_text sample_events /\
  clients (run initial_server sample_events).1 !! 3%nat
    = Some (session 3 "oliver" "user") /\
  buffer (session 3 "oliver" "user") = "" /\
  no_lf "list" /\ Utf8.valid "list" = true /\
  (String.length "list" < MAX_BUFFER_BYTES)%nat /\
  request "list" = Some ("list" +:+ Py.NL) /\
  recv (quiet_env (RecvData ("list" +:+ Py.NL)))
    = RecvData ("list" +:+ Py.NL) /\
  exists r acts,
    (handle_client_socket (quiet_env (RecvData ("list" +:+ Py.NL))) 3
                          (run initial_server sample_events).1).2
    = SendAll 3 r :: acts /\
    forall (conn : ClientConn) (extra : string),
      chunks_ok (incoming conn) -> pending conn = r +:+ extra ->
      exists conn',
        recv_response conn "list" = (Text r, conn') /\
        pending conn' = extra /\ chunks_ok (incoming conn').
Proof.
  assert (Hlen : (String.length "list" < MAX_BUFFER_BYTES)%nat).
  { apply Nat.ltb_lt. vm_compute. reflexivity. }
  split; [exact (proj1 sample_events_ok)|].
  split; [exact (proj2 sample_events_ok)|].
  split; [exact sample_run_session|]. split; [reflexivity|].
  split; [reflexivity|]. split; [reflexivity|]. split; [exact Hlen|].
  split; [reflexivity|]. split; [reflexivity|].
  apply (round_trip sample_events
           (quiet_env (RecvData ("list" +:+ Py.NL))) 3
           (session 3 "oliver" "user") "list" ("list" +:+ Py.NL));
    [exact (proj1 sample_events_ok)|exact (proj2 sample_events_ok)|
     exact sample_run_session|reflexivity|reflexivity|reflexivity|
     exact Hlen|reflexivity|reflexivity].
Defined.

Lemma sample_run_sent :
  SendAll 3 (post_ack 1) ∈ (run initial_server sample_events).2.
Proof.
  assert (Hacts : (run initial_server sample_events).2
                  = [ SendAll 3 (ln "OK Logged in as oliver (user)");
                      SendAll 3 (post_ack 1);
                      SendAll 3 (ln "ERR Empty message");
                      SendAll 3 (post_ack 2);
                      SendAll 3 (ln "OK Deleted 1");
                      SendAll 3 (post_ack 3) ]).
  { vm_compute. reflexivity. }
  rewrite Hacts. apply elem_of_cons. right. apply elem_of_cons. by left.
Qed.

Lemma server_sends_lines_and_frames_witness :
  Forall event_ok sample_events /\ Forall event_text sample_events /\
  SendAll 3 (post_ack 1) ∈ (run initial_server sample_events).2 /\
  ((exists l, post_ack 1 = l +:+ Py.NL /\ no_lf l /\ Utf8.valid l = true) \/
   (exists tag ls,
      (tag = "LIST" \/ tag = "HELP") /\ post_ack 1 = framed tag ls /\
      Forall no_lf ls /\ Forall (fun l => Utf8.valid l = true) ls)).
Proof.
  split; [exact (proj1 sample_events_ok)|].
  split; [exact (proj2 sample_events_ok)|].
  split; [exact sample_run_sent|].
  apply (server_sends_lines_and_frames sample_events 3 (post_ack 1));
    [exact (proj1 sample_events_ok)|exact (proj2 sample_events_ok)|
     exact sample_run_sent].
Defined.

End ConcreteMore.

